(** * Conference-Data-Plots: continent resolution and big-tech classification

    A shallow embedding of the decision logic of
      - [src/config/constants.py]        (the tables),
      - [src/utils/continent_mapper.py]  (class [ContinentMapper]),
      - [src/processors/big_tech_analyzer.py] (class [BigTechAnalyzer]),
      - [src/utils/file_manager.py]      (class [FileManager]),
      - [src/processors/data_reducer.py] (class [DataReducer]),
      - [src/processors/csv_generator.py] (class [CSVGenerator]),
    followed by the properties the specification states about them, and by
    properties of the rest of the code. What a method reads from the file
    system and writes to it is a record of what the file system answers.

    Conventions of the embedding.
      - A value read from a JSON file is a [json]; Python's dynamic checks
        ([isinstance], truthiness, hashability) are functions on [json].
      - A Python call that may raise is a function into [result]; a
        [try/except Exception] is a [match] on that result.
      - A Python [str] is a [string], one [ascii] per character. This is
        exact on text of the 7-bit range ([ascii_text] below), where the
        character classes ([isalpha], [isspace], the word class of [re]),
        the case mappings, [len] and [re.IGNORECASE] are the ones defined
        here. For other characters Python consults the Unicode database,
        which the embedding does not hold: there a letter with an accent is
        alphabetic and a word character, U+00DF upper-cases to two letters,
        U+00A0 is white space, and a character counts once whatever the
        number of its bytes. A statement that depends on the characters of
        a string is therefore made for ASCII text, as a hypothesis.
      - A Python [dict] is an association list in insertion order, its keys
        distinct.
      - A Python [float] is a binary64 [float] of the kernel. *)

From Stdlib Require Import Bool Ascii String List ZArith Lia PeanoNat Permutation.
From Stdlib Require Import Uint63 PrimFloat FloatOps SpecFloat.
Import ListNotations.

Set Implicit Arguments.
Open Scope string_scope.
Open Scope list_scope.

(* ================================================================== *)
(** * Python values                                                    *)
(* ================================================================== *)

Module Py.

(** The exceptions the modelled code can meet. *)
Inductive exn : Type :=
| TypeError
| AttributeError
| KeyError
| FileNotFoundError
| JSONDecodeError
| UnicodeDecodeError.

Inductive result (A : Type) : Type :=
| Ok (a : A)
| Raise (e : exn).

Arguments Ok {A} a.
Arguments Raise {A} e.

Definition bind {A B : Type} (m : result A) (k : A -> result B) : result B :=
  match m with
  | Ok a => k a
  | Raise e => Raise e
  end.

Notation "x <- m ;; k" := (bind m (fun x => k))
  (at level 61, m at next level, right associativity).
Notation "' pat <- m ;; k" := (bind m (fun x => match x with pat => k end))
  (at level 61, pat pattern, m at next level, right associativity).

(** [for x in xs: st = body(x, st)], stopping at the first exception. *)
Fixpoint for_each {A S : Type} (body : A -> S -> result S)
  (xs : list A) (st : S) : result S :=
  match xs with
  | [] => Ok st
  | x :: rest => st' <- body x st ;; for_each body rest st'
  end.

(** What [json.load] produces. A number is an integer here: the code never
    computes with a number it reads. *)
#[warnings="-register-all"]
Inductive json : Type :=
| JNull
| JBool (b : bool)
| JNum (n : Z)
| JStr (s : string)
| JList (l : list json)
| JDict (d : list (string * json)).

(** [bool(v)]. *)
Definition truthy (v : json) : bool :=
  match v with
  | JNull => false
  | JBool b => b
  | JNum n => negb (n =? 0)%Z
  | JStr s => negb (s =? "")
  | JList l => match l with [] => false | _ => true end
  | JDict d => match d with [] => false | _ => true end
  end.

(** [isinstance(v, str)]. *)
Definition is_str (v : json) : bool :=
  match v with JStr _ => true | _ => false end.

(** A list and a dict cannot be hashed: no key of a dict, no member of a set. *)
Definition hashable (v : json) : bool :=
  match v with
  | JList _ | JDict _ => false
  | _ => true
  end.

(** [a == b] on hashable values ([True == 1] and [False == 0] in Python). *)
Definition py_eqb (a b : json) : bool :=
  match a, b with
  | JNull, JNull => true
  | JStr s, JStr t => (s =? t)
  | JBool x, JBool y => Bool.eqb x y
  | JNum n, JNum m => (n =? m)%Z
  | JBool x, JNum m => ((if x then 1 else 0) =? m)%Z
  | JNum n, JBool y => (n =? (if y then 1 else 0))%Z
  | _, _ => false
  end.

(** [iter(v)]: the elements of a list, the keys of a dict, the characters of
    a string; nothing else the model holds can be iterated. *)
Definition chars (s : string) : list json :=
  map (fun c => JStr (String c EmptyString)) (list_ascii_of_string s).

Definition py_iter (v : json) : result (list json) :=
  match v with
  | JList l => Ok l
  | JDict d => Ok (map (fun kv => JStr (fst kv)) d)
  | JStr s => Ok (chars s)
  | _ => Raise TypeError
  end.

(** [len(v)]. *)
Definition py_len (v : json) : result nat :=
  match v with
  | JList l => Ok (List.length l)
  | JDict d => Ok (List.length d)
  | JStr s => Ok (String.length s)
  | _ => Raise TypeError
  end.

(** ** Dictionaries with string keys, in insertion order *)

Fixpoint lookup {V : Type} (k : string) (d : list (string * V)) : option V :=
  match d with
  | [] => None
  | (k', v) :: rest => if k' =? k then Some v else lookup k rest
  end.

(** [d[k] = v]: an existing key keeps its place, a new one goes last. *)
Fixpoint dict_set {V : Type} (k : string) (v : V) (d : list (string * V))
  : list (string * V) :=
  match d with
  | [] => [(k, v)]
  | (k', v') :: rest =>
      if k' =? k then (k', v) :: rest else (k', v') :: dict_set k v rest
  end.

(** [v.get(k)] for a value that must be a dict ([AttributeError] otherwise);
    a missing key gives [None]. *)
Definition get (v : json) (k : string) : result json :=
  match v with
  | JDict d => Ok (match lookup k d with Some x => x | None => JNull end)
  | _ => Raise AttributeError
  end.

(** [v.get(k, default)]. *)
Definition get_default (v : json) (k : string) (default : json) : result json :=
  match v with
  | JDict d => Ok (match lookup k d with Some x => x | None => default end)
  | _ => Raise AttributeError
  end.

(** ** Sets, as the distinct members in insertion order *)

Definition set_add (x : json) (s : list json) : list json :=
  if existsb (py_eqb x) s then s else s ++ [x].

(** ** Strings *)

Definition code (c : ascii) : nat := nat_of_ascii c.

(** The classes of characters and the case mappings below are Python's on
    the 7-bit range, and only there; see [ascii_text].

    [c.isspace()] on the 7-bit range: tab to carriage return, the four
    separators 28..31, and the space. *)
Definition is_space (c : ascii) : bool :=
  let n := code c in
  (((9 <=? n) && (n <=? 13)) || ((28 <=? n) && (n <=? 32)))%nat.

Definition is_upper (c : ascii) : bool :=
  let n := code c in ((65 <=? n) && (n <=? 90))%nat.

Definition is_lower (c : ascii) : bool :=
  let n := code c in ((97 <=? n) && (n <=? 122))%nat.

Definition is_digit (c : ascii) : bool :=
  let n := code c in ((48 <=? n) && (n <=? 57))%nat.

Definition is_alpha (c : ascii) : bool := is_upper c || is_lower c.

Definition is_alnum (c : ascii) : bool := is_alpha c || is_digit c.

(** The class [\w] of [re] on the 7-bit range: alphanumeric or underscore. *)
Definition is_word (c : ascii) : bool := is_alnum c || (code c =? 95)%nat.

Definition to_upper (c : ascii) : ascii :=
  if is_lower c then ascii_of_nat (code c - 32) else c.

Definition to_lower (c : ascii) : ascii :=
  if is_upper c then ascii_of_nat (code c + 32) else c.

Fixpoint map_string (f : ascii -> ascii) (s : string) : string :=
  match s with
  | EmptyString => EmptyString
  | String c rest => String (f c) (map_string f rest)
  end.

Fixpoint forall_string (p : ascii -> bool) (s : string) : bool :=
  match s with
  | EmptyString => true
  | String c rest => p c && forall_string p rest
  end.

(** [s.upper()], [s.lower()] of ASCII text. *)
Definition upper (s : string) : string := map_string to_upper s.
Definition lower (s : string) : string := map_string to_lower s.

(** [s.isalpha()] of ASCII text: at least one character, all of them
    letters. *)
Definition isalpha (s : string) : bool :=
  negb (s =? "") && forall_string is_alpha s.

Fixpoint lstrip (s : string) : string :=
  match s with
  | EmptyString => EmptyString
  | String c rest => if is_space c then lstrip rest else s
  end.

Fixpoint rstrip (s : string) : string :=
  match s with
  | EmptyString => EmptyString
  | String c rest =>
      match rstrip rest with
      | EmptyString => if is_space c then EmptyString else String c EmptyString
      | r => String c r
      end
  end.

(** [s.strip()] of ASCII text. *)
Definition strip (s : string) : string := rstrip (lstrip s).

(** [s.replace(c, "")] for a one-character [c]. *)
Fixpoint remove_char (c : ascii) (s : string) : string :=
  match s with
  | EmptyString => EmptyString
  | String a rest =>
      if Ascii.eqb a c then remove_char c rest else String a (remove_char c rest)
  end.

(** ** More of Python, for the rest of the code *)

(** [isinstance(v, list)]. *)
Definition is_list (v : json) : bool :=
  match v with JList _ => true | _ => false end.

(** A set of strings, as its distinct members in insertion order. *)
Definition str_set_add (x : string) (s : list string) : list string :=
  if existsb (String.eqb x) s then s else s ++ [x].

(** [v[0] if v else default]: the first element of a non-empty list, the
    first character of a non-empty string; a dict read from JSON has no key
    [0], and a number cannot be indexed. (What is empty is falsy, and never
    indexed.) *)
Definition first_or (v default : json) : result json :=
  if negb (truthy v) then Ok default
  else match v with
       | JList (x :: _) => Ok x
       | JStr (String c _) => Ok (JStr (String c EmptyString))
       | JDict _ => Raise KeyError
       | _ => Raise TypeError
       end.

(** [d1.update(d2)]: the items of [d2] are set one after the other. *)
Definition dict_update {V : Type} (d1 d2 : list (string * V)) : list (string * V) :=
  fold_left (fun d kv => dict_set (fst kv) (snd kv) d) d2 d1.

(** [s.replace(old, "")]: the occurrences of [old] are removed from left to
    right, none overlapping another; an empty [old] changes nothing. After
    an occurrence is found, [skip] counts the characters of it still to
    drop. *)
Fixpoint remove_from (old : string) (skip : nat) (s : string) : string :=
  match s with
  | EmptyString => EmptyString
  | String c rest =>
      match skip with
      | S k => remove_from old k rest
      | O =>
          if String.prefix old s
          then remove_from old (String.length old - 1) rest
          else String c (remove_from old 0 rest)
      end
  end.

Definition remove_all (old s : string) : string :=
  if old =? "" then s else remove_from old 0 s.

(** [sorted(l)] on strings, which Python compares character by character. *)
Fixpoint insert_sorted (x : string) (l : list string) : list string :=
  match l with
  | [] => [x]
  | y :: rest => if String.leb x y then x :: l else y :: insert_sorted x rest
  end.

Definition sorted (l : list string) : list string :=
  fold_right insert_sorted [] l.

End Py.

Import Py.

(* ================================================================== *)
(** * [src/config/constants.py]                                        *)
(* ================================================================== *)

Module Constants.

(** Continent groupings for analysis (combines small continents into Others). *)
Definition CONTINENT_GROUPS : list (string * string) :=
  [ ("NA", "NA"); ("EU", "EU"); ("AS", "AS");
    ("SA", "Others"); ("OC", "Others"); ("AF", "Others") ].

(** The set of big tech company names; a set, so the order plays no role. *)
Definition BIG_TECH_COMPANIES : list string :=
  [ "ibm"; "ibm research"; "ibm linux technology center";
    "microsoft"; "microsoft azure"; "azure"; "microsoft research";
    "google"; "google cloud"; "alphabet";
    "amazon"; "amazon web services"; "aws";
    "facebook"; "meta"; "meta platforms";
    "apple"; "intel"; "oracle"; "oracle labs";
    "cisco"; "cisco systems"; "hp"; "hewlett packard"; "hp labs";
    "hpe"; "hewlett packard enterprise"; "nvidia"; "vmware"; "netflix";
    "uber"; "twitter"; "yahoo"; "snap"; "salesforce";
    "amd"; "advanced micro devices"; "qualcomm"; "broadcom";
    "huawei"; "alibaba"; "alibaba cloud"; "bytedance"; "tencent";
    "baidu"; "samsung"; "xiaomi"; "tiktok";
    "arm"; "arm ltd"; "arm limited"; "arm holdings";
    "ericsson"; "nokia"; "siemens"; "orange"; "atos";
    "deutsche telekom"; "bosch"; "airbus"; "sap";
    "telefonica"; "telef√≥nica"; "vodafone"; "thales"; "philips" ].

(** Special cases for country code normalization. *)
Definition COUNTRY_CODE_FIXES : list (string * string) :=
  [ ("UK", "GB"); ("U.K.", "GB"); ("U.S.", "US"); ("USA", "US");
    ("UAE", "AE"); ("Korea", "KR"); ("South Korea", "KR");
    ("North Korea", "KP"); ("Russia", "RU"); ("Viet Nam", "VN");
    ("Vietnam", "VN") ].

End Constants.

Import Constants.

(* ================================================================== *)
(** * The library [pycountry_convert]                                  *)
(* ================================================================== *)

(** The two functions of [pycountry_convert] the code calls. The library and
    its tables are no part of the repository: the development is stated for
    every such pair of functions. Each returns a string or raises. *)
Record pycountry : Type := {
  country_name_to_country_alpha2 : string -> result string;
  country_alpha2_to_continent_code : string -> result string
}.

(* ================================================================== *)
(** * [src/utils/continent_mapper.py]                                  *)
(* ================================================================== *)

Module ContinentMapper.

(** The three values [get_predominant_continent] accumulates. *)
Record tally : Type := {
  continent_count : list (string * nat);
  no_inst_data : nat;
  unknown_country : nat
}.

Section Mapper.

Variable pc : pycountry.

(** The order in which CPython iterates over a set of country tokens. It
    follows the hashes of the members, which change from run to run: it is
    a parameter, applied to the members in insertion order. *)
Variable set_order : list json -> list json.

Definition country_fixes : list (string * string) := COUNTRY_CODE_FIXES.

(** [strip], [len], [isalpha] and [upper] are those of ASCII text: for a
    token with another character, such as a letter whose upper case has two
    letters, the method can return what this function does not. *)
Definition normalize_alpha2 (code : json) : option string :=
  match code with
  | JStr s =>
      let code := strip s in
      (* Check special fixes first *)
      match lookup code country_fixes with
      | Some fixed => Some fixed
      | None =>
          (* If already valid 2-letter code *)
          if (String.length code =? 2)%nat && isalpha code
          then Some (upper code)
          else None
      end
  | _ => None
  end.

(** [strip] is that of ASCII text. *)
Definition country_name_to_alpha2 (name : json) : result (option string) :=
  match name with
  | JStr s =>
      let name := strip s in
      match lookup name country_fixes with
      | Some fixed => Ok (Some fixed)
      | None =>
          match country_name_to_country_alpha2 pc name with
          | Ok a => Ok (Some a)
          | Raise _ =>
              let name_cleaned := remove_char "," (remove_char "." name) in
              match country_name_to_country_alpha2 pc name_cleaned with
              | Ok a => Ok (Some a)
              | Raise _ => Ok None
              end
          end
      end
  | _ => Ok None
  end.

(** [if code:] on an optional string. *)
Definition nonempty (o : option string) : bool :=
  match o with
  | Some s => negb (s =? "")
  | None => false
  end.

Definition country_to_alpha2 (value : json) : result (option string) :=
  let code := normalize_alpha2 value in
  if nonempty code then Ok code else country_name_to_alpha2 value.

Definition alpha2_to_continent (alpha2 : option string) : result (option string) :=
  match alpha2 with
  | Some a =>
      if negb (nonempty alpha2) then Ok None
      else match country_alpha2_to_continent_code pc a with
           | Ok continent => Ok (Some continent)
           | Raise _ => Ok None
           end
  | None => Ok None
  end.

Definition country_to_continent (country : json) : result (option string) :=
  alpha2 <- country_to_alpha2 country ;;
  alpha2_to_continent alpha2.

(** [CONTINENT_GROUPS.get(continent_code, "Others")]: the key is hashed, and
    only a string can equal one of the table's keys. *)
Definition group_continent (continent_code : json) : result string :=
  if negb (truthy continent_code) then Ok "Unknown"
  else if negb (hashable continent_code) then Raise TypeError
  else match continent_code with
       | JStr s =>
           match lookup s CONTINENT_GROUPS with
           | Some g => Ok g
           | None => Ok "Others"
           end
       | _ => Ok "Others"
       end.

(** The body of [for inst in institutions], which fills [unique_countries]. *)
Definition add_country (inst : json) (unique_countries : list json)
  : result (list json) :=
  match inst with
  | JDict d =>
      match lookup "Country" d with
      | Some country =>
          if hashable country then Ok (set_add country unique_countries)
          else Raise TypeError
      | None => Ok unique_countries
      end
  | _ => Ok unique_countries
  end.

(** The [if/else] that turns one country token into a continent bucket, and
    whether [unknown_country] is incremented. The token goes to the table as
    it stands: only the length test looks at the stripped token. *)
Definition country_vote (country : json) : string * nat :=
  match country with
  | JStr s =>
      if negb (truthy country) || negb (String.length (strip s) =? 2)%nat
      then ("Unknown", 1)
      else match country_alpha2_to_continent_code pc s with
           | Ok continent => (continent, 0)
           | Raise _ => ("Unknown", 1)
           end
  | _ => ("Unknown", 1)
  end.

(** [continent_count[continent] = continent_count.get(continent, 0) + 1]. *)
Definition increment (continent : string) (count : list (string * nat))
  : list (string * nat) :=
  dict_set continent
    (match lookup continent count with Some n => n | None => 0 end + 1) count.

(** The body of [for country in unique_countries]. *)
Definition count_country (st : tally) (country : json) : tally :=
  let '(continent, unknown) := country_vote country in
  {| continent_count := increment continent (continent_count st);
     no_inst_data := no_inst_data st;
     unknown_country := unknown_country st + unknown |}.

(** The body of [for author in authors]. *)
Definition count_author (author : json) (st : tally) : result tally :=
  match author with
  | JDict _ =>
      found <- get author "Institutions" ;;
      let institutions := if truthy found then found else JList [] in
      if negb (truthy institutions) then
        Ok {| continent_count := continent_count st;
              no_inst_data := no_inst_data st + 1;
              unknown_country := unknown_country st |}
      else
        insts <- py_iter institutions ;;
        unique_countries <- for_each add_country insts [] ;;
        Ok (fold_left count_country (set_order unique_countries) st)
  | _ => Ok st
  end.

Definition empty_tally : tally :=
  {| continent_count := []; no_inst_data := 0; unknown_country := 0 |}.

(** The loop of [get_predominant_continent]. *)
Definition count_authors (authors : json) : result tally :=
  l <- py_iter authors ;;
  for_each count_author l empty_tally.

(** [max(continent_count.values())]. *)
Definition max_count (count : list (string * nat)) : nat :=
  fold_right Nat.max 0 (map snd count).

Definition get_predominant_continent (authors : json)
  : result (list string * nat * nat) :=
  if negb (truthy authors) then Ok ([], 0, 0)
  else
    st <- count_authors authors ;;
    match continent_count st with
    | [] => Ok ([], no_inst_data st, unknown_country st)
    | _ =>
        let m := max_count (continent_count st) in
        let predominant :=
          map fst (filter (fun kv => (snd kv =? m)%nat) (continent_count st)) in
        Ok (predominant, no_inst_data st, unknown_country st)
    end.

(** ** [extract_continents_from_institutions] *)

(** [inst.get("Country") or inst.get("country") or inst.get("CountryCode")]. *)
Definition country_field (inst : json) : result json :=
  upper_case <- get inst "Country" ;;
  if truthy upper_case then Ok upper_case
  else
    lower_case <- get inst "country" ;;
    if truthy lower_case then Ok lower_case
    else get inst "CountryCode".

(** The body of [for inst in institutions]. *)
Definition add_continent (inst : json) (continents : list string)
  : result (list string) :=
  match inst with
  | JDict _ =>
      country <- country_field inst ;;
      continent <- country_to_continent country ;;
      if nonempty continent then
        match continent with
        | Some c => Ok (str_set_add c continents)
        | None => Ok continents
        end
      else Ok continents
  | _ => Ok continents
  end.

Definition extract_continents_from_institutions (institutions : json)
  : result (list string) :=
  if negb (truthy institutions) then Ok []
  else
    insts <- py_iter institutions ;;
    for_each add_continent insts [].

(** ** The votes, as a sequence

    The counterpart of the loop in the words of the specification: the
    continent buckets voted for, one entry per vote, in the order the votes
    are cast. It is compared with [count_authors] below. *)

Definition votes_of_author (author : json) : result (list string) :=
  match author with
  | JDict _ =>
      found <- get author "Institutions" ;;
      let institutions := if truthy found then found else JList [] in
      if negb (truthy institutions) then Ok []
      else
        insts <- py_iter institutions ;;
        unique_countries <- for_each add_country insts [] ;;
        Ok (map (fun country => fst (country_vote country))
                (set_order unique_countries))
  | _ => Ok []
  end.

Fixpoint votes_of_authors (authors : list json) : result (list string) :=
  match authors with
  | [] => Ok []
  | author :: rest =>
      votes <- votes_of_author author ;;
      later <- votes_of_authors rest ;;
      Ok (votes ++ later)
  end.

Definition votes_cast (authors : json) : result (list string) :=
  if negb (truthy authors) then Ok []
  else l <- py_iter authors ;; votes_of_authors l.

End Mapper.

(** The distinct members of a sequence, in the order of their first
    occurrence. *)
Fixpoint distinct (l : list string) : list string :=
  match l with
  | [] => []
  | x :: rest => x :: filter (fun y => negb (y =? x)) (distinct rest)
  end.

(** How many votes a bucket received. *)
Definition votes_for (votes : list string) (continent : string) : nat :=
  count_occ string_dec votes continent.

(** The largest number of votes any bucket received. *)
Definition most_votes (votes : list string) : nat :=
  fold_right Nat.max 0 (map (votes_for votes) votes).

(** The buckets tied at the maximum, in the order of their first vote. *)
Definition tied (votes : list string) : list string :=
  filter (fun c => (votes_for votes c =? most_votes votes)%nat) (distinct votes).

(** An institution whose country, if it has one, can be a member of a set. *)
Definition hashable_country (inst : json) : bool :=
  match inst with
  | JDict d =>
      match lookup "Country" d with
      | Some country => hashable country
      | None => true
      end
  | _ => true
  end.

(** An author record the loop handles without an exception: its
    institutions are absent, null, or a list of institutions with hashable
    countries. (Anything that is no dict is skipped.) *)
Definition well_formed_author (author : json) : bool :=
  match author with
  | JDict d =>
      match lookup "Institutions" d with
      | Some (JList insts) => forallb hashable_country insts
      | Some JNull | None => true
      | Some _ => false
      end
  | _ => true
  end.

End ContinentMapper.

(* ================================================================== *)
(** * [src/processors/big_tech_analyzer.py]                            *)
(* ================================================================== *)

Module BigTechAnalyzer.

(** The three strings [classify_paper] returns. *)
Inductive classification : Type :=
| has_big_company
| no_big_company
| all_none.

Definition classification_eqb (a b : classification) : bool :=
  match a, b with
  | has_big_company, has_big_company => true
  | no_big_company, no_big_company => true
  | all_none, all_none => true
  | _, _ => false
  end.

(** ** The compiled pattern

    [_compile_company_pattern] builds, with [re.IGNORECASE],
    [(?<!\w)(c1|c2|...)(?!\w)] over the escaped company names. A search
    succeeds when, at some position, some alternative matches and both
    assertions hold there. On ASCII text [\w] is a letter, a digit or the
    underscore, and ignoring case is comparing the lower-cased characters. *)

(** One escaped name against the text, letter case ignored: the rest of the
    text after the match. *)
Fixpoint match_literal (company s : string) : option string :=
  match company with
  | EmptyString => Some s
  | String p company' =>
      match s with
      | EmptyString => None
      | String c s' =>
          if Ascii.eqb (to_lower c) (to_lower p)
          then match_literal company' s'
          else None
      end
  end.

(** [(?<!\w)], given the character before the position, if any. *)
Definition not_word_behind (prev : option ascii) : bool :=
  match prev with
  | None => true
  | Some c => negb (is_word c)
  end.

(** [(?!\w)], given the text from the position on. *)
Definition not_word_ahead (s : string) : bool :=
  match s with
  | EmptyString => true
  | String c _ => negb (is_word c)
  end.

(** The pattern matched at one position. *)
Definition match_here (prev : option ascii) (s : string) : bool :=
  not_word_behind prev &&
  existsb (fun company =>
             match match_literal company s with
             | Some rest => not_word_ahead rest
             | None => false
             end) BIG_TECH_COMPANIES.

(** [company_pattern.search], as a truth value: every position is tried. *)
Fixpoint search_from (prev : option ascii) (s : string) : bool :=
  match_here prev s ||
  match s with
  | EmptyString => false
  | String c rest => search_from (Some c) rest
  end.

Definition company_pattern_search (inst : string) : bool :=
  search_from None inst.

(** ** [extract_institutions] *)

(** The body of [for inst in author_institutions]; [lower] and [strip] are
    those of ASCII text. *)
Definition extract_institution (inst : json) (institutions : list (option string))
  : result (list (option string)) :=
  match inst with
  | JDict _ =>
      inst_name <- get inst "Institution Name" ;;
      if truthy inst_name then
        match inst_name with
        | JStr n => Ok (institutions ++ [Some (strip (lower n))])
        | _ => Raise AttributeError
        end
      else Ok institutions
  | JStr s => Ok (institutions ++ [Some (strip (lower s))])
  | _ => Ok (institutions ++ [None])
  end.

(** The body of [for author in authors_institutions]. *)
Definition extract_author (author : json) (institutions : list (option string))
  : result (list (option string)) :=
  author_institutions <- get_default author "Institutions" (JList []) ;;
  if negb (truthy author_institutions) then Ok (institutions ++ [None])
  else
    insts <- py_iter author_institutions ;;
    for_each extract_institution insts institutions.

Definition extract_institutions (paper : json) : result (list (option string)) :=
  authors_institutions <-
    get_default paper "Authors and Institutions" (JDict []) ;;
  if negb (truthy authors_institutions) then Ok [None]
  else
    authors <- py_iter authors_institutions ;;
    for_each extract_author authors [].

(** ** [classify_paper] *)

(** The loop of [classify_paper]: the flags [(all_are_none,
    contains_big_company)] when it ends, by exhaustion or by [break]. *)
Fixpoint scan (institutions : list (option string)) (all_are_none : bool)
  : bool * bool :=
  match institutions with
  | [] => (all_are_none, false)
  | None :: rest => scan rest all_are_none
  | Some inst :: rest =>
      if company_pattern_search inst then (false, true)
      else scan rest false
  end.

Definition classify_paper (institutions : list (option string)) : classification :=
  match institutions with
  | [] => all_none
  | _ =>
      let '(all_are_none, contains_big_company) := scan institutions true in
      if all_are_none then all_none
      else if contains_big_company then has_big_company
      else no_big_company
  end.

(** ** Floating point *)

(** [float(n)] of a count (exact below 2^53). *)
Definition float_of_nat (n : nat) : float :=
  PrimFloat.of_uint63 (Uint63.of_Z (Z.of_nat n)).

(** [num / den] rounded to the nearest integer, ties to even ([0 < den]). *)
Definition round_half_even (num den : Z) : Z :=
  let q := (num / den)%Z in
  let r := (num mod den)%Z in
  match (2 * r ?= den)%Z with
  | Lt => q
  | Gt => (q + 1)%Z
  | Eq => if Z.even q then q else (q + 1)%Z
  end.

(** [round(x, 2)]: CPython rounds the exact value of [x] to two decimals,
    ties to even, and returns the float nearest to that decimal. (The
    hundredths are converted exactly while they stay below 2^53.) *)
Definition round2 (x : float) : float :=
  match Prim2SF x with
  | S754_finite sign m e =>
      let hundredths :=
        if (0 <=? e)%Z then (Zpos m * 2 ^ e * 100)%Z
        else round_half_even (Zpos m * 100) (2 ^ (- e)) in
      let r := PrimFloat.div (PrimFloat.of_uint63 (Uint63.of_Z hundredths))
                             (float_of_nat 100) in
      if sign then PrimFloat.opp r else r
  | _ => x
  end.

(** ** [_analyze_year] *)

Record BigTechStats : Type := {
  total_papers : nat;
  has_big_tech : nat;
  no_big_tech : nat;
  stats_all_none : nat;
  pct_has_big : float;
  pct_no_big : float;
  pct_all_none : float
}.

(** [classifications.count(label)]. *)
Definition count (label : classification) (classifications : list classification)
  : nat :=
  List.length (filter (classification_eqb label) classifications).

(** [(count / total) * 100], the percentages staying at their default [0.0]
    when there is no paper. *)
Definition percentage (count total : nat) : float :=
  if (0 <? total)%nat
  then PrimFloat.mul (PrimFloat.div (float_of_nat count) (float_of_nat total))
                     (float_of_nat 100)
  else PrimFloat.zero.

(** The body of [for paper in papers]. *)
Definition classify_next (paper : json) (classifications : list classification)
  : result (list classification) :=
  institutions <- extract_institutions paper ;;
  Ok (classifications ++ [classify_paper institutions]).

Definition _analyze_year (papers : json) : result BigTechStats :=
  total <- py_len papers ;;
  l <- py_iter papers ;;
  classifications <- for_each classify_next l [] ;;
  let has_big := count has_big_company classifications in
  let no_big := count no_big_company classifications in
  let none := count all_none classifications in
  Ok {| total_papers := total;
        has_big_tech := has_big;
        no_big_tech := no_big;
        stats_all_none := none;
        pct_has_big := percentage has_big total;
        pct_no_big := percentage no_big total;
        pct_all_none := percentage none total |}.

(** ** [analyze_conference] *)

(** The body of [for year, papers in papers_by_year.items()]. *)
Definition analyze_item (item : string * json)
  (stats_by_year : list (string * BigTechStats))
  : result (list (string * BigTechStats)) :=
  stats <- _analyze_year (snd item) ;;
  Ok (dict_set (fst item) stats stats_by_year).

Definition analyze_conference (conference : string) (papers_by_year : json)
  : result (list (string * BigTechStats)) :=
  match papers_by_year with
  | JDict items => for_each analyze_item items []
  | _ => Raise AttributeError
  end.

(** ** [analyze_all_conferences] *)

(** What the method reads of the file system: whether the ProcessedData
    directory exists, the names [get_conferences_from_directory] returns for
    it, and what [load_json] gives for the data file of each name. *)
Record processed_data : Type := {
  dir_exists : bool;
  conferences : list string;
  load_json : string -> result json
}.

(** One row of the CSV. *)
Record row : Type := {
  Conference : string;
  Year : string;
  row_pct_has_big : float;
  row_pct_no_big : float;
  row_pct_all_none : float
}.

Definition to_row (conference : string) (item : string * BigTechStats) : row :=
  {| Conference := conference;
     Year := fst item;
     row_pct_has_big := round2 (pct_has_big (snd item));
     row_pct_no_big := round2 (pct_no_big (snd item));
     row_pct_all_none := round2 (pct_all_none (snd item)) |}.

(** The body of [for conference in conferences], with its [try/except]. *)
Definition analyze_next (fs : processed_data) (results : list row)
  (conference : string) : list row :=
  (* Skip SoCC duplicate (use cloud as canonical) *)
  if lower conference =? "socc" then results
  else
    match (papers_by_year <- load_json fs conference ;;
           analyze_conference conference papers_by_year) with
    | Ok stats_by_year => results ++ map (to_row conference) stats_by_year
    | Raise _ => results
    end.

Definition analyze_all_conferences (fs : processed_data) : result (list row) :=
  if negb (dir_exists fs) then Raise FileNotFoundError
  else Ok (fold_left (analyze_next fs) (conferences fs) []).

(** ** [analyze_by_continent] *)

(** One of the four inner dictionaries of [continent_stats]. *)
Record continent_bucket : Type := {
  has_big : nat;
  no_big : nat;
  total : nat
}.

Definition empty_bucket : continent_bucket :=
  {| has_big := 0; no_big := 0; total := 0 |}.

Definition initial_continent_stats : list (string * continent_bucket) :=
  [ ("NA", empty_bucket); ("EU", empty_bucket); ("AS", empty_bucket);
    ("Other", empty_bucket) ].

(** The three updates of a bucket for one classified paper. *)
Definition count_in_bucket (label : classification) (b : continent_bucket)
  : continent_bucket :=
  {| has_big := has_big b + match label with has_big_company => 1 | _ => 0 end;
     no_big := no_big b + match label with no_big_company => 1 | _ => 0 end;
     total := total b + 1 |}.

(** The body of [for paper in papers]. A bucket is updated in place: the
    order of the four keys does not change. *)
Definition count_paper (paper : json)
  (continent_stats : list (string * continent_bucket))
  : result (list (string * continent_bucket)) :=
  found <- get_default paper "Predominant Continent" (JStr "Unknown") ;;
  if py_eqb found (JStr "Unknown") || negb (truthy found) then Ok continent_stats
  else
    (* Handle if continent is a list *)
    let continent :=
      match found with
      | JList (first :: _) => first
      | JList [] => JStr "Unknown"
      | _ => found
      end in
    match continent with
    | JStr c =>
        if c =? "Unknown" then Ok continent_stats
        else
          let c := upper c in
          let c := if existsb (String.eqb c) (map fst continent_stats)
                   then c else "Other" in
          institutions <- extract_institutions paper ;;
          let label := classify_paper institutions in
          match lookup c continent_stats with
          | Some b => Ok (dict_set c (count_in_bucket label b) continent_stats)
          | None => Raise KeyError
          end
    | _ => Ok continent_stats
    end.

(** One row of the table by continent. *)
Record continent_row : Type := {
  by_Conference : string;
  by_Year : string;
  level_2 : string;
  X0 : float
}.

(** The rows of one year, once its papers are counted: one for each bucket
    that has a paper, if any bucket has one. *)
Definition rows_of_year (conference year : string)
  (continent_stats : list (string * continent_bucket)) : list continent_row :=
  let total_papers := list_sum (map (fun kv => total (snd kv)) continent_stats) in
  if (0 <? total_papers)%nat then
    flat_map
      (fun kv =>
         if (0 <? total (snd kv))%nat then
           let pct_big :=
             PrimFloat.mul
               (PrimFloat.div (float_of_nat (has_big (snd kv)))
                              (float_of_nat total_papers))
               (float_of_nat 100) in
           [ {| by_Conference := conference;
                by_Year := year;
                level_2 := ("pct_big_" ++ lower (fst kv))%string;
                X0 := round2 pct_big |} ]
         else [])
      continent_stats
  else [].

(** The body of [for year, papers in papers_by_year.items()]. *)
Definition analyze_item_by_continent (conference : string) (item : string * json)
  (results : list continent_row) : result (list continent_row) :=
  papers <- py_iter (snd item) ;;
  continent_stats <- for_each count_paper papers initial_continent_stats ;;
  Ok (results ++ rows_of_year conference (fst item) continent_stats).

Definition analyze_by_continent (conference : string) (papers_by_year : json)
  : result (list continent_row) :=
  match papers_by_year with
  | JDict items => for_each (analyze_item_by_continent conference) items []
  | _ => Raise AttributeError
  end.

End BigTechAnalyzer.

(* ================================================================== *)
(** * [src/utils/file_manager.py]                                      *)
(* ================================================================== *)

Module FileManager.

(** What a call of [save_csv] leaves of the file. *)
Inductive file_content (R : Type) : Type :=
| Untouched
| Truncated
| Written (rows : list R).

Arguments Untouched {R}.
Arguments Truncated {R}.
Arguments Written {R} rows.

(** What the file system does for [save_csv]: making the parent directory,
    opening the file with mode ['w'], and writing the header and the rows
    until the file is closed. *)
Record csv_target (R : Type) : Type := {
  make_parent : result unit;
  open_for_writing : result unit;
  write_rows : list R -> result unit
}.

(** [save_csv], for the field names its callers pass: how it ends, and what
    it leaves of the file. The parent directory is made first. With no row
    the method returns before it opens the file, which stays as it was
    ([Untouched]). Opening the file empties it, so a failure while the rows
    are written leaves it empty or with a part of the rows ([Truncated]);
    without a failure it holds the header and the rows ([Written]). *)
Definition save_csv {R : Type} (target : csv_target R) (data : list R)
  : result unit * file_content R :=
  match make_parent target with
  | Raise e => (Raise e, Untouched)
  | Ok _ =>
      match data with
      | [] => (Ok tt, Untouched)
      | _ =>
          match open_for_writing target with
          | Raise e => (Raise e, Untouched)
          | Ok _ =>
              match write_rows target data with
              | Raise e => (Raise e, Truncated)
              | Ok _ => (Ok tt, Written data)
              end
          end
      end
  end.

(** [merge_json]: the content of the file afterwards, given its content when
    it exists (what [load_json] gives for it) and what saving does; [None]
    when the file is left as it is. *)
Definition merge_json (save : json -> result unit)
  (existing : option (result json)) (new_data : json) : result (option json) :=
  match existing with
  | None => _ <- save new_data ;; Ok (Some new_data)
  | Some loaded =>
      existing_data <- loaded ;;
      match existing_data, new_data with
      | JDict d1, JDict d2 =>
          let merged := JDict (dict_update d1 d2) in
          _ <- save merged ;; Ok (Some merged)
      | _, _ => Ok None
      end
  end.

(** [Path(name).stem]: the name without its last suffix, a dot at the start
    or at the end of the name being no suffix. *)
Fixpoint last_dot (s : string) (i : nat) : option nat :=
  match s with
  | EmptyString => None
  | String c rest =>
      match last_dot rest (S i) with
      | Some j => Some j
      | None => if Ascii.eqb c "." then Some i else None
      end
  end.

Definition stem (name : string) : string :=
  match last_dot name 0 with
  | Some i =>
      if (0 <? i)%nat && (i <? String.length name - 1)%nat
      then String.substring 0 i name
      else name
  | None => name
  end.

(** The body of the loop of [get_conferences_from_directory], for a file
    the glob yields. *)
Definition add_conference (suffix : string) (file_name : string)
  (conferences : list string) : list string :=
  let conf_name :=
    remove_all (remove_all ".json" suffix) (stem file_name) in
  (* Handle both "conf_data.json" and "conf_extended_data.json" patterns *)
  let conf_name :=
    remove_all "_citations" (remove_all "_base" (remove_all "_extended" conf_name)) in
  if negb (conf_name =? "") && negb (existsb (String.eqb conf_name) conferences)
  then conferences ++ [conf_name]
  else conferences.

(** [get_conferences_from_directory], given whether the directory exists
    and the names of the files the glob yields in it, in its order. *)
Definition get_conferences_from_directory (is_dir : bool)
  (globbed : list string) (suffix : string) : list string :=
  if negb is_dir then []
  else sorted (fold_left (fun conferences file_name =>
                            add_conference suffix file_name conferences)
                         globbed []).

End FileManager.

(* ================================================================== *)
(** * [src/processors/data_reducer.py]                                 *)
(* ================================================================== *)

Module DataReducer.

(** Statistics from data processing. *)
Record ProcessingStats : Type := {
  total_papers : nat;
  papers_with_continent : nat;
  papers_without_sufficient_data : nat;
  unknown_countries : nat
}.

Definition no_stats : ProcessingStats :=
  {| total_papers := 0; papers_with_continent := 0;
     papers_without_sufficient_data := 0; unknown_countries := 0 |}.

(** The four additions of [process_conference], "Accumulate stats". *)
Definition accumulate (total_stats paper_stats : ProcessingStats)
  : ProcessingStats :=
  {| total_papers := total_papers total_stats + total_papers paper_stats;
     papers_with_continent :=
       papers_with_continent total_stats + papers_with_continent paper_stats;
     papers_without_sufficient_data :=
       papers_without_sufficient_data total_stats
       + papers_without_sufficient_data paper_stats;
     unknown_countries :=
       unknown_countries total_stats + unknown_countries paper_stats |}.

Section Reducer.

Variable pc : pycountry.
Variable set_order : list json -> list json.

(** The [if authors_list:] block of [process_paper]: the continents, whether
    the paper counts as without sufficient data, and the unknown countries.
    [sum_error >= len(authors_list) / 2] compares an integer with half of
    an integer: it holds exactly when twice the sum reaches the length. *)
Definition predominant_of (authors_list : json) : result (list string * nat * nat) :=
  if truthy authors_list then
    ' (pred_continents, no_inst_authors, unknown_country) <-
      ContinentMapper.get_predominant_continent pc set_order authors_list ;;
    insufficient <-
      (if (0 <? no_inst_authors)%nat || (0 <? unknown_country)%nat then
         n <- py_len authors_list ;;
         Ok (if (n <=? 2 * (no_inst_authors + unknown_country))%nat
             then 1 else 0)
       else Ok 0) ;;
    Ok (pred_continents, insufficient, unknown_country)
  else Ok ([], 0, 0).

Definition process_paper (paper : json) (year : string)
  : result (json * ProcessingStats) :=
  authors_list <- get_default paper "Authors and Institutions" (JList []) ;;
  ' (pred_continents, insufficient, unknown_country) <-
    predominant_of authors_list ;;
  title <- get_default paper "Title" (JStr "") ;;
  year_value <- get_default paper "Year" (JStr year) ;;
  Ok (JDict [ ("Title", title);
              ("Year", year_value);
              ("Predominant Continent", JList (map JStr pred_continents));
              ("Authors and Institutions", authors_list) ],
      {| total_papers := 1;
         papers_with_continent :=
           match pred_continents with [] => 0 | _ => 1 end;
         papers_without_sufficient_data := insufficient;
         unknown_countries := unknown_country |}).

(** The body of [for paper in papers]. *)
Definition process_next (year : string) (paper : json)
  (st : list json * ProcessingStats) : result (list json * ProcessingStats) :=
  ' (processed_paper, paper_stats) <- process_paper paper year ;;
  Ok (fst st ++ [processed_paper], accumulate (snd st) paper_stats).

(** The body of [for year, papers in extended_data.items()]. *)
Definition process_year (item : string * json)
  (st : list (string * json) * ProcessingStats)
  : result (list (string * json) * ProcessingStats) :=
  papers <- py_iter (snd item) ;;
  ' (year_papers, total_stats) <-
    for_each (process_next (fst item)) papers ([], snd st) ;;
  year_total <- py_len (snd item) ;;
  Ok (dict_set (fst item) (JList year_papers) (fst st), total_stats).

Definition process_conference (conference : string) (extended_data : json)
  : result (list (string * json) * ProcessingStats) :=
  match extended_data with
  | JDict items => for_each process_year items ([], no_stats)
  | _ => Raise AttributeError
  end.

(** ** [process_all_conferences] *)

(** What the method reads and writes: whether ExtendedCrawlerData exists and
    is a directory, what making the directory ProcessedData does, the names
    of the files [*_extended_data.json] in the order of the glob, what
    [load_json] gives for the file [<conference>_extended_data.json], and
    what [save_json] does with the file [<conference>_data.json]. *)
Record extended_files : Type := {
  extended_exists : bool;
  extended_is_dir : bool;
  make_output_dir : result unit;
  globbed : list string;
  load_json : string -> result json;
  save_json : string -> json -> result unit
}.

(** The body of [try] in the loop, for one conference. *)
Definition process_and_save (fs : extended_files) (conference : string)
  : result (list (string * json) * ProcessingStats) :=
  extended_data <- load_json fs conference ;;
  ' (processed_data, stats) <- process_conference conference extended_data ;;
  _ <- save_json fs conference (JDict processed_data) ;;
  Ok (processed_data, stats).

(** The body of [for conference in conferences]: the statistics so far and
    the files saved so far. *)
Definition process_one (fs : extended_files)
  (st : list (string * ProcessingStats) * list (string * json))
  (conference : string)
  : list (string * ProcessingStats) * list (string * json) :=
  match process_and_save fs conference with
  | Ok (processed_data, stats) =>
      (dict_set conference stats (fst st),
       snd st ++ [(conference, JDict processed_data)])
  | Raise _ => st
  end.

(** [process_all_conferences]: the statistics it returns, and the files it
    saved. Making the output directory stands outside the [try]: its
    exception is the method's. *)
Definition process_all_conferences (fs : extended_files)
  : result (list (string * ProcessingStats) * list (string * json)) :=
  if negb (extended_exists fs) then Raise FileNotFoundError
  else
    _ <- make_output_dir fs ;;
    let conferences :=
      FileManager.get_conferences_from_directory
        (extended_is_dir fs) (globbed fs) "_extended_data.json" in
    match conferences with
    | [] => Ok ([], [])
    | _ => Ok (fold_left (process_one fs) conferences ([], []))
    end.

End Reducer.

End DataReducer.

(* ================================================================== *)
(** * [src/processors/csv_generator.py]                                *)
(* ================================================================== *)

Module CSVGenerator.

(** The fields of [CSVGenerationResult] beside the path; [error] is a
    message of the code or the text of an exception. *)
Inductive failure : Type :=
| Message (text : string)
| Exception (e : exn).

Record CSVGenerationResult : Type := {
  row_count : nat;
  success : bool;
  error : option failure
}.

(** ** [generate_papers_csv] *)

Record paper_row : Type := {
  Conference : string;
  Year : string;
  Title : json;
  Predominant_Continent : json
}.

(** The body of [for paper in papers]. *)
Definition add_paper (conference year : string) (paper : json)
  (all_rows : list paper_row) : result (list paper_row) :=
  continents <- get_default paper "Predominant Continent" (JList []) ;;
  continent <- first_or continents JNull ;;
  title <- get_default paper "Title" (JStr "") ;;
  Ok (all_rows ++ [ {| Conference := conference;
                       Year := year;
                       Title := title;
                       Predominant_Continent := continent |} ]).

(** The body of [for year, papers in data.items()]. *)
Definition add_year (conference : string) (item : string * json)
  (all_rows : list paper_row) : result (list paper_row) :=
  papers <- py_iter (snd item) ;;
  for_each (add_paper conference (fst item)) papers all_rows.

(** The rows of one loaded file. *)
Definition add_data (conference : string) (data : json)
  (all_rows : list paper_row) : result (list paper_row) :=
  match data with
  | JDict items => for_each (add_year conference) items all_rows
  | _ => Raise AttributeError
  end.

(** What the method reads and writes: whether ProcessedData exists, the
    stems of the files [*_data.json] in the order of the glob, what
    [load_json] gives for each, and what the file system does for the CSV. *)
Record papers_files : Type := {
  processed_exists : bool;
  data_stems : list string;
  load_json : string -> result json;
  papers_csv : FileManager.csv_target paper_row
}.

(** The body of [for json_file in processed_dir.glob(...)]. *)
Definition add_file (fs : papers_files) (file_stem : string)
  (all_rows : list paper_row) : result (list paper_row) :=
  (* Skip SoCC duplicates (use cloud_data.json as canonical) *)
  if String.prefix "socc_" file_stem then Ok all_rows
  else
    let conference := remove_all "_data" file_stem in
    data <- load_json fs file_stem ;;
    add_data conference data all_rows.

(** [generate_papers_csv]: its result, and what it leaves of the CSV file.
    Every exception is caught, those of [save_csv] included. *)
Definition generate_papers_csv (fs : papers_files)
  : CSVGenerationResult * FileManager.file_content paper_row :=
  if negb (processed_exists fs) then
    ({| row_count := 0; success := false;
        error := Some (Message "ProcessedData directory not found") |},
     FileManager.Untouched)
  else
    match for_each (add_file fs) (data_stems fs) [] with
    | Ok all_rows =>
        match FileManager.save_csv (papers_csv fs) all_rows with
        | (Ok _, content) =>
            ({| row_count := List.length all_rows; success := true;
                error := None |}, content)
        | (Raise e, content) =>
            ({| row_count := 0; success := false;
                error := Some (Exception e) |}, content)
        end
    | Raise e =>
        ({| row_count := 0; success := false; error := Some (Exception e) |},
         FileManager.Untouched)
    end.

(** ** [_extract_continents_from_citation] and the counts of citations *)

Section Citations.

Variable pc : pycountry.

(** The order in which CPython iterates over a set of continents. *)
Variable continent_order : list string -> list string.

(** [author.get("Institutions") or author.get("Affiliations") or []]. *)
Definition institutions_field (author : json) : result json :=
  institutions <- get author "Institutions" ;;
  if truthy institutions then Ok institutions
  else
    affiliations <- get author "Affiliations" ;;
    if truthy affiliations then Ok affiliations else Ok (JList []).

(** [inst.get("Country") or inst.get("country") or inst.get("CountryCode")]. *)
Definition country_field (inst : json) : result json :=
  upper_case <- get inst "Country" ;;
  if truthy upper_case then Ok upper_case
  else
    lower_case <- get inst "country" ;;
    if truthy lower_case then Ok lower_case
    else get inst "CountryCode".

(** The body of [for inst in insts]. *)
Definition add_continent (inst : json) (continents : list string)
  : result (list string) :=
  match inst with
  | JDict _ =>
      country <- country_field inst ;;
      continent <- ContinentMapper.country_to_continent pc country ;;
      if ContinentMapper.nonempty continent then
        match continent with
        | Some c => Ok (str_set_add c continents)
        | None => Ok continents
        end
      else Ok continents
  | _ => Ok continents
  end.

(** The body of [for author in authors]. *)
Definition add_author (author : json) (continents : list string)
  : result (list string) :=
  match author with
  | JDict _ =>
      insts <- institutions_field author ;;
      match insts with
      | JList l => for_each add_continent l continents
      | _ => Ok continents
      end
  | _ => Ok continents
  end.

Definition _extract_continents_from_citation (citation : json)
  : result (list string) :=
  authors <- get_default citation "Authors" (JList []) ;;
  match authors with
  | JList l => for_each add_author l []
  | _ => Ok []
  end.

(** The body of [for citation in citing_list]. *)
Definition count_citation (citation : json) (continent_counts : list (string * nat))
  : result (list (string * nat)) :=
  match citation with
  | JDict _ =>
      continents <- _extract_continents_from_citation citation ;;
      Ok (fold_left (fun counts continent =>
                       ContinentMapper.increment continent counts)
                    (continent_order continents) continent_counts)
  | _ => Ok continent_counts
  end.

(** The body of [for _, citing_list in data.items()]. *)
Definition count_citing_list (item : string * json)
  (continent_counts : list (string * nat)) : result (list (string * nat)) :=
  match snd item with
  | JList l => for_each count_citation l continent_counts
  | _ => Ok continent_counts
  end.

(** "Count papers by continent", for the loaded data of one conference. *)
Definition count_continents (data : json) : result (list (string * nat)) :=
  match data with
  | JDict items => for_each count_citing_list items []
  | _ => Ok []
  end.

Record citation_row : Type := {
  cited_Conference : string;
  Continent : string;
  Num_Papers : nat
}.

(** "Add to rows". *)
Definition citation_rows (conference : string)
  (continent_counts : list (string * nat)) : list citation_row :=
  map (fun kv => {| cited_Conference := conference;
                    Continent := fst kv;
                    Num_Papers := snd kv |})
      continent_counts.

(** ** [generate_citations_csv] *)

(** What the method reads and writes: whether CitationsCrawlerData and its
    IntermediateCitations exist, the stems of the files the two globs yield
    in their order, whether the primary and the fallback file of a
    conference exist, what [load_json] gives for them, and what the file
    system does for the CSV. *)
Record citations_files : Type := {
  citations_exists : bool;
  primary_stems : list string;
  intermediate_exists : bool;
  fallback_stems : list string;
  primary_exists : string -> bool;
  fallback_exists : string -> bool;
  load_primary : string -> result json;
  load_fallback : string -> result json;
  citations_csv : FileManager.csv_target citation_row
}.

(** "Find all conferences with citation data". *)
Definition citation_conferences (fs : citations_files) : list string :=
  let conferences :=
    fold_left (fun conferences file_stem =>
                 str_set_add (remove_all "_citations_data" file_stem) conferences)
              (primary_stems fs) [] in
  if intermediate_exists fs then
    fold_left (fun conferences file_stem =>
                 str_set_add (remove_all "_citations_s2" file_stem) conferences)
              (fallback_stems fs) conferences
  else conferences.

(** The body of [for conference in sorted(conferences)]. *)
Definition add_conference_rows (fs : citations_files) (conference : string)
  (all_rows : list citation_row) : result (list citation_row) :=
  (* Try primary file first, then fallback *)
  let use_primary := primary_exists fs conference in
  if negb (if use_primary then true else fallback_exists fs conference)
  then Ok all_rows
  else
    (* Load JSON with tolerant encoding; skip invalid/empty files *)
    match (if use_primary then load_primary fs conference
           else load_fallback fs conference) with
    | Raise _ => Ok all_rows
    | Ok data =>
        if negb (truthy data) then Ok all_rows
        else
          continent_counts <- count_continents data ;;
          Ok (all_rows ++ citation_rows conference continent_counts)
    end.

(** [generate_citations_csv]: its result, and what it leaves of the CSV
    file. The conferences are sorted, so that the order in which the set is
    iterated does not matter. *)
Definition generate_citations_csv (fs : citations_files)
  : CSVGenerationResult * FileManager.file_content citation_row :=
  if negb (citations_exists fs) then
    ({| row_count := 0; success := false;
        error := Some (Message "CitationsCrawlerData directory not found") |},
     FileManager.Untouched)
  else
    match for_each (add_conference_rows fs) (sorted (citation_conferences fs)) [] with
    | Ok all_rows =>
        match FileManager.save_csv (citations_csv fs) all_rows with
        | (Ok _, content) =>
            ({| row_count := List.length all_rows; success := true;
                error := None |}, content)
        | (Raise e, content) =>
            ({| row_count := 0; success := false;
                error := Some (Exception e) |}, content)
        end
    | Raise e =>
        ({| row_count := 0; success := false; error := Some (Exception e) |},
         FileManager.Untouched)
    end.

End Citations.

(** ** [generate_committee_csv] *)

Record committee_row : Type := {
  committee_Conference : string;
  committee_Year : string;
  Name : string;
  Institution : option string;
  committee_Continent : option string
}.

(** [";".join(l) or None]. *)
Definition joined_or_none (l : list string) : option string :=
  let joined := String.concat ";" l in
  if joined =? "" then None else Some joined.

(** The body of [for inst, country in institutions.items()]: the list of
    institutions and the set of countries. *)
Definition add_institution (item : string * json) (st : list string * list json)
  : result (list string * list json) :=
  let institution_list := fst st ++ [fst item] in
  if truthy (snd item) then
    if hashable (snd item)
    then Ok (institution_list, set_add (snd item) (snd st))
    else Raise TypeError
  else Ok (institution_list, snd st).

Section Committee.

Variable pc : pycountry.

(** The orders in which CPython iterates over the set of countries and over
    the set of continents. *)
Variable set_order : list json -> list json.
Variable continent_order : list string -> list string.

(** The body of [for country in countries]. *)
Definition add_country_continent (country : json) (continents : list string)
  : result (list string) :=
  continent <- ContinentMapper.country_to_continent pc country ;;
  if ContinentMapper.nonempty continent then
    match continent with
    | Some c => Ok (str_set_add c continents)
    | None => Ok continents
    end
  else Ok continents.

(** The body of [for member_name, institutions in members.items()]. *)
Definition add_member (conference year : string) (member : string * json)
  (all_rows : list committee_row) : result (list committee_row) :=
  (* Handle different data formats *)
  ' (institution_list, countries) <-
    match snd member with
    | JDict items => for_each add_institution items ([], [])
    | JStr _ => Ok ([], [snd member])
    | _ => Ok ([], [])
    end ;;
  (* Format institutions *)
  let institutions_str :=
    joined_or_none (filter (fun i => negb (i =? "")) institution_list) in
  (* Convert countries to continents *)
  continents <- for_each add_country_continent (set_order countries) [] ;;
  let continent_str :=
    match continents with
    | [] => None
    | _ => Some (String.concat ";" (sorted (continent_order continents)))
    end in
  Ok (all_rows ++ [ {| committee_Conference := conference;
                       committee_Year := year;
                       Name := fst member;
                       Institution := institutions_str;
                       committee_Continent := continent_str |} ]).

(** The body of [for year, members in data.items()]. *)
Definition add_committee_year (conference : string) (item : string * json)
  (all_rows : list committee_row) : result (list committee_row) :=
  match snd item with
  | JDict members => for_each (add_member conference (fst item)) members all_rows
  | _ => Raise AttributeError
  end.

(** The rows of one loaded file. *)
Definition add_committee_data (conference : string) (data : json)
  (all_rows : list committee_row) : result (list committee_row) :=
  match data with
  | JDict items => for_each (add_committee_year conference) items all_rows
  | _ => Raise AttributeError
  end.

End Committee.

End CSVGenerator.

(* ================================================================== *)
(** * Notions the statements use                                       *)
(* ================================================================== *)

(** [resolve(resolve(v))] for [resolve = country_to_alpha2], a [None]
    result being passed on as [None]. *)
Definition resolve_twice (pc : pycountry) (v : json) : result (option string) :=
  r <- ContinentMapper.country_to_alpha2 pc v ;;
  ContinentMapper.country_to_alpha2 pc
    (match r with Some c => JStr c | None => JNull end).


(** A country string on which every resolution step fails: it is no alias,
    no two-letter code, and [pycountry_convert] knows it neither as it
    stands nor without its periods and commas. *)
Definition fails_every_step (pc : pycountry) (s : string) : Prop :=
  let name := strip s in
  lookup name COUNTRY_CODE_FIXES = None /\
  ((String.length name =? 2)%nat && isalpha name) = false /\
  (exists e, country_name_to_country_alpha2 pc name = Raise e) /\
  (exists e, country_name_to_country_alpha2 pc
               (remove_char "," (remove_char "." name)) = Raise e).

(** The entry of a continent in the dictionary of votes. *)
Definition bucket (votes : list string) (continent : string) : string * nat :=
  (continent, ContinentMapper.votes_for votes continent).

(** The dictionary after a sequence of votes. *)
Definition tally_votes (votes : list string) (count : list (string * nat))
  : list (string * nat) :=
  fold_left (fun d continent => ContinentMapper.increment continent d) votes count.

(** What a hashable value is compared by, as a member of a set. *)
Inductive hkey : Type :=
| KNone
| KNum (n : Z)
| KStr (s : string).

Definition key_of (v : json) : option hkey :=
  match v with
  | JNull => Some KNone
  | JBool b => Some (KNum (if b then 1 else 0))
  | JNum n => Some (KNum n)
  | JStr s => Some (KStr s)
  | _ => None
  end.

(** An institution record of the list carries the country token [c]. *)
Definition carries (insts : list json) (c : json) : Prop :=
  exists d, In (JDict d) insts /\ lookup "Country" d = Some c.

(** How many members of a set compare equal to [c]. *)
Definition members_equal_to (c : json) (members : list json) : nat :=
  List.length (filter (py_eqb c) members).

(** The last and the first character of a string. *)
Fixpoint last_char (s : string) : option ascii :=
  match s with
  | EmptyString => None
  | String c rest =>
      match last_char rest with
      | Some x => Some x
      | None => Some c
      end
  end.





(** The entry is [None]: [classify_paper] skips it. *)
Definition is_none (inst : option string) : bool :=
  match inst with
  | None => true
  | Some _ => false
  end.

(** The entry is a name the pattern is found in. *)
Definition names_company (inst : option string) : bool :=
  match inst with
  | None => false
  | Some name => BigTechAnalyzer.company_pattern_search name
  end.

(** The members of a set are hashable and pairwise different. *)
Definition is_set (members : list json) : Prop :=
  Forall (fun x => hashable x = true) members /\
  forall x, hashable x = true -> members_equal_to x members <= 1.


(** The percentages of a row for a year of four papers, one classified
    [has_big_company], one [no_big_company], one [all_none] and one [label]:
    the class of the fourth paper has two papers out of four. *)
Definition row_of_four (conference year : string)
  (label : BigTechAnalyzer.classification) : BigTechAnalyzer.row :=
  match label with
  | BigTechAnalyzer.has_big_company =>
      BigTechAnalyzer.Build_row conference year 50%float 25%float 25%float
  | BigTechAnalyzer.no_big_company =>
      BigTechAnalyzer.Build_row conference year 25%float 50%float 25%float
  | BigTechAnalyzer.all_none =>
      BigTechAnalyzer.Build_row conference year 25%float 25%float 50%float
  end.

(** The row of a year with no paper. *)
Definition row_of_none (conference year : string) : BigTechAnalyzer.row :=
  BigTechAnalyzer.Build_row conference year 0%float 0%float 0%float.

(** The institution records of the list give the continent [c]: one of them
    has a country field that resolves to it. *)
Definition gives_continent (pc : pycountry) (insts : list json) (c : string)
  : Prop :=
  exists d country,
    In (JDict d) insts /\
    ContinentMapper.country_field (JDict d) = Ok country /\
    ContinentMapper.country_to_continent pc country = Ok (Some c).

(** An author record with no institutions: a dict whose Institutions are
    missing, null or empty. *)
Definition without_institutions (author : json) : bool :=
  match author with
  | JDict d =>
      negb (truthy (match lookup "Institutions" d with
                    | Some found => found
                    | None => JNull
                    end))
  | _ => false
  end.

(** The count of the bucket "Unknown" in the dictionary of votes. *)
Definition unknown_bucket (count : list (string * nat)) : nat :=
  match lookup "Unknown" count with
  | Some k => k
  | None => 0
  end.

(** How the classes of two lists of names combine into the class of their
    concatenation: a company anywhere decides, and a list of nulls adds
    nothing. *)
Definition combine (a b : BigTechAnalyzer.classification)
  : BigTechAnalyzer.classification :=
  match a, b with
  | BigTechAnalyzer.has_big_company, _ => BigTechAnalyzer.has_big_company
  | _, BigTechAnalyzer.has_big_company => BigTechAnalyzer.has_big_company
  | BigTechAnalyzer.all_none, x => x
  | x, BigTechAnalyzer.all_none => x
  | BigTechAnalyzer.no_big_company, BigTechAnalyzer.no_big_company =>
      BigTechAnalyzer.no_big_company
  end.

(** A name as [extract_institutions] leaves it: lower-cased and stripped. *)
Definition normalized (name : string) : Prop :=
  lower name = name /\ strip name = name.

(** An entry of the list [extract_institutions] builds is [None] or a
    normalized name. *)
Definition normalized_entry (inst : option string) : Prop :=
  match inst with
  | Some name => normalized name
  | None => True
  end.

(** A company name with no whitespace at either end. *)
Definition trimmed (company : string) : bool :=
  match company, last_char company with
  | String first _, Some last => negb (is_space first) && negb (is_space last)
  | _, _ => false
  end.

(** The rows one conference adds to the classification table: none for
    SoCC, none when its file cannot be loaded or analysed. *)
Definition conference_rows (fs : BigTechAnalyzer.processed_data)
  (conference : string) : list BigTechAnalyzer.row :=
  if lower conference =? "socc" then []
  else
    match (papers_by_year <- BigTechAnalyzer.load_json fs conference ;;
           BigTechAnalyzer.analyze_conference conference papers_by_year) with
    | Ok stats_by_year => map (BigTechAnalyzer.to_row conference) stats_by_year
    | Raise _ => []
    end.

(** What one alternative of the pattern gives at a position. *)
Definition alternative (company s : string) : bool :=
  match BigTechAnalyzer.match_literal company s with
  | Some rest => BigTechAnalyzer.not_word_ahead rest
  | None => false
  end.

(** The last character of the name, if any, is no space. *)
Definition ends_well (company : string) : Prop :=
  match last_char company with
  | Some z => is_space z = false
  | None => True
  end.

(** The label of a bucket in the table by continent. *)
Definition bucket_label (kv : string * BigTechAnalyzer.continent_bucket) : string :=
  ("pct_big_" ++ lower (fst kv))%string.

(** The bucket has a paper. *)
Definition has_paper (kv : string * BigTechAnalyzer.continent_bucket) : bool :=
  (0 <? BigTechAnalyzer.total (snd kv))%nat.

(** The papers counted in the buckets, all together. *)
Definition counted (continent_stats : list (string * BigTechAnalyzer.continent_bucket))
  : nat :=
  list_sum (map (fun kv => BigTechAnalyzer.total (snd kv)) continent_stats).

(** The two class counts of a bucket never exceed its total. *)
Definition bucket_ok (kv : string * BigTechAnalyzer.continent_bucket) : Prop :=
  BigTechAnalyzer.has_big (snd kv) + BigTechAnalyzer.no_big (snd kv)
  <= BigTechAnalyzer.total (snd kv).

(** Two paper records with the same institution names, as
    [extract_institutions] reads them. *)
Definition same_names (paper paper' : json) : Prop :=
  BigTechAnalyzer.extract_institutions paper' =
  BigTechAnalyzer.extract_institutions paper.

(** A year of the processed data stands for a year of the raw data: the
    same key, and a list with one processed paper for each raw paper, of the
    same names. *)
Definition year_processed (item entry : string * json) : Prop :=
  fst entry = fst item /\
  exists papers processed,
    py_iter (snd item) = Ok papers /\
    snd entry = JList processed /\
    Forall2 same_names papers processed.

(** The number of papers of a year of the processed data. *)
Definition papers_in (entry : string * json) : nat :=
  match snd entry with
  | JList processed => List.length processed
  | _ => 0
  end.

(** A list of strings in ascending order. *)
Fixpoint ascending (l : list string) : Prop :=
  match l with
  | x :: ((y :: _) as rest) => String.leb x y = true /\ ascending rest
  | _ => True
  end.

(** The conference name [get_conferences_from_directory] reads off a file
    name. *)
Definition conference_of (suffix file_name : string) : string :=
  remove_all "_citations"
    (remove_all "_base"
       (remove_all "_extended"
          (remove_all (remove_all ".json" suffix) (FileManager.stem file_name)))).

(** The citation gives the continent [c]: one of its author records has an
    institution record, under Institutions or else Affiliations, that gives
    it. *)
Definition citation_gives (pc : pycountry) (citation : json) (c : string)
  : Prop :=
  exists authors a insts,
    get_default citation "Authors" (JList []) = Ok (JList authors) /\
    In (JDict a) authors /\
    CSVGenerator.institutions_field (JDict a) = Ok (JList insts) /\
    gives_continent pc insts c.

(** A citing paper from which the continent [c] is extracted. *)
Definition cites_from (pc : pycountry) (c : string) (citation : json) : bool :=
  match citation with
  | JDict _ =>
      match CSVGenerator._extract_continents_from_citation pc citation with
      | Ok continents => existsb (String.eqb c) continents
      | Raise _ => false
      end
  | _ => false
  end.

(** The citing papers of the data of a conference: the members of its
    lists. *)
Definition citing_papers (items : list (string * json)) : list json :=
  flat_map (fun item => match snd item with JList l => l | _ => [] end) items.

(** A row of the papers CSV with a continent. *)
Definition with_continent (r : CSVGenerator.paper_row) : bool :=
  match CSVGenerator.Predominant_Continent r with
  | JNull => false
  | _ => true
  end.

(** The failure of [generate_papers_csv] on an exception: no row counted,
    and what is left of the file. *)
Definition failed_with (e : exn)
  (content : FileManager.file_content CSVGenerator.paper_row)
  : CSVGenerator.CSVGenerationResult
    * FileManager.file_content CSVGenerator.paper_row :=
  (CSVGenerator.Build_CSVGenerationResult 0 false (Some (CSVGenerator.Exception e)),
   content).

(** A file system on which the CSV can be written. *)
Definition writable (R : Type) (target : FileManager.csv_target R) : Prop :=
  FileManager.make_parent target = Ok tt /\
  FileManager.open_for_writing target = Ok tt /\
  forall rows, FileManager.write_rows target rows = Ok tt.

(** What a successful [save_csv] leaves of the file. *)
Definition saved (R : Type) (rows : list R) : FileManager.file_content R :=
  match rows with
  | [] => FileManager.Untouched
  | _ => FileManager.Written rows
  end.

(** The rows one conference adds to the citations CSV. *)
Definition conference_citation_rows (pc : pycountry)
  (continent_order : list string -> list string)
  (fs : CSVGenerator.citations_files) (conference : string)
  : list CSVGenerator.citation_row :=
  match CSVGenerator.add_conference_rows pc continent_order fs conference [] with
  | Ok rows => rows
  | Raise _ => []
  end.

(** The file [generate_citations_csv] reads for a conference: the primary
    file if it exists, else the fallback file; [None] when neither exists. *)
Definition citation_file (fs : CSVGenerator.citations_files)
  (conference : string) : option (result json) :=
  if CSVGenerator.primary_exists fs conference
  then Some (CSVGenerator.load_primary fs conference)
  else if CSVGenerator.fallback_exists fs conference
       then Some (CSVGenerator.load_fallback fs conference)
       else None.

(** What one conference adds to the statistics of [process_all_conferences]
    and to the files it saves: nothing when its file cannot be loaded,
    processed or saved. *)
Definition conference_stats (pc : pycountry) (set_order : list json -> list json)
  (fs : DataReducer.extended_files) (conference : string)
  : list (string * DataReducer.ProcessingStats) :=
  match DataReducer.process_and_save pc set_order fs conference with
  | Ok (_, stats) => [(conference, stats)]
  | Raise _ => []
  end.

Definition conference_file (pc : pycountry) (set_order : list json -> list json)
  (fs : DataReducer.extended_files) (conference : string)
  : list (string * json) :=
  match DataReducer.process_and_save pc set_order fs conference with
  | Ok (processed_data, _) => [(conference, JDict processed_data)]
  | Raise _ => []
  end.

(** A row of the citations CSV stands for a citing paper at least, of a
    conference that has a citation file. *)
Definition citation_row_ok (fs : CSVGenerator.citations_files)
  (r : CSVGenerator.citation_row) : Prop :=
  0 < CSVGenerator.Num_Papers r /\
  In (CSVGenerator.cited_Conference r) (CSVGenerator.citation_conferences fs) /\
  (CSVGenerator.primary_exists fs (CSVGenerator.cited_Conference r)
   || CSVGenerator.fallback_exists fs (CSVGenerator.cited_Conference r)) = true.

(** A country the record of a committee member names: a non-empty string
    among the values of its dict of institutions, or the record itself when
    it is a string. *)
Definition member_country (institutions : json) (country : string) : Prop :=
  match institutions with
  | JDict items => country <> "" /\ exists inst, In (inst, JStr country) items
  | JStr s => country = s
  | _ => False
  end.

(** A record of a committee member whose countries can be members of a set:
    no institution has a non-empty list or dict for its country. *)
Definition countries_hashable (institutions : json) : Prop :=
  match institutions with
  | JDict items =>
      forall item, In item items -> truthy (snd item) = true ->
                   hashable (snd item) = true
  | _ => True
  end.

(** The cell of a list of strings in the committee CSV. *)
Definition cell (l : list string) : option string :=
  match l with
  | [] => None
  | _ => Some (String.concat ";" l)
  end.

(** Text of the 7-bit range, on which the embedding of [str] is exact. *)
Definition ascii_text (s : string) : bool :=
  forall_string (fun c => (code c <? 128)%nat) s.

(** A value read from JSON whose strings, keys included, are ASCII text. *)
Fixpoint ascii_json (v : json) : bool :=
  match v with
  | JStr s => ascii_text s
  | JList l => forallb ascii_json l
  | JDict d => forallb (fun kv => ascii_text (fst kv) && ascii_json (snd kv)) d
  | _ => true
  end.

(** A string of two letters of the ASCII alphabet. *)
Definition two_ascii_letters (s : string) : Prop :=
  String.length s = 2 /\ forall_string is_alpha s = true.


(** An entry of the list [extract_institutions] builds is [None] or a name
    of ASCII text. *)
Definition ascii_entry (inst : option string) : Prop :=
  match inst with
  | Some name => ascii_text name = true
  | None => True
  end.

(* ================================================================== *)
(** * Sample data                                                      *)
(* ================================================================== *)

Module Sample.

(** A few entries of the tables of [pycountry_convert], enough to run the
    code on examples. *)
Definition alpha2_continent : list (string * string) :=
  [ ("US", "NA"); ("CA", "NA"); ("MX", "NA");
    ("GB", "EU"); ("FR", "EU"); ("DE", "EU"); ("CH", "EU"); ("ES", "EU");
    ("CN", "AS"); ("JP", "AS"); ("KR", "AS"); ("IN", "AS"); ("AE", "AS");
    ("BR", "SA"); ("AU", "OC"); ("ZA", "AF") ].

Definition name_alpha2 : list (string * string) :=
  [ ("United States", "US"); ("Canada", "CA"); ("United Kingdom", "GB");
    ("France", "FR"); ("Germany", "DE"); ("Switzerland", "CH");
    ("China", "CN"); ("Japan", "JP"); ("Brazil", "BR"); ("Australia", "AU") ].

Definition table_call (table : list (string * string)) (key : string)
  : result string :=
  match lookup key table with
  | Some v => Ok v
  | None => Raise KeyError
  end.

Definition pc : pycountry :=
  {| country_name_to_country_alpha2 := table_call name_alpha2;
     country_alpha2_to_continent_code := table_call alpha2_continent |}.

(** One possible iteration order of a set: the insertion order. *)
Definition insertion_order (members : list json) : list json := members.

(** Records in the shape of the input files. *)
Definition institution (name country : string) : json :=
  JDict [("Institution Name", JStr name); ("Country", JStr country)].

Definition author (institutions : list json) : json :=
  JDict [("Institutions", JList institutions)].

Definition paper (title : string) (authors : list json) : json :=
  JDict [("Title", JStr title); ("Year", JStr "2020");
         ("Authors and Institutions", JList authors)].

(** One author in the United States and one in China. *)
Definition tied_authors : list json :=
  [ author [institution "MIT" "US"];
    author [institution "Tsinghua University" "CN"] ].

(** The four papers of the end-to-end scenario: all institutions at Google,
    all at ETH Zurich, no institution data, and a paper tied between North
    America and Asia. *)
Definition google_paper : json :=
  paper "A" [ author [institution "Google" "US"];
              author [institution "Google" "US"] ].

Definition eth_paper : json :=
  paper "B" [ author [institution "ETH Zurich" "CH"] ].

Definition unknown_paper : json :=
  paper "C" [ author []; author [] ].

Definition tied_paper : json := paper "D" tied_authors.

(** A ProcessedData directory with one conference, of one year. *)
Definition one_conference (papers_by_year : json) : BigTechAnalyzer.processed_data :=
  {| BigTechAnalyzer.dir_exists := true;
     BigTechAnalyzer.conferences := ["nsdi"];
     BigTechAnalyzer.load_json := fun _ => Ok papers_by_year |}.

Definition scenario : BigTechAnalyzer.processed_data :=
  one_conference
    (JDict [("2020", JList [google_paper; eth_paper; unknown_paper; tied_paper])]).

(** A conference with a year of no paper. *)
Definition empty_year : BigTechAnalyzer.processed_data :=
  one_conference (JDict [("2019", JList []); ("2020", JList [eth_paper])]).

(** An author without institutions, an author in the United States, and an
    author whose country token is no ISO code. *)
Definition mixed_authors : list json :=
  [ author [];
    author [institution "MIT" "US"];
    author [institution "Imperial College" "UK"] ].

(** The data of a conference before data reduction. *)
Definition raw_conference : list (string * json) :=
  [ ("2020", JList [google_paper; eth_paper; unknown_paper; tied_paper]) ].

(** A paper as data reduction writes it. *)
Definition reduced (title : string) (continents : list string)
  (authors : list json) : json :=
  JDict [ ("Title", JStr title); ("Year", JStr "2020");
          ("Predominant Continent", JList (map JStr continents));
          ("Authors and Institutions", JList authors) ].

Definition reduced_year : list json :=
  [ reduced "A" ["NA"] [author [institution "Google" "US"]];
    reduced "B" ["EU"] [author [institution "ETH Zurich" "CH"]];
    reduced "C" [] [author []];
    reduced "E" ["SA"] [author [institution "Universidade de Sao Paulo" "BR"]] ].

(** A file of two years, and new data for the second and for a third. *)
Definition save_ok (content : json) : result unit := Ok tt.

Definition old_entries : list (string * json) :=
  [ ("2019", JList []); ("2020", JList [eth_paper]) ].

Definition new_entries : list (string * json) :=
  [ ("2020", JList [google_paper]); ("2021", JList []) ].

(** One possible iteration order of a set of continents. *)
Definition continent_insertion_order (continents : list string) : list string :=
  continents.

(** Citing papers: authors in the United States and France, authors in the
    United States only, and an entry that is no record. *)
Definition citing_data : list (string * json) :=
  [ ("paper 1",
     JList [ JDict [("Authors",
                     JList [ JDict [("Institutions",
                                     JList [institution "MIT" "US"])];
                             JDict [("Affiliations",
                                     JList [JDict [("country", JStr "France")]])] ])];
             JStr "not a record" ]);
    ("paper 2",
     JList [ JDict [("Authors",
                     JList [ JDict [("Institutions",
                                     JList [institution "Stanford" "USA"])] ])] ]);
    ("paper 3", JNull) ].

(** A file that can be written. *)
Definition writable_target (R : Type) : FileManager.csv_target R :=
  {| FileManager.make_parent := Ok tt;
     FileManager.open_for_writing := Ok tt;
     FileManager.write_rows := fun _ => Ok tt |}.

(** A ProcessedData directory with a file that cannot be parsed. *)
Definition broken_directory : CSVGenerator.papers_files :=
  {| CSVGenerator.processed_exists := true;
     CSVGenerator.data_stems := ["nsdi_data"; "osdi_data"];
     CSVGenerator.load_json :=
       fun file_stem =>
         if file_stem =? "osdi_data" then Raise JSONDecodeError
         else Ok (JDict [("2020", JList reduced_year)]);
     CSVGenerator.papers_csv := writable_target CSVGenerator.paper_row |}.

(** An ExtendedCrawlerData directory with a file that cannot be parsed. *)
Definition extended_directory : DataReducer.extended_files :=
  {| DataReducer.extended_exists := true;
     DataReducer.extended_is_dir := true;
     DataReducer.make_output_dir := Ok tt;
     DataReducer.globbed := ["osdi_extended_data.json"; "nsdi_extended_data.json"];
     DataReducer.load_json :=
       fun conference =>
         if conference =? "nsdi" then Ok (JDict raw_conference)
         else Raise JSONDecodeError;
     DataReducer.save_json := fun _ _ => Ok tt |}.

(** A CitationsCrawlerData directory with a file that cannot be parsed. *)
Definition citations_directory : CSVGenerator.citations_files :=
  {| CSVGenerator.citations_exists := true;
     CSVGenerator.primary_stems := ["osdi_citations_data"; "nsdi_citations_data"];
     CSVGenerator.intermediate_exists := false;
     CSVGenerator.fallback_stems := [];
     CSVGenerator.primary_exists := fun _ => true;
     CSVGenerator.fallback_exists := fun _ => false;
     CSVGenerator.load_primary :=
       fun conference =>
         if conference =? "nsdi" then Ok (JDict citing_data)
         else Raise JSONDecodeError;
     CSVGenerator.load_fallback := fun _ => Raise FileNotFoundError;
     CSVGenerator.citations_csv := writable_target CSVGenerator.citation_row |}.

(** The institutions of a committee member, with their countries. *)
Definition member_institutions : json :=
  JDict [ ("MIT", JStr "US"); ("ETH Zurich", JStr "CH"); ("A lab", JNull) ].

End Sample.

(* ================================================================== *)
(** * Properties                                                       *)
(* ================================================================== *)

Import ContinentMapper BigTechAnalyzer.

Unset Implicit Arguments.

(** ** Grouping of continents *)

Lemma groups_lookup_values : forall (s g : string),
  lookup s CONTINENT_GROUPS = Some g ->
  In g ["NA"; "EU"; "AS"; "Others"].
Proof.
  intros s g. unfold CONTINENT_GROUPS. cbn [lookup].
  repeat match goal with
         | |- context [if ?b then _ else _] => destruct b
         end;
    intros H; inversion H; subst; simpl; auto 6.
Qed.

Lemma groups_lookup_outside : forall (s : string),
  ~ In s ["NA"; "EU"; "AS"; "SA"; "OC"; "AF"] ->
  lookup s CONTINENT_GROUPS = None.
Proof.
  intros s Hs. unfold CONTINENT_GROUPS. cbn [lookup].
  repeat match goal with
         | |- context [(?k =? s)] =>
             destruct (String.eqb_spec k s) as [E | _];
             [ exfalso; apply Hs; rewrite <- E; simpl; auto 8 | ]
         end.
  reflexivity.
Qed.

Lemma truthy_str : forall (s : string), truthy (JStr s) = true <-> s <> "".
Proof.
  intros s. simpl. destruct (String.eqb_spec s ""); simpl; split; congruence.
Qed.

(** C9. [group_continent] answers "Unknown" for a falsy input (null, the
    empty string) and for nothing else; a non-empty string that is none of
    the six continent codes, the string "Unknown" among them, is grouped
    under "Others". *)
Theorem group_continent_unknown_only_for_empty :
  (forall v : json, group_continent v = Ok "Unknown" <-> truthy v = false) /\
  group_continent JNull = Ok "Unknown" /\
  group_continent (JStr "") = Ok "Unknown" /\
  (forall s : string,
      s <> "" -> ~ In s ["NA"; "EU"; "AS"; "SA"; "OC"; "AF"] ->
      group_continent (JStr s) = Ok "Others") /\
  group_continent (JStr "Unknown") = Ok "Others".
Proof.
  split; [ | split; [ reflexivity | split; [ reflexivity | split ] ] ].
  - intros v. unfold group_continent.
    destruct (truthy v) eqn:T; cbn [negb]; [ | split; reflexivity ].
    split; [ | intros H; discriminate H ].
    intros H. exfalso.
    destruct (hashable v); cbn [negb] in H; [ | discriminate H ].
    destruct v; try discriminate H.
    destruct (lookup s CONTINENT_GROUPS) as [g | ] eqn:L; [ | discriminate H ].
    apply groups_lookup_values in L. inversion H; subst.
    simpl in L. intuition discriminate.
  - intros s Hne Hout. unfold group_continent.
    apply truthy_str in Hne. rewrite Hne. cbn [negb hashable].
    rewrite (groups_lookup_outside s Hout). reflexivity.
  - reflexivity.
Qed.

(** The same, at the string a vote for an unresolved country is filed under
    and at a string that is no continent code. *)
Lemma group_continent_unknown_only_for_empty_witness :
  group_continent (JStr "Unknown") = Ok "Others" /\
  group_continent (JStr "Antarctica") = Ok "Others".
Proof.
  split.
  - apply (proj1 (proj2 (proj2 (proj2 group_continent_unknown_only_for_empty))) "Unknown").
    + discriminate.
    + simpl. intuition discriminate.
  - apply (proj1 (proj2 (proj2 (proj2 group_continent_unknown_only_for_empty))) "Antarctica").
    + discriminate.
    + simpl. intuition discriminate.
Defined.

(** ** Characters *)

Ltac leb_cases :=
  repeat match goal with
         | |- context [(?a <=? ?b)%nat] => destruct (Nat.leb_spec a b)
         | H : context [(?a <=? ?b)%nat] |- _ => destruct (Nat.leb_spec a b)
         | |- context [(?a =? ?b)%nat] => destruct (Nat.eqb_spec a b)
         | H : context [(?a =? ?b)%nat] |- _ => destruct (Nat.eqb_spec a b)
         end.

Lemma code_ascii_of_nat : forall n : nat, n < 256 -> code (ascii_of_nat n) = n.
Proof. intros n H. unfold code. apply nat_ascii_embedding. exact H. Qed.

Lemma alpha_not_space : forall c : ascii, is_alpha c = true -> is_space c = false.
Proof.
  intros c. unfold is_alpha, is_upper, is_lower, is_space.
  generalize (code c). intros n H.
  leb_cases; simpl in *; try reflexivity; try discriminate; lia.
Qed.


Lemma to_upper_alpha : forall c : ascii,
  is_alpha c = true -> is_upper (to_upper c) = true.
Proof.
  intros c. unfold is_alpha, to_upper.
  destruct (is_lower c) eqn:L.
  - intros _. unfold is_lower in L. unfold is_upper.
    rewrite code_ascii_of_nat by (leb_cases; simpl in L; try discriminate; lia).
    leb_cases; simpl in *; try reflexivity; try discriminate; lia.
  - rewrite orb_false_r. trivial.
Qed.

Lemma upper_not_lower : forall c : ascii, is_upper c = true -> is_lower c = false.
Proof.
  intros c. unfold is_upper, is_lower. generalize (code c). intros n H.
  leb_cases; simpl in *; try reflexivity; try discriminate; lia.
Qed.

Lemma to_upper_idempotent : forall c : ascii,
  is_alpha c = true -> to_upper (to_upper c) = to_upper c.
Proof.
  intros c H. apply to_upper_alpha in H. apply upper_not_lower in H.
  unfold to_upper at 1. rewrite H. reflexivity.
Qed.

(** ** Two-letter country codes *)

Lemma strip_two_letters : forall a b : ascii,
  is_alpha a = true -> is_alpha b = true ->
  strip (String a (String b EmptyString)) = String a (String b EmptyString).
Proof.
  intros a b Ha Hb. apply alpha_not_space in Ha. apply alpha_not_space in Hb.
  unfold strip. cbn [lstrip]. rewrite Ha. cbn [rstrip]. rewrite Hb. reflexivity.
Qed.

Lemma two_letters_inv : forall s : string,
  String.length s = 2 -> forall_string is_alpha s = true ->
  exists a b, s = String a (String b EmptyString) /\
              is_alpha a = true /\ is_alpha b = true.
Proof.
  intros s Hlen Hal.
  destruct s as [ | a [ | b [ | c s ] ] ]; simpl in Hlen; try discriminate Hlen.
  cbn [forall_string] in Hal.
  apply andb_true_iff in Hal. destruct Hal as [Ha Hb].
  rewrite andb_true_r in Hb. exists a, b. auto.
Qed.

Lemma fixes_lookup_two_letters : forall s : string,
  String.length s = 2 -> s <> "UK" -> lookup s COUNTRY_CODE_FIXES = None.
Proof.
  intros s Hlen Hne. unfold COUNTRY_CODE_FIXES. cbn [lookup].
  repeat match goal with
         | |- context [(?k =? s)] =>
             destruct (String.eqb_spec k s) as [E | _];
             [ exfalso; subst s;
               first [ apply Hne; reflexivity | simpl in Hlen; discriminate Hlen ]
             | ]
         end.
  reflexivity.
Qed.

Lemma normalize_two_letters : forall s : string,
  String.length s = 2 -> forall_string is_alpha s = true ->
  normalize_alpha2 (JStr s) =
  match lookup s COUNTRY_CODE_FIXES with
  | Some fixed => Some fixed
  | None => Some (upper s)
  end.
Proof.
  intros s Hlen Hal.
  destruct (two_letters_inv s Hlen Hal) as (a & b & -> & Ha & Hb).
  unfold normalize_alpha2, country_fixes. cbv zeta.
  rewrite (strip_two_letters a b Ha Hb).
  destruct (lookup (String a (String b EmptyString)) COUNTRY_CODE_FIXES);
    [ reflexivity | ].
  unfold isalpha. cbn [String.length Nat.eqb forall_string String.eqb negb andb].
  rewrite Ha, Hb. reflexivity.
Qed.

Lemma upper_two_letters : forall s : string,
  String.length s = 2 -> forall_string is_alpha s = true ->
  String.length (upper s) = 2 /\ forall_string is_alpha (upper s) = true /\
  upper (upper s) = upper s.
Proof.
  intros s Hlen Hal.
  destruct (two_letters_inv s Hlen Hal) as (a & b & -> & Ha & Hb).
  unfold upper. cbn [map_string String.length forall_string].
  rewrite (to_upper_idempotent a Ha), (to_upper_idempotent b Hb).
  unfold is_alpha at 1 2.
  rewrite (to_upper_alpha a Ha), (to_upper_alpha b Hb). auto.
Qed.

Lemma resolve_two_letters : forall (pc : pycountry) (s : string),
  String.length s = 2 -> forall_string is_alpha s = true -> s <> "UK" ->
  country_to_alpha2 pc (JStr s) = Ok (Some (upper s)).
Proof.
  intros pc s Hlen Hal Hne. unfold country_to_alpha2. cbv zeta.
  rewrite (normalize_two_letters s Hlen Hal).
  rewrite (fixes_lookup_two_letters s Hlen Hne).
  destruct (two_letters_inv s Hlen Hal) as (a & b & -> & _ & _).
  reflexivity.
Qed.

(** C6, as the code has it, for the letters of the ASCII alphabet. For a
    string [s] of two such letters other than "UK", [country_to_alpha2]
    returns [s] upper-cased; "UK" itself is an alias and resolves to "GB".
    Resolving twice gives the same as resolving once unless [s] is a lower-
    or mixed-case spelling of "UK" (whose result "UK" resolves on to "GB").
    A letter outside the ASCII alphabet is outside this statement: the
    test of the code accepts it, and its upper case can be two letters. *)
Theorem country_to_alpha2_two_letters :
  forall (pc : pycountry) (s : string),
    two_ascii_letters s ->
    ascii_text s = true /\
    (s <> "UK" -> country_to_alpha2 pc (JStr s) = Ok (Some (upper s))) /\
    (s = "UK" -> country_to_alpha2 pc (JStr s) = Ok (Some "GB")) /\
    (upper s <> "UK" \/ s = "UK" ->
     resolve_twice pc (JStr s) = country_to_alpha2 pc (JStr s)) /\
    (upper s = "UK" -> s <> "UK" ->
     resolve_twice pc (JStr s) = Ok (Some "GB") /\
     country_to_alpha2 pc (JStr s) = Ok (Some "UK")).
Proof.
  intros pc s [Hlen Hal]. split; [ | split; [ | split; [ | split ] ] ].
  - destruct (two_letters_inv s Hlen Hal) as (a & b & -> & Ha & Hb).
    unfold ascii_text. cbn [forall_string].
    unfold is_alpha, is_upper, is_lower in Ha, Hb. cbv zeta in Ha, Hb.
    assert (Hlt : forall n, ((65 <=? n) && (n <=? 90) || (97 <=? n) && (n <=? 122))%nat
                            = true -> (n <? 128)%nat = true).
    { intros n H. apply Nat.ltb_lt. apply orb_true_iff in H.
      destruct H as [H | H]; apply andb_true_iff in H; destruct H as [_ H];
        apply Nat.leb_le in H; lia. }
    rewrite (Hlt _ Ha), (Hlt _ Hb). reflexivity.
  - apply resolve_two_letters; assumption.
  - intros ->. reflexivity.
  - intros [Hup | ->]; [ | reflexivity ].
    assert (Hne : s <> "UK").
    { intros ->. apply Hup. reflexivity. }
    unfold resolve_twice.
    rewrite (resolve_two_letters pc s Hlen Hal Hne). cbn [bind].
    destruct (upper_two_letters s Hlen Hal) as (Hlen' & Hal' & Hidem).
    rewrite (resolve_two_letters pc (upper s) Hlen' Hal' Hup). rewrite Hidem. reflexivity.
  - intros Hup Hne. unfold resolve_twice.
    rewrite (resolve_two_letters pc s Hlen Hal Hne). cbn [bind].
    rewrite Hup. split; reflexivity.
Qed.

Lemma country_to_alpha2_two_letters_witness :
  two_ascii_letters "fr" /\
  country_to_alpha2 Sample.pc (JStr "fr") = Ok (Some "FR") /\
  resolve_twice Sample.pc (JStr "fr") = country_to_alpha2 Sample.pc (JStr "fr").
Proof.
  assert (H : two_ascii_letters "fr") by (split; reflexivity).
  destruct (country_to_alpha2_two_letters Sample.pc "fr" H) as (_ & H1 & _ & H3 & _).
  split; [ exact H | ]. split.
  - apply H1. discriminate.
  - apply H3. left. discriminate.
Defined.

(** C6 as stated fails at the alias "UK" and at its lower-case spelling:
    "UK" resolves to "GB", not to itself, and "uk" resolves to "UK", which
    resolves to "GB". *)
Lemma country_to_alpha2_two_letters_counterexample :
  String.length "UK" = 2 /\ forall_string is_alpha "UK" = true /\
  country_to_alpha2 Sample.pc (JStr "UK") = Ok (Some "GB") /\
  country_to_alpha2 Sample.pc (JStr "UK") <> Ok (Some (upper "UK")) /\
  country_to_alpha2 Sample.pc (JStr "uk") = Ok (Some "UK") /\
  resolve_twice Sample.pc (JStr "uk") = Ok (Some "GB") /\
  resolve_twice Sample.pc (JStr "uk") <> country_to_alpha2 Sample.pc (JStr "uk").
Proof.
  repeat split; try reflexivity; vm_compute; intros H; discriminate H.
Qed.

(** ** Resolution never raises *)

Lemma country_name_to_alpha2_ok : forall (pc : pycountry) (v : json),
  exists code, country_name_to_alpha2 pc v = Ok code.
Proof.
  intros pc v. unfold country_name_to_alpha2.
  destruct v; try (eexists; reflexivity).
  destruct (lookup (strip s) country_fixes); [ eexists; reflexivity | ].
  destruct (country_name_to_country_alpha2 pc (strip s));
    [ eexists; reflexivity | ].
  destruct (country_name_to_country_alpha2 pc _); eexists; reflexivity.
Qed.

Lemma country_to_alpha2_ok : forall (pc : pycountry) (v : json),
  exists code, country_to_alpha2 pc v = Ok code.
Proof.
  intros pc v. unfold country_to_alpha2. cbv zeta.
  destruct (nonempty (normalize_alpha2 v)); [ eexists; reflexivity | ].
  apply country_name_to_alpha2_ok.
Qed.

Lemma alpha2_to_continent_ok : forall (pc : pycountry) (alpha2 : option string),
  exists continent, alpha2_to_continent pc alpha2 = Ok continent.
Proof.
  intros pc alpha2. unfold alpha2_to_continent.
  destruct alpha2 as [a | ]; [ | eexists; reflexivity ].
  destruct (negb (nonempty (Some a))); [ eexists; reflexivity | ].
  destruct (country_alpha2_to_continent_code pc a); eexists; reflexivity.
Qed.

Lemma country_to_alpha2_unresolved : forall (pc : pycountry) (s : string),
  fails_every_step pc s -> country_to_alpha2 pc (JStr s) = Ok None.
Proof.
  intros pc s (Hfix & Hcode & (e1 & Hname) & (e2 & Hclean)).
  cbv zeta in *.
  unfold country_to_alpha2, normalize_alpha2, country_name_to_alpha2, country_fixes.
  cbv zeta. rewrite Hfix, Hcode. cbn [nonempty].
  rewrite Hname, Hclean. reflexivity.
Qed.

(** C5. [country_to_alpha2] and [country_to_continent] return for every
    input, whatever [pycountry_convert] raises: a code or [None]. A value that
    is no string, and a string on which every resolution step fails, give
    [None]. *)
Theorem country_resolution_never_raises :
  forall (pc : pycountry) (v : json),
    (exists code, country_to_alpha2 pc v = Ok code) /\
    (exists continent, country_to_continent pc v = Ok continent) /\
    (is_str v = false ->
     country_to_alpha2 pc v = Ok None /\ country_to_continent pc v = Ok None) /\
    (forall s : string, v = JStr s -> fails_every_step pc s ->
     country_to_alpha2 pc v = Ok None /\ country_to_continent pc v = Ok None).
Proof.
  intros pc v. split; [ | split; [ | split ] ].
  - apply country_to_alpha2_ok.
  - unfold country_to_continent.
    destruct (country_to_alpha2_ok pc v) as [code ->]. cbn [bind].
    apply alpha2_to_continent_ok.
  - intros Hstr. destruct v; try discriminate Hstr; split; reflexivity.
  - intros s -> Hfail. unfold country_to_continent.
    rewrite (country_to_alpha2_unresolved pc s Hfail). split; reflexivity.
Qed.

Lemma country_resolution_never_raises_witness :
  country_to_alpha2 Sample.pc (JStr "Atlantis, Rep.") = Ok None /\
  country_to_continent Sample.pc (JStr "Atlantis, Rep.") = Ok None /\
  country_to_continent Sample.pc (JNum 7) = Ok None.
Proof.
  destruct (country_resolution_never_raises Sample.pc (JStr "Atlantis, Rep."))
    as (_ & _ & _ & H).
  destruct (country_resolution_never_raises Sample.pc (JNum 7))
    as (_ & _ & H' & _).
  assert (F : fails_every_step Sample.pc "Atlantis, Rep.").
  { repeat split; try reflexivity; exists KeyError; reflexivity. }
  destruct (H "Atlantis, Rep." eq_refl F) as [H1 H2].
  destruct (H' eq_refl) as [_ H3].
  repeat split; assumption.
Defined.

(** ** The dictionary of votes *)

Lemma distinct_in : forall (l : list string) (c : string),
  In c (distinct l) <-> In c l.
Proof.
  induction l as [ | x r IH ]; intros c; cbn [distinct In]; [ tauto | ].
  rewrite filter_In, IH.
  destruct (String.eqb_spec c x) as [-> | Hne]; cbn [negb].
  - split; auto.
  - split; [ intros [-> | [H _]]; auto | intros [E | H]; auto ].
Qed.

Lemma distinct_NoDup : forall l : list string, NoDup (distinct l).
Proof.
  induction l as [ | x r IH ]; cbn [distinct]; constructor.
  - rewrite filter_In. intros [_ H]. rewrite String.eqb_refl in H. discriminate H.
  - apply NoDup_filter. exact IH.
Qed.

Lemma filter_absent : forall (x : string) (l : list string),
  ~ In x l -> filter (fun y => negb (y =? x)) l = l.
Proof.
  intros x l. induction l as [ | y r IH ]; intros H; cbn [filter]; [ reflexivity | ].
  destruct (String.eqb_spec y x) as [-> | _]; cbn [negb].
  - exfalso. apply H. left. reflexivity.
  - f_equal. apply IH. intros Hin. apply H. right. exact Hin.
Qed.

Lemma distinct_snoc : forall (l : list string) (c : string),
  distinct (l ++ [c]) =
  if in_dec string_dec c l then distinct l else distinct l ++ [c].
Proof.
  induction l as [ | x r IH ]; intros c.
  - destruct (in_dec string_dec c []) as [[] | _]. reflexivity.
  - cbn [app distinct]. rewrite IH.
    destruct (in_dec string_dec c r) as [Hin | Hout];
      destruct (in_dec string_dec c (x :: r)) as [Hin' | Hout'];
      try reflexivity.
    + exfalso. apply Hout'. right. exact Hin.
    + destruct Hin' as [-> | Hin']; [ | contradiction ].
      rewrite filter_app. cbn [filter]. rewrite String.eqb_refl. cbn [negb].
      rewrite app_nil_r. reflexivity.
    + rewrite filter_app. cbn [filter].
      destruct (String.eqb_spec c x) as [-> | _]; cbn [negb].
      * exfalso. apply Hout'. left. reflexivity.
      * reflexivity.
Qed.

Lemma votes_for_snoc : forall (l : list string) (c c' : string),
  votes_for (l ++ [c]) c' = votes_for l c' + (if c =? c' then 1 else 0).
Proof.
  intros l c c'. unfold votes_for. rewrite count_occ_app. cbn [count_occ].
  destruct (string_dec c c') as [-> | Hne].
  - rewrite String.eqb_refl. reflexivity.
  - apply String.eqb_neq in Hne. rewrite Hne. reflexivity.
Qed.

Lemma votes_for_absent : forall (l : list string) (c : string),
  ~ In c l -> votes_for l c = 0.
Proof. intros l c H. unfold votes_for. apply count_occ_not_In. exact H. Qed.

Lemma lookup_buckets : forall (g : string -> nat) (L : list string) (c : string),
  lookup c (map (fun k => (k, g k)) L) =
  if in_dec string_dec c L then Some (g c) else None.
Proof.
  intros g L c. induction L as [ | x r IH ]; cbn [map lookup].
  - destruct (in_dec string_dec c []) as [[] | _]. reflexivity.
  - destruct (String.eqb_spec x c) as [-> | Hne].
    + destruct (in_dec string_dec c (c :: r)) as [_ | H]; [ reflexivity | ].
      exfalso. apply H. left. reflexivity.
    + rewrite IH.
      destruct (in_dec string_dec c r) as [Hin | Hout];
        destruct (in_dec string_dec c (x :: r)) as [Hin' | Hout'];
        try reflexivity.
      * exfalso. apply Hout'. right. exact Hin.
      * destruct Hin' as [E | Hin']; contradiction.
Qed.

Lemma dict_set_new : forall (g : string -> nat) (L : list string) (c : string) (v : nat),
  ~ In c L ->
  dict_set c v (map (fun k => (k, g k)) L) = map (fun k => (k, g k)) L ++ [(c, v)].
Proof.
  intros g L c v. induction L as [ | x r IH ]; intros H; cbn [map dict_set app].
  - reflexivity.
  - destruct (String.eqb_spec x c) as [-> | _].
    + exfalso. apply H. left. reflexivity.
    + f_equal. apply IH. intros Hin. apply H. right. exact Hin.
Qed.

Lemma map_buckets_ext : forall (g h : string -> nat) (L : list string),
  (forall k, In k L -> g k = h k) ->
  map (fun k => (k, g k)) L = map (fun k => (k, h k)) L.
Proof.
  intros g h L H. apply map_ext_in. intros k Hk. rewrite (H k Hk). reflexivity.
Qed.

Lemma dict_set_old : forall (g : string -> nat) (L : list string) (c : string) (v : nat),
  NoDup L -> In c L ->
  dict_set c v (map (fun k => (k, g k)) L) =
  map (fun k => (k, if k =? c then v else g k)) L.
Proof.
  intros g L c v. induction L as [ | x r IH ]; intros Hnd Hin; [ destruct Hin | ].
  inversion Hnd as [ | ? ? Hx Hr ]; subst. cbn [map dict_set].
  destruct (String.eqb_spec x c) as [-> | Hne].
  - f_equal. apply map_buckets_ext. intros k Hk.
    destruct (String.eqb_spec k c) as [-> | _]; [ contradiction | reflexivity ].
  - f_equal. apply IH; [ exact Hr | ].
    destruct Hin as [E | Hin]; [ contradiction | exact Hin ].
Qed.

Lemma increment_buckets : forall (votes : list string) (c : string),
  increment c (map (bucket votes) (distinct votes)) =
  map (bucket (votes ++ [c])) (distinct (votes ++ [c])).
Proof.
  intros votes c. unfold increment, bucket.
  rewrite lookup_buckets, distinct_snoc.
  destruct (in_dec string_dec c (distinct votes)) as [Hd | Hd];
    destruct (in_dec string_dec c votes) as [Hv | Hv];
    try (exfalso; apply (proj1 (distinct_in votes c)) in Hd; contradiction);
    try (exfalso; apply Hd; apply (proj2 (distinct_in votes c)); exact Hv).
  - rewrite dict_set_old by (auto using distinct_NoDup).
    apply map_buckets_ext. intros k _. rewrite votes_for_snoc.
    rewrite (String.eqb_sym c k).
    destruct (String.eqb_spec k c) as [-> | _]; [ reflexivity | lia ].
  - rewrite dict_set_new by exact Hd.
    rewrite map_app. cbn [map]. f_equal.
    + apply map_buckets_ext. intros k Hk. rewrite votes_for_snoc.
      destruct (String.eqb_spec c k) as [-> | _]; [ contradiction | lia ].
    + rewrite votes_for_snoc, String.eqb_refl.
      rewrite (votes_for_absent votes c Hv). reflexivity.
Qed.

Lemma tally_votes_buckets : forall (later earlier : list string),
  tally_votes later (map (bucket earlier) (distinct earlier)) =
  map (bucket (earlier ++ later)) (distinct (earlier ++ later)).
Proof.
  induction later as [ | c r IH ]; intros earlier.
  - rewrite app_nil_r. reflexivity.
  - unfold tally_votes. cbn [fold_left]. rewrite increment_buckets.
    fold (tally_votes r (map (bucket (earlier ++ [c])) (distinct (earlier ++ [c])))).
    rewrite IH. rewrite <- app_assoc. reflexivity.
Qed.

Lemma tally_votes_app : forall (v1 v2 : list string) (d : list (string * nat)),
  tally_votes (v1 ++ v2) d = tally_votes v2 (tally_votes v1 d).
Proof. intros v1 v2 d. unfold tally_votes. apply fold_left_app. Qed.

Lemma max_count_buckets : forall votes : list string,
  max_count (map (bucket votes) (distinct votes)) = most_votes votes.
Proof.
  intros votes. unfold max_count, most_votes, bucket.
  rewrite map_map. cbn [snd].
  change (list_max (map (votes_for votes) (distinct votes)) =
          list_max (map (votes_for votes) votes)).
  apply Nat.le_antisymm; apply list_max_le; apply Forall_forall;
    intros n Hn; apply in_map_iff in Hn; destruct Hn as (c & <- & Hc).
  - apply (proj1 (distinct_in votes c)) in Hc.
    assert (H := proj1 (list_max_le (map (votes_for votes) votes) _) (le_n _)).
    rewrite Forall_forall in H. apply H. apply in_map. exact Hc.
  - apply (proj2 (distinct_in votes c)) in Hc.
    assert (H := proj1 (list_max_le (map (votes_for votes) (distinct votes)) _)
                       (le_n _)).
    rewrite Forall_forall in H. apply H. apply in_map. exact Hc.
Qed.

Lemma votes_for_le_most : forall (votes : list string) (c : string),
  votes_for votes c <= most_votes votes.
Proof.
  intros votes c. destruct (in_dec string_dec c votes) as [Hin | Hout].
  - unfold most_votes.
    change (votes_for votes c <= list_max (map (votes_for votes) votes)).
    assert (H := proj1 (list_max_le (map (votes_for votes) votes) _) (le_n _)).
    rewrite Forall_forall in H. apply H. apply in_map. exact Hin.
  - rewrite (votes_for_absent votes c Hout). apply Nat.le_0_l.
Qed.

Lemma filter_buckets : forall (votes L : list string) (m : nat),
  map fst (filter (fun kv : string * nat => (snd kv =? m)%nat)
                  (map (bucket votes) L)) =
  filter (fun c => (votes_for votes c =? m)%nat) L.
Proof.
  intros votes L m. induction L as [ | c r IH ]; cbn [map filter]; [ reflexivity | ].
  unfold bucket at 1. cbn [snd].
  destruct (votes_for votes c =? m)%nat; cbn [map fst]; rewrite IH; reflexivity.
Qed.

Lemma tied_in : forall (votes : list string) (c : string),
  In c (tied votes) <->
  In c votes /\ forall c', votes_for votes c' <= votes_for votes c.
Proof.
  intros votes c. unfold tied. rewrite filter_In, distinct_in, Nat.eqb_eq.
  split; intros [Hin H]; split; try exact Hin.
  - intros c'. rewrite H. apply votes_for_le_most.
  - apply Nat.le_antisymm; [ apply votes_for_le_most | ].
    unfold most_votes.
    change (list_max (map (votes_for votes) votes) <= votes_for votes c).
    apply list_max_le. apply Forall_forall. intros n Hn.
    apply in_map_iff in Hn. destruct Hn as (c' & <- & _). apply H.
Qed.

Lemma tied_NoDup : forall votes : list string, NoDup (tied votes).
Proof. intros votes. unfold tied. apply NoDup_filter. apply distinct_NoDup. Qed.

(** ** The loop of [get_predominant_continent] and the sequence of votes *)

Section Predominance.

Variable pc : pycountry.
Variable set_order : list json -> list json.

Lemma count_countries_votes : forall (tokens : list json) (st : tally),
  continent_count (fold_left (count_country pc) tokens st) =
  tally_votes (map (fun t => fst (country_vote pc t)) tokens) (continent_count st).
Proof.
  induction tokens as [ | t r IH ]; intros st; [ reflexivity | ].
  cbn [fold_left map]. rewrite IH. unfold tally_votes. cbn [fold_left].
  f_equal. unfold count_country.
  destruct (country_vote pc t) as [continent unknown]. reflexivity.
Qed.

Lemma count_author_votes : forall (author : json) (st st' : tally),
  count_author pc set_order author st = Ok st' ->
  exists votes,
    votes_of_author pc set_order author = Ok votes /\
    continent_count st' = tally_votes votes (continent_count st).
Proof.
  intros author st st'. unfold count_author, votes_of_author.
  destruct author; try (intros [= <-]; exists []; split; reflexivity).
  destruct (get (JDict d) "Institutions") as [found | e]; cbn [bind];
    [ | discriminate ].
  destruct (negb (truthy (if truthy found then found else JList []))).
  - intros [= <-]. exists []. split; reflexivity.
  - destruct (py_iter (if truthy found then found else JList [])) as [insts | e];
      cbn [bind]; [ | discriminate ].
    destruct (for_each add_country insts []) as [unique | e]; cbn [bind];
      [ | discriminate ].
    intros [= <-]. eexists. split; [ reflexivity | ].
    apply count_countries_votes.
Qed.

Lemma count_authors_votes : forall (l : list json) (st st' : tally),
  for_each (count_author pc set_order) l st = Ok st' ->
  exists votes,
    votes_of_authors pc set_order l = Ok votes /\
    continent_count st' = tally_votes votes (continent_count st).
Proof.
  induction l as [ | a r IH ]; intros st st'; cbn [for_each votes_of_authors].
  - intros [= <-]. exists []. split; reflexivity.
  - destruct (count_author pc set_order a st) as [st1 | e] eqn:Ha; cbn [bind];
      [ | discriminate ].
    intros Hr.
    destruct (count_author_votes a st st1 Ha) as (v1 & -> & H1).
    destruct (IH st1 st' Hr) as (v2 & -> & H2).
    cbn [bind]. exists (v1 ++ v2). split; [ reflexivity | ].
    rewrite H2, H1. symmetry. apply tally_votes_app.
Qed.

Lemma predominant_is_tied :
  forall (authors : json) (pred : list string) (n u : nat),
    get_predominant_continent pc set_order authors = Ok (pred, n, u) ->
    exists votes,
      votes_cast pc set_order authors = Ok votes /\ pred = tied votes.
Proof.
  intros authors pred n u. unfold get_predominant_continent, votes_cast.
  destruct (negb (truthy authors)).
  - intros [= <- _ _]. exists []. split; reflexivity.
  - unfold count_authors.
    destruct (py_iter authors) as [l | e]; cbn [bind]; [ | discriminate ].
    destruct (for_each (count_author pc set_order) l empty_tally)
      as [st | e] eqn:Hl; cbn [bind]; [ | discriminate ].
    intros H.
    destruct (count_authors_votes l empty_tally st Hl) as (votes & Hv & Hc).
    exists votes. split; [ exact Hv | ].
    assert (Hb : continent_count st = map (bucket votes) (distinct votes)).
    { rewrite Hc. apply (tally_votes_buckets votes []). }
    assert (Hp : pred =
                 map fst (filter (fun kv : string * nat =>
                                    (snd kv =? max_count (continent_count st))%nat)
                                 (continent_count st))).
    { destruct (continent_count st); injection H as <- _ _; reflexivity. }
    rewrite Hp, Hb, max_count_buckets. apply filter_buckets.
Qed.

(** *** Well-formed author lists are handled without an exception *)

Lemma add_countries_ok : forall (insts acc : list json),
  forallb hashable_country insts = true ->
  exists unique, for_each add_country insts acc = Ok unique.
Proof.
  induction insts as [ | inst r IH ]; intros acc H; cbn [for_each].
  - eexists. reflexivity.
  - cbn [forallb] in H. apply andb_true_iff in H. destruct H as [Hi Hr].
    assert (Hstep : exists acc', add_country inst acc = Ok acc').
    { unfold add_country. unfold hashable_country in Hi.
      destruct inst; try (eexists; reflexivity).
      destruct (lookup "Country" d) as [country | ]; [ | eexists; reflexivity ].
      rewrite Hi. eexists. reflexivity. }
    destruct Hstep as [acc' ->]. cbn [bind]. apply IH. exact Hr.
Qed.

Lemma count_author_ok : forall (author : json) (st : tally),
  well_formed_author author = true ->
  exists st', count_author pc set_order author st = Ok st'.
Proof.
  intros author st H. unfold count_author.
  destruct author; try (eexists; reflexivity).
  unfold well_formed_author in H. unfold get.
  destruct (lookup "Institutions" d) as [found | ]; cbn [bind truthy negb];
    [ | eexists; reflexivity ].
  destruct found; try discriminate H; cbn [truthy negb];
    [ eexists; reflexivity | ].
  destruct l as [ | inst r ]; cbn [negb truthy py_iter bind];
    [ eexists; reflexivity | ].
  destruct (add_countries_ok (inst :: r) [] H) as [unique ->]. cbn [bind].
  eexists. reflexivity.
Qed.

Lemma count_authors_ok : forall (l : list json) (st : tally),
  forallb well_formed_author l = true ->
  exists st', for_each (count_author pc set_order) l st = Ok st'.
Proof.
  induction l as [ | a r IH ]; intros st H; cbn [for_each].
  - eexists. reflexivity.
  - cbn [forallb] in H. apply andb_true_iff in H. destruct H as [Ha Hr].
    destruct (count_author_ok a st Ha) as [st1 ->]. cbn [bind].
    apply IH. exact Hr.
Qed.

Lemma get_predominant_continent_ok : forall l : list json,
  forallb well_formed_author l = true ->
  exists pred n u,
    get_predominant_continent pc set_order (JList l) = Ok (pred, n, u).
Proof.
  intros l H. unfold get_predominant_continent.
  destruct (negb (truthy (JList l))); [ do 3 eexists; reflexivity | ].
  unfold count_authors. cbn [py_iter bind].
  destruct (count_authors_ok l empty_tally H) as [st ->]. cbn [bind].
  destruct (continent_count st); do 3 eexists; reflexivity.
Qed.

(** C3. For a list of well-formed author records [get_predominant_continent]
    returns, and whenever it returns, its first component is [tied votes] for
    the sequence [votes] of the votes cast: every continent bucket whose
    count is the maximum and no other, each once, in the order in which the
    buckets received their first vote. *)
Theorem predominant_continents_are_the_tied_maxima :
  (forall l : list json,
      forallb well_formed_author l = true ->
      exists pred n u,
        get_predominant_continent pc set_order (JList l) = Ok (pred, n, u)) /\
  (forall (authors : json) (pred : list string) (n u : nat),
      get_predominant_continent pc set_order authors = Ok (pred, n, u) ->
      exists votes,
        votes_cast pc set_order authors = Ok votes /\
        pred = filter (fun c => (votes_for votes c =? most_votes votes)%nat)
                      (distinct votes) /\
        NoDup pred /\
        (forall c, In c pred <->
                   In c votes /\
                   forall c', votes_for votes c' <= votes_for votes c)).
Proof.
  split.
  - apply get_predominant_continent_ok.
  - intros authors pred n u H.
    destruct (predominant_is_tied authors pred n u H) as (votes & Hv & ->).
    exists votes. split; [ exact Hv | ]. split; [ reflexivity | ].
    split; [ apply tied_NoDup | apply tied_in ].
Qed.

End Predominance.

Lemma predominant_continents_are_the_tied_maxima_witness :
  exists votes,
    votes_cast Sample.pc Sample.insertion_order (JList Sample.tied_authors)
    = Ok votes /\
    ["NA"; "AS"] = filter (fun c => (votes_for votes c =? most_votes votes)%nat)
                          (distinct votes) /\
    NoDup ["NA"; "AS"] /\
    (forall c, In c ["NA"; "AS"] <->
               In c votes /\ forall c', votes_for votes c' <= votes_for votes c).
Proof.
  apply (proj2 (predominant_continents_are_the_tied_maxima
                  Sample.pc Sample.insertion_order)
               (JList Sample.tied_authors) ["NA"; "AS"] 0 0).
  reflexivity.
Defined.

(** ** Members of a set of country tokens *)

Lemma py_eqb_key : forall a b : json,
  hashable a = true -> hashable b = true ->
  (py_eqb a b = true <-> key_of a = key_of b).
Proof.
  intros a b Ha Hb.
  destruct a; try discriminate Ha; destruct b; try discriminate Hb;
    cbn [py_eqb key_of];
    try (split; intros H; discriminate H);
    try (split; reflexivity).
  - destruct b, b0; cbn; split; intros H; congruence.
  - rewrite Z.eqb_eq. split; intros H; congruence.
  - rewrite Z.eqb_eq. split; intros H; congruence.
  - rewrite Z.eqb_eq. split; intros H; congruence.
  - rewrite String.eqb_eq. split; intros H; congruence.
Qed.

Lemma py_eqb_refl : forall a : json, hashable a = true -> py_eqb a a = true.
Proof. intros a Ha. apply (py_eqb_key a a Ha Ha). reflexivity. Qed.

Lemma py_eqb_trans_sym : forall a b c : json,
  hashable a = true -> hashable b = true -> hashable c = true ->
  py_eqb a b = true -> py_eqb a c = true -> py_eqb b c = true.
Proof.
  intros a b c Ha Hb Hc Hab Hac.
  apply (py_eqb_key a b Ha Hb) in Hab. apply (py_eqb_key a c Ha Hc) in Hac.
  apply (py_eqb_key b c Hb Hc). congruence.
Qed.

Lemma members_equal_to_perm : forall (c : json) (l l' : list json),
  Permutation l l' -> members_equal_to c l = members_equal_to c l'.
Proof.
  intros c l l' H. unfold members_equal_to.
  induction H as [ | x l l' _ IH | x y l | l l' l'' _ IH1 _ IH2 ];
    cbn [filter].
  - reflexivity.
  - destruct (py_eqb c x); cbn [List.length]; congruence.
  - destruct (py_eqb c x), (py_eqb c y); reflexivity.
  - congruence.
Qed.

Lemma members_equal_to_pos : forall (c : json) (l : list json),
  existsb (py_eqb c) l = true -> 1 <= members_equal_to c l.
Proof.
  intros c l. unfold members_equal_to.
  induction l as [ | x r IH ]; cbn [existsb filter]; [ discriminate | ].
  destruct (py_eqb c x); cbn [orb List.length]; [ lia | exact IH ].
Qed.

Lemma members_equal_to_none : forall (c : json) (l : list json),
  existsb (py_eqb c) l = false -> members_equal_to c l = 0.
Proof.
  intros c l. unfold members_equal_to.
  induction l as [ | x r IH ]; cbn [existsb filter]; [ reflexivity | ].
  destruct (py_eqb c x); cbn [orb]; [ discriminate | exact IH ].
Qed.

Lemma existsb_equal : forall (x y : json) (s : list json),
  hashable x = true -> hashable y = true ->
  Forall (fun z => hashable z = true) s ->
  py_eqb x y = true -> existsb (py_eqb y) s = existsb (py_eqb x) s.
Proof.
  intros x y s Hx Hy Hs Hxy. induction Hs as [ | z r Hz _ IH ]; [ reflexivity | ].
  cbn [existsb]. rewrite IH. f_equal.
  destruct (py_eqb y z) eqn:Eyz, (py_eqb x z) eqn:Exz; try reflexivity.
  - rewrite <- Exz. symmetry. apply (py_eqb_key x z Hx Hz).
    apply (py_eqb_key x y Hx Hy) in Hxy. apply (py_eqb_key y z Hy Hz) in Eyz.
    congruence.
  - rewrite <- Eyz. apply (py_eqb_trans_sym x y z Hx Hy Hz Hxy Exz).
Qed.

Lemma set_add_is_set : forall (y : json) (s : list json),
  hashable y = true -> is_set s -> is_set (set_add y s).
Proof.
  intros y s Hy [Hs Hone]. unfold set_add.
  destruct (existsb (py_eqb y) s) eqn:E; [ split; assumption | ].
  split.
  - apply Forall_app. split; [ exact Hs | constructor; [ exact Hy | constructor ] ].
  - intros x Hx. unfold members_equal_to. rewrite filter_app, length_app.
    fold (members_equal_to x s). cbn [filter].
    destruct (py_eqb x y) eqn:Exy; cbn [List.length].
    + rewrite (existsb_equal x y s Hx Hy Hs Exy) in E.
      rewrite (members_equal_to_none x s E). lia.
    + specialize (Hone x Hx). lia.
Qed.

Lemma set_add_member : forall (y : json) (s : list json),
  hashable y = true -> existsb (py_eqb y) (set_add y s) = true.
Proof.
  intros y s Hy. unfold set_add.
  destruct (existsb (py_eqb y) s) eqn:E; [ exact E | ].
  rewrite existsb_app. cbn [existsb]. rewrite (py_eqb_refl y Hy).
  rewrite orb_true_r. reflexivity.
Qed.

Lemma set_add_keeps : forall (x y : json) (s : list json),
  existsb (py_eqb x) s = true -> existsb (py_eqb x) (set_add y s) = true.
Proof.
  intros x y s H. unfold set_add.
  destruct (existsb (py_eqb y) s); [ exact H | ].
  rewrite existsb_app, H. reflexivity.
Qed.

Lemma set_add_in : forall (t y : json) (s : list json),
  In t (set_add y s) -> In t s \/ t = y.
Proof.
  intros t y s. unfold set_add.
  destruct (existsb (py_eqb y) s); [ auto | ].
  rewrite in_app_iff. cbn [In]. intros [H | [H | []]]; auto.
Qed.

Lemma add_country_spec : forall (inst : json) (acc acc' : list json),
  add_country inst acc = Ok acc' ->
  is_set acc ->
  is_set acc' /\
  (forall x, existsb (py_eqb x) acc = true -> existsb (py_eqb x) acc' = true) /\
  (forall c, carries [inst] c -> existsb (py_eqb c) acc' = true) /\
  (forall t, In t acc' -> In t acc \/ carries [inst] t).
Proof.
  intros inst acc acc' Hstep Hacc. unfold add_country in Hstep.
  assert (Hskip : (forall d, inst = JDict d -> lookup "Country" d = None) ->
                  acc' = acc ->
                  is_set acc' /\
                  (forall x, existsb (py_eqb x) acc = true ->
                             existsb (py_eqb x) acc' = true) /\
                  (forall c, carries [inst] c -> existsb (py_eqb c) acc' = true) /\
                  (forall t, In t acc' -> In t acc \/ carries [inst] t)).
  { intros Hno ->. split; [ exact Hacc | ]. split; [ auto | ]. split; [ | auto ].
    intros c (d & [E | []] & Hc). rewrite (Hno d E) in Hc. discriminate Hc. }
  destruct inst;
    try (injection Hstep as <-; apply Hskip; [ intros d E; discriminate E | reflexivity ]).
  destruct (lookup "Country" d) as [country | ] eqn:Hl.
  - clear Hskip.
    destruct (hashable country) eqn:Hh; [ | discriminate Hstep ].
    injection Hstep as <-.
    split; [ apply set_add_is_set; [ exact Hh | exact Hacc ] | ].
    split; [ intros x Hx; apply set_add_keeps; exact Hx | ].
    split.
    + intros c (d' & [E | []] & Hc). injection E as <-.
      rewrite Hl in Hc. injection Hc as <-. apply set_add_member. exact Hh.
    + intros t Ht. apply set_add_in in Ht. destruct Ht as [Ht | ->]; auto.
      right. exists d. split; [ left; reflexivity | exact Hl ].
  - injection Hstep as <-. apply Hskip; [ | reflexivity ].
    intros d' E. injection E as <-. exact Hl.
Qed.

Lemma add_countries_spec : forall (insts acc unique : list json),
  for_each add_country insts acc = Ok unique ->
  is_set acc ->
  is_set unique /\
  (forall x, existsb (py_eqb x) acc = true -> existsb (py_eqb x) unique = true) /\
  (forall c, carries insts c -> existsb (py_eqb c) unique = true) /\
  (forall t, In t unique -> In t acc \/ carries insts t).
Proof.
  induction insts as [ | inst r IH ]; intros acc unique; cbn [for_each].
  - intros [= <-] Hacc. split; [ exact Hacc | ]. split; [ auto | ].
    split; [ | auto ]. intros c (d & [] & _).
  - destruct (add_country inst acc) as [acc' | e] eqn:Hstep; cbn [bind];
      [ | discriminate ].
    intros Hr Hacc.
    destruct (add_country_spec inst acc acc' Hstep Hacc)
      as (Hset & Hkeep & Hnew & Horigin).
    destruct (IH acc' unique Hr Hset) as (Hset' & Hkeep' & Hnew' & Horigin').
    split; [ exact Hset' | ]. split; [ | split ].
    + intros x Hx. apply Hkeep', Hkeep, Hx.
    + intros c (d & [E | Hin] & Hc).
      * apply Hkeep', Hnew. exists d. split; [ left; exact E | exact Hc ].
      * apply Hnew'. exists d. split; assumption.
    + intros t Ht. destruct (Horigin' t Ht) as [Hin | (d & Hd & Hc)].
      * destruct (Horigin t Hin) as [Hin' | (d & [E | []] & Hc)]; auto.
        right. exists d. split; [ left; exact E | exact Hc ].
      * right. exists d. split; [ right; exact Hd | exact Hc ].
Qed.

Lemma add_countries_same : forall (insts : list json) (c : json),
  hashable c = true ->
  (forall inst, In inst insts ->
                exists d, inst = JDict d /\ lookup "Country" d = Some c) ->
  for_each add_country insts [c] = Ok [c].
Proof.
  induction insts as [ | inst r IH ]; intros c Hc Hall; cbn [for_each];
    [ reflexivity | ].
  destruct (Hall inst (or_introl eq_refl)) as (d & -> & Hd).
  unfold add_country at 1. rewrite Hd, Hc.
  unfold set_add. cbn [existsb]. rewrite (py_eqb_refl c Hc). cbn [orb bind].
  apply IH; [ exact Hc | ].
  intros inst Hin. apply Hall. right. exact Hin.
Qed.

Lemma strip_empty_length : forall s : string,
  String.length (strip s) = 2 -> s <> "".
Proof. intros s H ->. discriminate H. Qed.

(** ** One vote per country and author *)

Section Votes.

Variable pc : pycountry.
Variable set_order : list json -> list json.

(** Whatever the order, iterating over a set visits each member once. *)
Hypothesis set_order_perm : forall l : list json, Permutation (set_order l) l.

Lemma set_order_singleton : forall x : json, set_order [x] = [x].
Proof.
  intros x. apply Permutation_length_1_inv. symmetry. apply set_order_perm.
Qed.

Lemma count_author_with_institutions :
  forall (d : list (string * json)) (insts unique : list json) (st : tally),
    lookup "Institutions" d = Some (JList insts) -> insts <> [] ->
    for_each add_country insts [] = Ok unique ->
    count_author pc set_order (JDict d) st =
    Ok (fold_left (count_country pc) (set_order unique) st).
Proof.
  intros d insts unique st Hd Hne Hu. unfold count_author, get.
  rewrite Hd. cbn [bind].
  destruct insts as [ | inst r ]; [ contradiction | ].
  cbn [truthy negb py_iter bind]. rewrite Hu. reflexivity.
Qed.

(** C7. An author record with institutions votes once for each distinct
    country token among them: the loop over [unique_countries] meets exactly
    one member equal to a token however many institutions carry it, and
    nothing but such tokens. When all the institutions carry the same token,
    the author's whole contribution is the one vote [count_country] adds for
    it. *)
Theorem one_vote_per_country_per_author :
  forall (d : list (string * json)) (insts : list json) (st : tally),
    lookup "Institutions" d = Some (JList insts) -> insts <> [] ->
    forallb hashable_country insts = true ->
    exists unique,
      for_each add_country insts [] = Ok unique /\
      count_author pc set_order (JDict d) st =
      Ok (fold_left (count_country pc) (set_order unique) st) /\
      (forall c, carries insts c ->
                 members_equal_to c (set_order unique) = 1) /\
      (forall t, In t (set_order unique) -> carries insts t) /\
      (forall c,
          (forall inst, In inst insts ->
                        exists di, inst = JDict di /\
                                   lookup "Country" di = Some c) ->
          count_author pc set_order (JDict d) st = Ok (count_country pc st c)).
Proof.
  intros d insts st Hd Hne Hhash.
  destruct (add_countries_ok insts [] Hhash) as [unique Hu].
  assert (Hnil : is_set []).
  { split; [ constructor | intros x _; apply Nat.le_0_l ]. }
  destruct (add_countries_spec insts [] unique Hu Hnil)
    as ((Hall & Hone) & _ & Hnew & Horigin).
  assert (Hcarried : forall c, carries insts c -> hashable c = true).
  { intros c (di & Hin & Hc). rewrite forallb_forall in Hhash.
    specialize (Hhash (JDict di) Hin). unfold hashable_country in Hhash.
    rewrite Hc in Hhash. exact Hhash. }
  exists unique. split; [ exact Hu | ]. split; [ | split; [ | split ] ].
  - apply (count_author_with_institutions d insts unique st Hd Hne Hu).
  - intros c Hc.
    rewrite (members_equal_to_perm c _ _ (set_order_perm unique)).
    apply Nat.le_antisymm.
    + apply Hone. apply Hcarried. exact Hc.
    + apply members_equal_to_pos. apply Hnew. exact Hc.
  - intros t Ht.
    apply (Permutation_in t (set_order_perm unique)) in Ht.
    destruct (Horigin t Ht) as [[] | H]. exact H.
  - intros c Hsame.
    destruct insts as [ | inst r ]; [ contradiction | ].
    destruct (Hsame inst (or_introl eq_refl)) as (di & -> & Hdi).
    assert (Hc : hashable c = true).
    { apply Hcarried. exists di. split; [ left; reflexivity | exact Hdi ]. }
    assert (Hu' : for_each add_country (JDict di :: r) [] = Ok [c]).
    { cbn [for_each]. unfold add_country at 1. rewrite Hdi, Hc.
      cbn [set_add existsb bind app]. apply add_countries_same; [ exact Hc | ].
      intros inst Hin. apply Hsame. right. exact Hin. }
    rewrite (count_author_with_institutions d (JDict di :: r) [c] st Hd Hne Hu').
    rewrite set_order_singleton. reflexivity.
Qed.

(** C10. A country token of two characters goes to the table of
    [pycountry_convert] as it stands, with no alias, no upper-casing and no
    lookup by name: the vote of an author whose one institution has the
    token [s] is the continent the table gives for [s], and a vote for
    "Unknown", counted in [unknown_country], when the table has no entry for
    [s]. So it is for "UK" and "us" when the table has no such keys, while
    [country_to_continent] looks up "GB" and "US" for them. *)
Theorem predominant_continent_skips_the_resolver :
  forall (author_d inst_d : list (string * json)) (s : string),
    lookup "Institutions" author_d = Some (JList [JDict inst_d]) ->
    lookup "Country" inst_d = Some (JStr s) ->
    String.length (strip s) = 2 ->
    get_predominant_continent pc set_order (JList [JDict author_d]) =
    match country_alpha2_to_continent_code pc s with
    | Ok continent => Ok ([continent], 0, 0)
    | Raise _ => Ok (["Unknown"], 0, 1)
    end /\
    ((s = "UK" \/ s = "us") ->
     (exists e, country_alpha2_to_continent_code pc s = Raise e) ->
     get_predominant_continent pc set_order (JList [JDict author_d]) =
     Ok (["Unknown"], 0, 1)) /\
    country_to_continent pc (JStr "UK") = alpha2_to_continent pc (Some "GB") /\
    country_to_continent pc (JStr "us") = alpha2_to_continent pc (Some "US").
Proof.
  intros author_d inst_d s Ha Hi Hlen.
  assert (Hmain :
            get_predominant_continent pc set_order (JList [JDict author_d]) =
            match country_alpha2_to_continent_code pc s with
            | Ok continent => Ok ([continent], 0, 0)
            | Raise _ => Ok (["Unknown"], 0, 1)
            end).
  { unfold get_predominant_continent, count_authors.
    cbn [truthy negb py_iter bind for_each].
    assert (Hu : for_each add_country [JDict inst_d] [] = Ok [JStr s]).
    { cbn [for_each]. unfold add_country. rewrite Hi. reflexivity. }
    rewrite (count_author_with_institutions author_d [JDict inst_d] [JStr s]
               empty_tally Ha ltac:(discriminate) Hu).
    rewrite set_order_singleton. cbn [bind fold_left].
    unfold count_country, country_vote.
    assert (Ht : truthy (JStr s) = true).
    { apply truthy_str. apply strip_empty_length. exact Hlen. }
    rewrite Ht, Hlen. cbn [Nat.eqb negb orb].
    destruct (country_alpha2_to_continent_code pc s) as [continent | e].
    - unfold increment, empty_tally, max_count.
      cbn [continent_count no_inst_data unknown_country lookup dict_set
           map snd fst fold_right filter Nat.add Nat.max].
      rewrite Nat.eqb_refl. reflexivity.
    - reflexivity. }
  split; [ exact Hmain | ]. split; [ | split; reflexivity ].
  intros _ [e He]. rewrite Hmain, He. reflexivity.
Qed.

End Votes.

Lemma insertion_order_perm : forall l : list json,
  Permutation (Sample.insertion_order l) l.
Proof. intros l. apply Permutation_refl. Qed.

(** An author with two institutions in the United States casts one vote. *)
Lemma one_vote_per_country_per_author_witness :
  count_author Sample.pc Sample.insertion_order
    (Sample.author [ Sample.institution "MIT" "US";
                     Sample.institution "Harvard University" "US" ])
    empty_tally
  = Ok (count_country Sample.pc empty_tally (JStr "US")) /\
  continent_count (count_country Sample.pc empty_tally (JStr "US")) = [("NA", 1)].
Proof.
  split; [ | reflexivity ].
  destruct (one_vote_per_country_per_author
              Sample.pc Sample.insertion_order insertion_order_perm
              [("Institutions",
                JList [ Sample.institution "MIT" "US";
                        Sample.institution "Harvard University" "US" ])]
              [ Sample.institution "MIT" "US";
                Sample.institution "Harvard University" "US" ]
              empty_tally eq_refl ltac:(discriminate) eq_refl)
    as (unique & _ & _ & _ & _ & Hsame).
  apply Hsame. intros inst [<- | [<- | []]]; eexists; split; reflexivity.
Defined.

(** The sample table has no key "UK": the vote goes to "Unknown", while the
    resolver answers "EU". *)
Lemma predominant_continent_skips_the_resolver_witness :
  get_predominant_continent Sample.pc Sample.insertion_order
    (JList [Sample.author [Sample.institution "University of Cambridge" "UK"]])
  = Ok (["Unknown"], 0, 1) /\
  country_to_continent Sample.pc (JStr "UK") = Ok (Some "EU").
Proof.
  split; [ | reflexivity ].
  destruct (predominant_continent_skips_the_resolver
              Sample.pc Sample.insertion_order insertion_order_perm
              [("Institutions",
                JList [Sample.institution "University of Cambridge" "UK"])]
              [("Institution Name", JStr "University of Cambridge");
               ("Country", JStr "UK")]
              "UK" eq_refl eq_refl eq_refl)
    as (_ & H & _).
  apply H; [ left; reflexivity | exists KeyError; reflexivity ].
Defined.

(** ** Classification of a paper *)

Lemma scan_flags : forall (institutions : list (option string)) (flag : bool),
  scan institutions flag =
  (flag && forallb is_none institutions, existsb names_company institutions).
Proof.
  induction institutions as [ | inst r IH ]; intros flag; cbn [scan forallb existsb].
  - rewrite andb_true_r. reflexivity.
  - destruct inst as [name | ]; cbn [is_none names_company].
    + destruct (company_pattern_search name); cbn [orb andb].
      * rewrite andb_false_r. reflexivity.
      * rewrite IH, andb_false_r. reflexivity.
    + rewrite IH. reflexivity.
Qed.

Lemma classify_paper_flags : forall institutions : list (option string),
  classify_paper institutions =
  if forallb is_none institutions then all_none
  else if existsb names_company institutions then has_big_company
  else no_big_company.
Proof.
  intros institutions. unfold classify_paper.
  destruct institutions as [ | inst r ]; [ reflexivity | ].
  rewrite scan_flags. reflexivity.
Qed.

Lemma all_none_iff : forall institutions : list (option string),
  forallb is_none institutions = true <->
  (forall inst, In inst institutions -> inst = None).
Proof.
  intros institutions. rewrite forallb_forall.
  split; intros H inst Hin; specialize (H inst Hin).
  - destruct inst; [ discriminate H | reflexivity ].
  - rewrite H. reflexivity.
Qed.

(** C4, as the code has it. [classify_paper] answers [all_none] exactly when
    every entry of the list is [None]: so for the empty list and for a list
    of nulls. Only [None] is skipped; an empty string is a name like any
    other, and a list holding one is classified [no_big_company]. *)
Theorem classify_paper_all_none_iff_all_null :
  (forall institutions : list (option string),
      classify_paper institutions = all_none <->
      (forall inst, In inst institutions -> inst = None)) /\
  classify_paper [] = all_none /\
  classify_paper [None; None] = all_none /\
  classify_paper [Some ""] = no_big_company /\
  classify_paper [None; Some ""] = no_big_company.
Proof.
  split; [ | repeat split; reflexivity ].
  intros institutions. rewrite <- all_none_iff, classify_paper_flags.
  destruct (forallb is_none institutions).
  - split; reflexivity.
  - destruct (existsb names_company institutions); split; intros H; discriminate H.
Qed.

(** C4 as stated fails at a list of empty strings: it holds no name that is
    both non-null and non-empty, and is not classified [all_none]. *)
Lemma classify_paper_empty_name_counterexample :
  (forall name, In (Some name) [Some ""; None] -> name = "") /\
  classify_paper [Some ""; None] = no_big_company /\
  classify_paper [Some ""; None] <> all_none.
Proof.
  split; [ | split; [ reflexivity | intros H; discriminate H ] ].
  intros name [H | [H | []]]; [ injection H as <-; reflexivity | discriminate H ].
Qed.

(** ** The pattern matches whole words *)















(** ** The rows of the classification table *)

Lemma dict_set_in_same : forall (V : Type) (k : string) (v : V) (d : list (string * V)),
  ~ In k (map fst d) -> In (k, v) (dict_set k v d).
Proof.
  intros V k v d. induction d as [ | [k' v'] r IH ]; intros H; cbn [dict_set].
  - left. reflexivity.
  - cbn [map fst In] in H.
    destruct (String.eqb_spec k' k) as [-> | _].
    + exfalso. apply H. left. reflexivity.
    + right. apply IH. intros Hin. apply H. right. exact Hin.
Qed.

Lemma dict_set_in_other : forall (V : Type) (k k' : string) (v v' : V)
                                 (d : list (string * V)),
  k' <> k -> In (k, v) d -> In (k, v) (dict_set k' v' d).
Proof.
  intros V k k' v v' d Hne. induction d as [ | [k0 v0] r IH ]; intros H;
    cbn [dict_set]; [ destruct H | ].
  destruct H as [[= -> ->] | H].
  - destruct (String.eqb_spec k k') as [-> | _]; [ contradiction | ].
    left. reflexivity.
  - destruct (String.eqb_spec k0 k'); right; [ exact H | apply IH; exact H ].
Qed.

Lemma dict_set_keys : forall (V : Type) (k k' : string) (v' : V)
                             (d : list (string * V)),
  In k (map fst (dict_set k' v' d)) -> k = k' \/ In k (map fst d).
Proof.
  intros V k k' v' d. induction d as [ | [k0 v0] r IH ]; cbn [dict_set map fst In].
  - intros [<- | []]. left. reflexivity.
  - destruct (String.eqb_spec k0 k') as [-> | _]; cbn [map fst In].
    + intros [<- | H]; auto.
    + intros [<- | H]; auto. destruct (IH H); auto.
Qed.

Lemma analyze_items_keep : forall (items : list (string * json))
                                  (acc stats : list (string * BigTechStats))
                                  (k : string) (st : BigTechStats),
  for_each analyze_item items acc = Ok stats ->
  In (k, st) acc -> ~ In k (map fst items) -> In (k, st) stats.
Proof.
  induction items as [ | [k' v'] r IH ]; intros acc stats k st; cbn [for_each].
  - intros [= <-] H _. exact H.
  - unfold analyze_item at 1. cbn [fst snd].
    destruct (_analyze_year v') as [st' | e]; cbn [bind]; [ | discriminate ].
    intros Hr Hin Hk. cbn [map fst In] in Hk.
    apply (IH _ _ _ _ Hr).
    + apply dict_set_in_other; [ | exact Hin ].
      intros ->. apply Hk. left. reflexivity.
    + intros H. apply Hk. right. exact H.
Qed.

Lemma analyze_items_keys : forall (items : list (string * json))
                                  (acc stats : list (string * BigTechStats))
                                  (k : string),
  for_each analyze_item items acc = Ok stats ->
  In k (map fst stats) -> In k (map fst acc) \/ In k (map fst items).
Proof.
  induction items as [ | [k' v'] r IH ]; intros acc stats k; cbn [for_each].
  - intros [= <-] H. left. exact H.
  - unfold analyze_item at 1. cbn [fst snd].
    destruct (_analyze_year v') as [st' | e]; cbn [bind]; [ | discriminate ].
    intros Hr Hin. cbn [map fst In].
    destruct (IH _ _ _ Hr Hin) as [H | H]; [ | auto ].
    apply dict_set_keys in H. destruct H as [-> | H]; auto.
Qed.

Lemma analyze_items_in : forall (items : list (string * json))
                                (acc stats : list (string * BigTechStats))
                                (k : string) (v : json),
  for_each analyze_item items acc = Ok stats ->
  NoDup (map fst items) ->
  (forall k', In k' (map fst items) -> ~ In k' (map fst acc)) ->
  In (k, v) items ->
  exists st, _analyze_year v = Ok st /\ In (k, st) stats.
Proof.
  induction items as [ | [k' v'] r IH ]; intros acc stats k v; cbn [for_each];
    [ intros _ _ _ [] | ].
  unfold analyze_item at 1. cbn [fst snd].
  destruct (_analyze_year v') as [st' | e] eqn:Hy; cbn [bind]; [ | discriminate ].
  intros Hr Hnd Hfresh Hin. cbn [map fst] in Hnd, Hfresh.
  inversion Hnd as [ | ? ? Hk' Hnd' ]; subst.
  destruct Hin as [[= -> ->] | Hin].
  - exists st'. split; [ exact Hy | ].
    apply (analyze_items_keep _ _ _ _ _ Hr); [ | exact Hk' ].
    apply dict_set_in_same. apply Hfresh. left. reflexivity.
  - apply (IH _ _ _ _ Hr Hnd'); [ | exact Hin ].
    intros k0 Hk0 H. apply dict_set_keys in H. destruct H as [-> | H].
    + contradiction.
    + apply (Hfresh k0); [ right; exact Hk0 | exact H ].
Qed.

Lemma analyze_next_grows : forall (fs : processed_data) (results : list row)
                                  (conference : string) (r : row),
  In r results -> In r (analyze_next fs results conference).
Proof.
  intros fs results conference r H. unfold analyze_next.
  destruct (lower conference =? "socc"); [ exact H | ].
  destruct (bind _ _); [ apply in_or_app; left; exact H | exact H ].
Qed.

Lemma analyze_all_grows : forall (fs : processed_data) (cs : list string)
                                 (results : list row) (r : row),
  In r results -> In r (fold_left (analyze_next fs) cs results).
Proof.
  intros fs cs. induction cs as [ | c rest IH ]; intros results r H; cbn [fold_left].
  - exact H.
  - apply IH. apply analyze_next_grows. exact H.
Qed.

Lemma analyze_all_has_rows : forall (fs : processed_data) (cs : list string)
                                    (results : list row) (conference : string)
                                    (papers_by_year : json)
                                    (stats_by_year : list (string * BigTechStats))
                                    (item : string * BigTechStats),
  In conference cs ->
  (lower conference =? "socc") = false ->
  load_json fs conference = Ok papers_by_year ->
  analyze_conference conference papers_by_year = Ok stats_by_year ->
  In item stats_by_year ->
  In (to_row conference item) (fold_left (analyze_next fs) cs results).
Proof.
  intros fs cs. induction cs as [ | c rest IH ];
    intros results conference papers_by_year stats_by_year item Hin Hs Hl Ha Hi;
    [ destruct Hin | ].
  cbn [fold_left]. destruct Hin as [-> | Hin].
  - apply analyze_all_grows. unfold analyze_next.
    rewrite Hs, Hl. cbn [bind]. rewrite Ha.
    apply in_or_app. right. apply in_map. exact Hi.
  - apply (IH _ conference papers_by_year stats_by_year item Hin Hs Hl Ha Hi).
Qed.

Lemma analyze_empty_year :
  exists st, _analyze_year (JList []) = Ok st /\
             forall conference year,
               to_row conference (year, st) = row_of_none conference year.
Proof. eexists. split; [ reflexivity | ]. intros conference year. reflexivity. Qed.

(** C8, as the code has it. The table has a row for every year of the data
    file of an analysed conference, whether or not the year has papers: the
    row made of the statistics [_analyze_year] gives for the papers of that
    year, under the conference and the year. The row of a year whose list of
    papers is empty shows 0.0 in the three percentage columns. *)
Theorem empty_year_has_a_row_of_zeros :
  forall (fs : processed_data) (conference : string)
         (items : list (string * json)),
    dir_exists fs = true ->
    In conference (conferences fs) ->
    (lower conference =? "socc") = false ->
    load_json fs conference = Ok (JDict items) ->
    NoDup (map fst items) ->
    (exists stats_by_year,
        analyze_conference conference (JDict items) = Ok stats_by_year) ->
    exists rows,
      analyze_all_conferences fs = Ok rows /\
      forall (year : string) (papers : json),
        In (year, papers) items ->
        exists stats,
          _analyze_year papers = Ok stats /\
          In (to_row conference (year, stats)) rows /\
          Conference (to_row conference (year, stats)) = conference /\
          Year (to_row conference (year, stats)) = year /\
          (papers = JList [] ->
           to_row conference (year, stats) = row_of_none conference year).
Proof.
  intros fs conference items Hdir Hc Hs Hl Hnd [stats_by_year Ha].
  unfold analyze_all_conferences. rewrite Hdir. cbn [negb].
  eexists. split; [ reflexivity | ].
  intros year papers Hin.
  assert (Hitems : for_each analyze_item items [] = Ok stats_by_year) by exact Ha.
  destruct (analyze_items_in items [] stats_by_year year papers Hitems Hnd
              (fun _ _ H => H) Hin) as (st & Hst & Hrow).
  exists st. split; [ exact Hst | ]. split.
  - apply (analyze_all_has_rows fs (conferences fs) [] conference (JDict items)
             stats_by_year (year, st) Hc Hs Hl Ha Hrow).
  - split; [ reflexivity | ]. split; [ reflexivity | ].
    intros ->. destruct analyze_empty_year as (st0 & Hst0 & Hzero).
    rewrite Hst0 in Hst. injection Hst as <-. apply Hzero.
Qed.

Lemma empty_year_has_a_row_of_zeros_witness :
  exists rows,
    analyze_all_conferences Sample.empty_year = Ok rows /\
    In (row_of_none "nsdi" "2019") rows /\
    exists stats,
      _analyze_year (JList [Sample.eth_paper]) = Ok stats /\
      In (to_row "nsdi" ("2020", stats)) rows.
Proof.
  destruct (empty_year_has_a_row_of_zeros Sample.empty_year "nsdi"
              [("2019", JList []); ("2020", JList [Sample.eth_paper])])
    as (rows & Hrows & Hall).
  - reflexivity.
  - left. reflexivity.
  - reflexivity.
  - reflexivity.
  - repeat constructor; cbn [map fst In]; intuition discriminate.
  - eexists. vm_compute. reflexivity.
  - exists rows. split; [ exact Hrows | ]. split.
    + destruct (Hall "2019" (JList [])) as (st & _ & Hin & _ & _ & Hzero);
        [ left; reflexivity | ].
      rewrite <- (Hzero eq_refl). exact Hin.
    + destruct (Hall "2020" (JList [Sample.eth_paper]))
        as (st & Hst & Hin & _); [ right; left; reflexivity | ].
      exists st. split; [ exact Hst | exact Hin ].
Defined.

(** C8 as stated fails at a conference with a year of no paper: the table
    has a row for that year. *)
Lemma empty_year_counterexample :
  _analyze_year (JList []) =
  Ok {| total_papers := 0; has_big_tech := 0; no_big_tech := 0;
        stats_all_none := 0; pct_has_big := 0%float; pct_no_big := 0%float;
        pct_all_none := 0%float |} /\
  analyze_all_conferences Sample.empty_year =
  Ok [ row_of_none "nsdi" "2019";
       {| Conference := "nsdi"; Year := "2020"; row_pct_has_big := 0%float;
          row_pct_no_big := 100%float; row_pct_all_none := 0%float |} ].
Proof. split; vm_compute; reflexivity. Qed.

(** ** The end-to-end scenario *)

(** C1, as the code has it. For a conference whose year "2020" has exactly
    four papers, the first classified [has_big_company], the second
    [no_big_company], the third [all_none], the row of that year shows 25.0
    in two of the three percentage columns and 50.0 in the column of the
    class of the fourth paper, whatever its continents: every paper has one
    of the three classes, and the three percentages add up to 100. *)
Theorem four_paper_scenario_row :
  forall (fs : processed_data) (conference : string) (p1 p2 p3 p4 : json)
         (i1 i2 i3 i4 : list (option string)),
    dir_exists fs = true ->
    conferences fs = [conference] ->
    (lower conference =? "socc") = false ->
    load_json fs conference = Ok (JDict [("2020", JList [p1; p2; p3; p4])]) ->
    extract_institutions p1 = Ok i1 -> classify_paper i1 = has_big_company ->
    extract_institutions p2 = Ok i2 -> classify_paper i2 = no_big_company ->
    extract_institutions p3 = Ok i3 -> classify_paper i3 = all_none ->
    extract_institutions p4 = Ok i4 ->
    analyze_all_conferences fs =
    Ok [row_of_four conference "2020" (classify_paper i4)].
Proof.
  intros fs conference p1 p2 p3 p4 i1 i2 i3 i4
         Hdir Hcs Hs Hl H1 C1 H2 C2 H3 C3 H4.
  unfold analyze_all_conferences. rewrite Hdir, Hcs. cbn [negb fold_left].
  unfold analyze_next. rewrite Hs, Hl. cbn [bind].
  unfold analyze_conference. cbn [for_each].
  unfold analyze_item at 1. cbn [fst snd].
  unfold _analyze_year. cbn [py_len py_iter bind for_each List.length].
  unfold classify_next. rewrite H1, H2, H3, H4. cbn [bind app].
  rewrite C1, C2, C3.
  destruct (classify_paper i4); vm_compute; reflexivity.
Qed.

(** The scenario with a fourth paper from MIT and Tsinghua University. *)
Lemma four_paper_scenario_row_witness :
  analyze_all_conferences Sample.scenario =
  Ok [ {| Conference := "nsdi"; Year := "2020"; row_pct_has_big := 25%float;
          row_pct_no_big := 50%float; row_pct_all_none := 25%float |} ].
Proof.
  apply (four_paper_scenario_row Sample.scenario "nsdi"
           Sample.google_paper Sample.eth_paper Sample.unknown_paper
           Sample.tied_paper
           [Some "google"; Some "google"] [Some "eth zurich"] [None; None]
           [Some "mit"; Some "tsinghua university"]);
    reflexivity.
Defined.

(** C1 as stated fails at the scenario it describes: the fourth paper, tied
    between North America and Asia, has a class of its own (here
    [no_big_company]), and that class has 50.0, not 25.0. *)
Lemma four_paper_scenario_counterexample :
  (r <- extract_institutions Sample.google_paper ;; Ok (classify_paper r))
  = Ok has_big_company /\
  (r <- extract_institutions Sample.eth_paper ;; Ok (classify_paper r))
  = Ok no_big_company /\
  (r <- extract_institutions Sample.unknown_paper ;; Ok (classify_paper r))
  = Ok all_none /\
  get_predominant_continent Sample.pc Sample.insertion_order
    (JList Sample.tied_authors) = Ok (["NA"; "AS"], 0, 0) /\
  analyze_all_conferences Sample.scenario =
  Ok [ {| Conference := "nsdi"; Year := "2020"; row_pct_has_big := 25%float;
          row_pct_no_big := 50%float; row_pct_all_none := 25%float |} ] /\
  PrimFloat.eqb 50%float 25%float = false.
Proof. repeat split; vm_compute; reflexivity. Qed.

(* ================================================================== *)
(** * Properties of the rest of the code                               *)
(* ================================================================== *)

(** ** Sets of strings *)

Lemma str_set_add_in : forall (x c : string) (s : list string),
  In c (str_set_add x s) <-> c = x \/ In c s.
Proof.
  intros x c s. unfold str_set_add.
  destruct (existsb (String.eqb x) s) eqn:E.
  - split; [ auto | ]. intros [-> | H]; [ | exact H ].
    apply existsb_exists in E. destruct E as (y & Hy & Exy).
    apply String.eqb_eq in Exy. subst y. exact Hy.
  - rewrite in_app_iff. cbn [In]. split.
    + intros [H | [<- | []]]; auto.
    + intros [-> | H]; auto.
Qed.

Lemma str_set_add_NoDup : forall (x : string) (s : list string),
  NoDup s -> NoDup (str_set_add x s).
Proof.
  intros x s H. unfold str_set_add.
  destruct (existsb (String.eqb x) s) eqn:E; [ exact H | ].
  apply NoDup_app; [ exact H | repeat constructor; intros [] | ].
  intros y Hy [Exy | []]. subst y.
  assert (T : existsb (String.eqb x) s = true).
  { apply existsb_exists. exists x. split; [ exact Hy | apply String.eqb_refl ]. }
  rewrite T in E. discriminate E.
Qed.

(** ** [extract_continents_from_institutions] *)

Lemma country_to_continent_ok : forall (pc : pycountry) (v : json),
  exists continent, country_to_continent pc v = Ok continent.
Proof.
  intros pc v. unfold country_to_continent.
  destruct (country_to_alpha2_ok pc v) as [code ->]. cbn [bind].
  apply alpha2_to_continent_ok.
Qed.

Lemma country_field_ok : forall d : list (string * json),
  exists country, country_field (JDict d) = Ok country.
Proof.
  intros d. unfold country_field, get. cbn [bind].
  destruct (truthy _); [ eexists; reflexivity | ].
  destruct (truthy _); eexists; reflexivity.
Qed.

Lemma add_continent_spec :
  forall (pc : pycountry) (inst : json) (acc : list string),
    NoDup acc ->
    exists acc',
      add_continent pc inst acc = Ok acc' /\ NoDup acc' /\
      forall c, In c acc' <-> In c acc \/ (c <> "" /\ gives_continent pc [inst] c).
Proof.
  intros pc inst acc Hnd.
  assert (Hskip : (forall c, ~ (c <> "" /\ gives_continent pc [inst] c)) ->
                  exists acc', Ok acc = Ok acc' /\ NoDup acc' /\
                    forall c, In c acc' <->
                              In c acc \/ (c <> "" /\ gives_continent pc [inst] c)).
  { intros Hno. exists acc. split; [ reflexivity | ]. split; [ exact Hnd | ].
    intros c. split; [ auto | ]. intros [H | H]; [ exact H | ].
    exfalso. apply (Hno c H). }
  unfold add_continent.
  destruct inst;
    try (apply Hskip; intros c (_ & d & country & [E | []] & _); discriminate E).
  destruct (country_field_ok d) as [country Hc]. rewrite Hc. cbn [bind].
  destruct (country_to_continent_ok pc country) as [continent Hk]. rewrite Hk.
  cbn [bind].
  assert (Hgiven : forall c, gives_continent pc [JDict d] c -> continent = Some c).
  { intros c (d' & country' & [E | []] & Hc' & Hk'). injection E as <-.
    rewrite Hc in Hc'. injection Hc' as <-. rewrite Hk in Hk'.
    injection Hk' as ->. reflexivity. }
  destruct continent as [k | ]; cbn [nonempty].
  - destruct (String.eqb_spec k "") as [-> | Hne]; cbn [negb].
    + apply Hskip. intros c (Hc0 & Hg). apply Hgiven in Hg.
      injection Hg as <-. apply Hc0. reflexivity.
    + exists (str_set_add k acc). split; [ reflexivity | ].
      split; [ apply str_set_add_NoDup; exact Hnd | ].
      intros c. rewrite str_set_add_in. split.
      * intros [-> | H]; [ right | left; exact H ].
        split; [ exact Hne | ].
        exists d, country. split; [ left; reflexivity | ]. split; assumption.
      * intros [H | (_ & Hg)]; [ right; exact H | left ].
        apply Hgiven in Hg. injection Hg as <-. reflexivity.
  - apply Hskip. intros c (_ & Hg). apply Hgiven in Hg. discriminate Hg.
Qed.

Lemma gives_continent_cons :
  forall (pc : pycountry) (inst : json) (r : list json) (c : string),
    gives_continent pc (inst :: r) c <->
    gives_continent pc [inst] c \/ gives_continent pc r c.
Proof.
  intros pc inst r c. unfold gives_continent. split.
  - intros (d & country & [E | Hin] & Hc & Hk).
    + left. exists d, country. split; [ left; exact E | auto ].
    + right. exists d, country. auto.
  - intros [(d & country & [E | []] & Hc & Hk) | (d & country & Hin & Hc & Hk)];
      exists d, country.
    + split; [ left; exact E | auto ].
    + split; [ right; exact Hin | auto ].
Qed.

Lemma add_continents_spec :
  forall (pc : pycountry) (insts : list json) (acc : list string),
    NoDup acc ->
    exists continents,
      for_each (add_continent pc) insts acc = Ok continents /\
      NoDup continents /\
      forall c, In c continents <->
                In c acc \/ (c <> "" /\ gives_continent pc insts c).
Proof.
  intros pc. induction insts as [ | inst r IH ]; intros acc Hnd; cbn [for_each].
  - exists acc. split; [ reflexivity | ]. split; [ exact Hnd | ].
    intros c. split; [ auto | ].
    intros [H | (_ & d & country & [] & _)]. exact H.
  - destruct (add_continent_spec pc inst acc Hnd) as (acc' & -> & Hnd' & Hin').
    cbn [bind].
    destruct (IH acc' Hnd') as (continents & -> & Hnd'' & Hin'').
    exists continents. split; [ reflexivity | ]. split; [ exact Hnd'' | ].
    intros c. rewrite Hin'', Hin', (gives_continent_cons pc inst r c). tauto.
Qed.

(** X1. On a list of institution records
    [extract_continents_from_institutions] never raises, whatever the records
    hold and whatever [pycountry_convert] does: it returns the non-empty
    continents the records' country fields resolve to (the field read being
    the first non-empty of Country, country, CountryCode), all of them and
    nothing else, each once. *)
Theorem extract_continents_sound_and_complete :
  forall (pc : pycountry) (l : list json),
    exists continents,
      extract_continents_from_institutions pc (JList l) = Ok continents /\
      NoDup continents /\
      forall c, In c continents <-> c <> "" /\ gives_continent pc l c.
Proof.
  intros pc l. unfold extract_continents_from_institutions.
  destruct l as [ | inst r ]; cbn [truthy negb py_iter bind].
  - exists []. split; [ reflexivity | ]. split; [ constructor | ].
    intros c. split; [ intros [] | ].
    intros (_ & d & country & [] & _).
  - destruct (add_continents_spec pc (inst :: r) [] (NoDup_nil _))
      as (continents & H & Hnd & Hin).
    exists continents. split; [ exact H | ]. split; [ exact Hnd | ].
    intros c. rewrite Hin. cbn [In]. tauto.
Qed.

(** ** Dictionaries *)

Lemma lookup_dict_set_same : forall (V : Type) (k : string) (v : V)
                                    (d : list (string * V)),
  lookup k (dict_set k v d) = Some v.
Proof.
  intros V k v d. induction d as [ | [k' v'] r IH ]; cbn [dict_set lookup].
  - rewrite String.eqb_refl. reflexivity.
  - destruct (String.eqb_spec k' k) as [-> | Hne]; cbn [lookup].
    + rewrite String.eqb_refl. reflexivity.
    + apply String.eqb_neq in Hne. rewrite Hne. exact IH.
Qed.

Lemma lookup_dict_set_other : forall (V : Type) (k k' : string) (v : V)
                                     (d : list (string * V)),
  k' <> k -> lookup k' (dict_set k v d) = lookup k' d.
Proof.
  intros V k k' v d Hne. induction d as [ | [k0 v0] r IH ]; cbn [dict_set lookup].
  - destruct (String.eqb_spec k k') as [E | _]; [ | reflexivity ].
    exfalso. apply Hne. symmetry. exact E.
  - destruct (String.eqb_spec k0 k) as [-> | Hne0]; cbn [lookup].
    + destruct (String.eqb_spec k k') as [E | _]; [ | reflexivity ].
      exfalso. apply Hne. symmetry. exact E.
    + rewrite IH. reflexivity.
Qed.

Lemma dict_set_same_keys : forall (V : Type) (k : string) (v : V)
                                  (d : list (string * V)),
  In k (map fst d) -> map fst (dict_set k v d) = map fst d.
Proof.
  intros V k v d. induction d as [ | [k' v'] r IH ]; cbn [dict_set map fst In].
  - intros [].
  - intros H. destruct (String.eqb_spec k' k) as [-> | Hne]; cbn [map fst].
    + reflexivity.
    + f_equal. apply IH. destruct H as [E | H]; [ contradiction | exact H ].
Qed.

Lemma dict_set_new_key : forall (V : Type) (k : string) (v : V)
                                (d : list (string * V)),
  ~ In k (map fst d) -> dict_set k v d = d ++ [(k, v)].
Proof.
  intros V k v d. induction d as [ | [k' v'] r IH ]; cbn [dict_set map fst In app].
  - reflexivity.
  - intros H. destruct (String.eqb_spec k' k) as [-> | Hne].
    + exfalso. apply H. left. reflexivity.
    + f_equal. apply IH. intros Hin. apply H. right. exact Hin.
Qed.

(** ** What [get_predominant_continent] counts *)

Lemma list_max_attained : forall l : list nat, l <> [] -> In (list_max l) l.
Proof.
  induction l as [ | x r IH ]; intros H; [ contradiction | ].
  cbn [list_max fold_right]. fold (list_max r).
  destruct r as [ | y r' ].
  - cbn [list_max fold_right]. rewrite Nat.max_0_r. left. reflexivity.
  - destruct (Nat.max_spec x (list_max (y :: r'))) as [[_ ->] | [_ ->]].
    + right. apply IH. discriminate.
    + left. reflexivity.
Qed.

Lemma tied_empty : forall votes : list string, tied votes = [] <-> votes = [].
Proof.
  intros votes. split; [ | intros ->; reflexivity ].
  intros H. destruct votes as [ | x r ]; [ reflexivity | exfalso ].
  assert (Hmax : In (most_votes (x :: r)) (map (votes_for (x :: r)) (x :: r))).
  { apply (list_max_attained (map (votes_for (x :: r)) (x :: r))). discriminate. }
  apply in_map_iff in Hmax. destruct Hmax as (c & Hc & Hin).
  assert (Ht : In c (tied (x :: r))).
  { unfold tied. apply filter_In. split.
    - apply distinct_in. exact Hin.
    - apply Nat.eqb_eq. exact Hc. }
  rewrite H in Ht. destruct Ht.
Qed.

Lemma increment_unknown_bucket : forall (c : string) (d : list (string * nat)),
  unknown_bucket (increment c d) =
  unknown_bucket d + (if c =? "Unknown" then 1 else 0).
Proof.
  intros c d. unfold unknown_bucket, increment.
  destruct (String.eqb_spec c "Unknown") as [-> | Hne].
  - rewrite lookup_dict_set_same. reflexivity.
  - rewrite lookup_dict_set_other by (intros E; apply Hne; symmetry; exact E).
    lia.
Qed.

Lemma country_vote_unknown : forall (pc : pycountry) (t : json),
  snd (country_vote pc t) = 0 \/
  (snd (country_vote pc t) = 1 /\ fst (country_vote pc t) = "Unknown").
Proof.
  intros pc t. unfold country_vote.
  destruct t; try (right; split; reflexivity).
  destruct (_ || _); [ right; split; reflexivity | ].
  destruct (country_alpha2_to_continent_code pc s);
    [ left; reflexivity | right; split; reflexivity ].
Qed.

Section Accounting.

Variable pc : pycountry.
Variable set_order : list json -> list json.

Lemma count_country_accounts : forall (st : tally) (t : json),
  unknown_country st <= unknown_bucket (continent_count st) ->
  no_inst_data (count_country pc st t) = no_inst_data st /\
  unknown_country (count_country pc st t)
  <= unknown_bucket (continent_count (count_country pc st t)).
Proof.
  intros st t H. unfold count_country.
  destruct (country_vote_unknown pc t) as [H0 | [H1 Hu]];
    destruct (country_vote pc t) as [continent unknown];
    cbn [fst snd] in *; subst;
    cbn [continent_count no_inst_data unknown_country];
    rewrite increment_unknown_bucket; (split; [ reflexivity | ]).
  - destruct (continent =? "Unknown"); lia.
  - cbn. lia.
Qed.

Lemma count_countries_accounts : forall (tokens : list json) (st : tally),
  unknown_country st <= unknown_bucket (continent_count st) ->
  no_inst_data (fold_left (count_country pc) tokens st) = no_inst_data st /\
  unknown_country (fold_left (count_country pc) tokens st)
  <= unknown_bucket (continent_count (fold_left (count_country pc) tokens st)).
Proof.
  induction tokens as [ | t r IH ]; intros st H; cbn [fold_left];
    [ split; [ reflexivity | exact H ] | ].
  destruct (count_country_accounts st t H) as [Hn Hu].
  destruct (IH _ Hu) as [Hn' Hu']. split; [ congruence | exact Hu' ].
Qed.

Lemma count_author_accounts : forall (author : json) (st st' : tally),
  count_author pc set_order author st = Ok st' ->
  unknown_country st <= unknown_bucket (continent_count st) ->
  no_inst_data st' =
  no_inst_data st + (if without_institutions author then 1 else 0) /\
  unknown_country st' <= unknown_bucket (continent_count st').
Proof.
  intros author st st' H Hinv. unfold count_author in H.
  destruct author; try (injection H as <-; cbn [without_institutions];
                        split; [ lia | exact Hinv ]).
  unfold get in H. cbn [bind] in H. cbn [without_institutions].
  destruct (lookup "Institutions" d) as [found | ].
  - destruct (truthy found) eqn:T.
    + rewrite T in H. cbn [negb] in H.
      destruct (py_iter found) as [insts | e]; cbn [bind] in H;
        [ | discriminate H ].
      destruct (for_each add_country insts []) as [unique | e];
        cbn [bind] in H; [ | discriminate H ].
      injection H as <-. cbn [negb].
      destruct (count_countries_accounts (set_order unique) st Hinv) as [Hn Hu].
      split; [ lia | exact Hu ].
    + cbn [truthy negb] in H. injection H as <-.
      cbn [negb no_inst_data unknown_country continent_count].
      split; [ reflexivity | exact Hinv ].
  - cbn [truthy negb] in H. injection H as <-.
    cbn [negb no_inst_data unknown_country continent_count].
    split; [ reflexivity | exact Hinv ].
Qed.

Lemma count_authors_accounts : forall (l : list json) (st st' : tally),
  for_each (count_author pc set_order) l st = Ok st' ->
  unknown_country st <= unknown_bucket (continent_count st) ->
  no_inst_data st' =
  no_inst_data st + List.length (filter without_institutions l) /\
  unknown_country st' <= unknown_bucket (continent_count st').
Proof.
  induction l as [ | a r IH ]; intros st st'; cbn [for_each filter].
  - intros [= <-] H. split; [ cbn; lia | exact H ].
  - destruct (count_author pc set_order a st) as [st1 | e] eqn:Ha; cbn [bind];
      [ | discriminate ].
    intros Hr Hinv.
    destruct (count_author_accounts a st st1 Ha Hinv) as [Hn Hu].
    destruct (IH st1 st' Hr Hu) as [Hn' Hu'].
    split; [ | exact Hu' ].
    rewrite Hn', Hn. destruct (without_institutions a); cbn [List.length]; lia.
Qed.

Lemma count_authors_buckets : forall (l : list json) (st : tally),
  for_each (count_author pc set_order) l empty_tally = Ok st ->
  exists votes,
    votes_of_authors pc set_order l = Ok votes /\
    continent_count st = map (bucket votes) (distinct votes).
Proof.
  intros l st H.
  destruct (count_authors_votes pc set_order l empty_tally st H)
    as (votes & Hv & Hc).
  exists votes. split; [ exact Hv | ].
  rewrite Hc. apply (tally_votes_buckets votes []).
Qed.

Lemma unknown_bucket_votes : forall votes : list string,
  unknown_bucket (map (bucket votes) (distinct votes)) = votes_for votes "Unknown".
Proof.
  intros votes. unfold unknown_bucket, bucket. rewrite lookup_buckets.
  destruct (in_dec string_dec "Unknown" (distinct votes)) as [_ | H];
    [ reflexivity | ].
  symmetry. apply votes_for_absent. intros Hin. apply H.
  apply distinct_in. exact Hin.
Qed.

(** X2. What [get_predominant_continent] returns beside the continents, on a
    list of authors: the first count is the number of author records that are
    dicts with no institutions (missing, null or empty); the list of
    continents is empty exactly when no vote was cast; and the second count
    never exceeds the votes of the bucket "Unknown". *)
Theorem predominant_continent_accounting :
  forall (l : list json) (pred : list string) (n u : nat),
    get_predominant_continent pc set_order (JList l) = Ok (pred, n, u) ->
    n = List.length (filter without_institutions l) /\
    exists votes,
      votes_cast pc set_order (JList l) = Ok votes /\
      (pred = [] <-> votes = []) /\
      u <= votes_for votes "Unknown".
Proof.
  intros l pred n u H.
  destruct (predominant_is_tied pc set_order (JList l) pred n u H)
    as (votes & Hv & Hp).
  unfold get_predominant_continent in H. unfold votes_cast in Hv.
  destruct l as [ | a r ].
  - cbn [truthy negb] in H, Hv. injection H as <- <- <-. injection Hv as <-.
    split; [ reflexivity | ]. exists []. split; [ reflexivity | ].
    split; [ tauto | apply Nat.le_0_l ].
  - cbn [truthy negb] in H, Hv. unfold count_authors in H.
    cbn [py_iter bind] in H, Hv.
    destruct (for_each (count_author pc set_order) (a :: r) empty_tally)
      as [st | e] eqn:Hl; cbn [bind] in H; [ | discriminate H ].
    assert (Hinv : unknown_country empty_tally
                   <= unknown_bucket (continent_count empty_tally))
      by apply Nat.le_0_l.
    destruct (count_authors_accounts (a :: r) empty_tally st Hl Hinv)
      as [Hn Hu].
    destruct (count_authors_buckets (a :: r) st Hl) as (votes' & Hv' & Hc).
    rewrite Hv in Hv'. injection Hv' as <-.
    rewrite Hc, unknown_bucket_votes in Hu.
    assert (Hres : n = no_inst_data st /\ u = unknown_country st).
    { destruct (continent_count st); injection H as _ <- <-; auto. }
    destruct Hres as [-> ->].
    split; [ exact Hn | ].
    exists votes. split; [ exact Hv | ].
    split; [ rewrite Hp; apply tied_empty | exact Hu ].
Qed.

Lemma count_authors_without_institutions : forall (l : list json) (st : tally),
  forallb without_institutions l = true ->
  for_each (count_author pc set_order) l st =
  Ok {| continent_count := continent_count st;
        no_inst_data := no_inst_data st + List.length l;
        unknown_country := unknown_country st |}.
Proof.
  induction l as [ | a r IH ]; intros st H; cbn [for_each List.length].
  - rewrite Nat.add_0_r. destruct st. reflexivity.
  - cbn [forallb] in H. apply andb_true_iff in H. destruct H as [Ha Hr].
    assert (Hstep : count_author pc set_order a st =
                    Ok {| continent_count := continent_count st;
                          no_inst_data := no_inst_data st + 1;
                          unknown_country := unknown_country st |}).
    { unfold count_author. destruct a; try discriminate Ha.
      cbn [without_institutions] in Ha. unfold get. cbn [bind].
      apply negb_true_iff in Ha.
      destruct (lookup "Institutions" d) as [found | ].
      - rewrite Ha. reflexivity.
      - reflexivity. }
    rewrite Hstep. cbn [bind]. rewrite (IH _ Hr).
    cbn [continent_count no_inst_data unknown_country].
    f_equal. f_equal. lia.
Qed.

(** X3. When every author of the list is a record without institutions,
    [get_predominant_continent] returns no continent, the number of authors,
    and no unknown country. *)
Theorem predominant_continent_without_institutions :
  forall l : list json,
    forallb without_institutions l = true ->
    get_predominant_continent pc set_order (JList l) = Ok ([], List.length l, 0).
Proof.
  intros l H. unfold get_predominant_continent.
  destruct l as [ | a r ]; [ reflexivity | ].
  cbn [truthy negb]. unfold count_authors. cbn [py_iter bind].
  rewrite (count_authors_without_institutions (a :: r) empty_tally H).
  reflexivity.
Qed.

End Accounting.

(** ** Stripping and case *)

Lemma rstrip_keeps_head : forall (c : ascii) (r : string),
  is_space c = false -> rstrip (String c r) = String c (rstrip r).
Proof.
  intros c r H. cbn [rstrip]. destruct (rstrip r); [ rewrite H | ]; reflexivity.
Qed.

Lemma lstrip_head : forall s : string,
  lstrip s = EmptyString \/
  exists c r, lstrip s = String c r /\ is_space c = false.
Proof.
  induction s as [ | c r IH ]; cbn [lstrip]; [ left; reflexivity | ].
  destruct (is_space c) eqn:E; [ exact IH | ].
  right. exists c, r. split; [ reflexivity | exact E ].
Qed.

Lemma rstrip_idempotent : forall s : string, rstrip (rstrip s) = rstrip s.
Proof.
  induction s as [ | c r IH ]; [ reflexivity | ].
  cbn [rstrip]. destruct (rstrip r) as [ | a t ] eqn:E.
  - destruct (is_space c) eqn:Hc; [ reflexivity | ].
    cbn [rstrip]. rewrite Hc. reflexivity.
  - cbn [rstrip]. cbn [rstrip] in IH. rewrite IH. reflexivity.
Qed.

Lemma strip_idempotent : forall s : string, strip (strip s) = strip s.
Proof.
  intros s. unfold strip.
  destruct (lstrip_head s) as [-> | (c & r & -> & Hc)]; [ reflexivity | ].
  rewrite (rstrip_keeps_head c r Hc). cbn [lstrip]. rewrite Hc.
  rewrite (rstrip_keeps_head c (rstrip r) Hc), rstrip_idempotent. reflexivity.
Qed.

Lemma to_lower_not_upper : forall c : ascii, is_upper (to_lower c) = false.
Proof.
  intros c. unfold to_lower. destruct (is_upper c) eqn:U; [ | exact U ].
  unfold is_upper in *.
  rewrite code_ascii_of_nat by (leb_cases; simpl in U; try discriminate; lia).
  leb_cases; simpl in *; try reflexivity; try discriminate; lia.
Qed.

Lemma to_lower_idempotent : forall c : ascii, to_lower (to_lower c) = to_lower c.
Proof.
  intros c. unfold to_lower at 1. rewrite to_lower_not_upper. reflexivity.
Qed.

Lemma is_space_to_lower : forall c : ascii, is_space (to_lower c) = is_space c.
Proof.
  intros c. unfold to_lower. destruct (is_upper c) eqn:U; [ | reflexivity ].
  unfold is_upper in U. unfold is_space.
  rewrite code_ascii_of_nat by (leb_cases; simpl in U; try discriminate; lia).
  leb_cases; simpl in *; try reflexivity; try discriminate; lia.
Qed.

Lemma is_word_to_lower : forall c : ascii, is_word (to_lower c) = is_word c.
Proof.
  intros c. unfold to_lower. destruct (is_upper c) eqn:U; [ | reflexivity ].
  unfold is_upper in U.
  unfold is_word, is_alnum, is_alpha, is_upper, is_lower, is_digit.
  rewrite code_ascii_of_nat by (leb_cases; simpl in U; try discriminate; lia).
  leb_cases; simpl in *; try reflexivity; try discriminate; lia.
Qed.

Lemma lower_idempotent : forall s : string, lower (lower s) = lower s.
Proof.
  unfold lower. induction s as [ | c r IH ]; cbn [map_string]; [ reflexivity | ].
  rewrite to_lower_idempotent, IH. reflexivity.
Qed.

Lemma lstrip_lower : forall s : string, lstrip (lower s) = lower (lstrip s).
Proof.
  unfold lower. induction s as [ | c r IH ]; cbn [map_string lstrip];
    [ reflexivity | ].
  rewrite is_space_to_lower. destruct (is_space c); [ exact IH | reflexivity ].
Qed.

Lemma rstrip_lower : forall s : string, rstrip (lower s) = lower (rstrip s).
Proof.
  unfold lower. induction s as [ | c r IH ]; cbn [map_string rstrip];
    [ reflexivity | ].
  rewrite IH, is_space_to_lower.
  destruct (rstrip r); cbn [map_string]; [ | reflexivity ].
  destruct (is_space c); reflexivity.
Qed.

Lemma strip_lower : forall s : string, strip (lower s) = lower (strip s).
Proof. intros s. unfold strip. rewrite lstrip_lower, rstrip_lower. reflexivity. Qed.

Lemma strip_lower_normalized : forall s : string, normalized (strip (lower s)).
Proof.
  intros s. unfold normalized. split.
  - rewrite strip_lower, lower_idempotent. reflexivity.
  - apply strip_idempotent.
Qed.

(** ** The codes [normalize_alpha2] returns *)

Lemma fixes_lookup_values : forall (s fixed : string),
  lookup s COUNTRY_CODE_FIXES = Some fixed ->
  In fixed ["GB"; "US"; "AE"; "KR"; "KP"; "RU"; "VN"].
Proof.
  intros s fixed. unfold COUNTRY_CODE_FIXES. cbn [lookup].
  repeat match goal with
         | |- context [if ?b then _ else _] => destruct b
         end;
    intros H; inversion H; subst; simpl; auto 10.
Qed.

(** X5. Given a value that is no string, or a string of ASCII text,
    [normalize_alpha2] returns nothing or a code of two upper-case letters:
    an alias's code, or the two letters it was given, upper-cased. *)
Theorem normalize_alpha2_gives_two_upper_case_letters :
  forall (v : json) (c : string),
    (forall s, v = JStr s -> ascii_text s = true) ->
    normalize_alpha2 v = Some c ->
    String.length c = 2 /\ forall_string is_upper c = true.
Proof.
  intros v c _. unfold normalize_alpha2, country_fixes.
  destruct v; try discriminate. cbv zeta.
  destruct (lookup (strip s) COUNTRY_CODE_FIXES) as [fixed | ] eqn:L.
  - intros [= <-]. apply fixes_lookup_values in L.
    repeat (destruct L as [<- | L]; [ split; reflexivity | ]). destruct L.
  - destruct ((String.length (strip s) =? 2)%nat && isalpha (strip s)) eqn:E;
      [ | discriminate ].
    intros [= <-]. apply andb_true_iff in E. destruct E as [Hlen Hal].
    apply Nat.eqb_eq in Hlen. unfold isalpha in Hal.
    apply andb_true_iff in Hal. destruct Hal as [_ Hal].
    destruct (two_letters_inv (strip s) Hlen Hal) as (a & b & -> & Ha & Hb).
    unfold upper. cbn [map_string String.length forall_string].
    rewrite (to_upper_alpha a Ha), (to_upper_alpha b Hb). auto.
Qed.

(** ** The names [extract_institutions] returns *)

Lemma extract_institution_normalized :
  forall (inst : json) (acc acc' : list (option string)),
    extract_institution inst acc = Ok acc' ->
    Forall normalized_entry acc -> Forall normalized_entry acc'.
Proof.
  intros inst acc acc' H Hacc. unfold extract_institution in H.
  assert (Hadd : forall n, Forall normalized_entry (acc ++ [Some (strip (lower n))])).
  { intros n. apply Forall_app. split; [ exact Hacc | ].
    constructor; [ apply strip_lower_normalized | constructor ]. }
  assert (Hnone : Forall normalized_entry (acc ++ [None])).
  { apply Forall_app. split; [ exact Hacc | repeat constructor ]. }
  destruct inst; try (injection H as <-; first [ exact Hnone | apply Hadd ]).
  unfold get in H. cbn [bind] in H.
  destruct (truthy _); [ | injection H as <-; exact Hacc ].
  destruct (match lookup "Institution Name" d with
            | Some x => x
            | None => JNull
            end); try discriminate H.
  injection H as <-. apply Hadd.
Qed.

Lemma extract_institutions_of_author_normalized :
  forall (insts : list json) (acc acc' : list (option string)),
    for_each extract_institution insts acc = Ok acc' ->
    Forall normalized_entry acc -> Forall normalized_entry acc'.
Proof.
  induction insts as [ | inst r IH ]; intros acc acc'; cbn [for_each].
  - intros [= <-] H. exact H.
  - destruct (extract_institution inst acc) as [acc1 | e] eqn:E; cbn [bind];
      [ | discriminate ].
    intros Hr Hacc. apply (IH acc1 acc' Hr).
    apply (extract_institution_normalized inst acc acc1 E Hacc).
Qed.

Lemma extract_author_normalized :
  forall (author : json) (acc acc' : list (option string)),
    extract_author author acc = Ok acc' ->
    Forall normalized_entry acc -> Forall normalized_entry acc'.
Proof.
  intros author acc acc' H Hacc. unfold extract_author in H.
  destruct (get_default author "Institutions" (JList [])) as [found | e];
    cbn [bind] in H; [ | discriminate H ].
  destruct (negb (truthy found)).
  - injection H as <-. apply Forall_app. split; [ exact Hacc | repeat constructor ].
  - destruct (py_iter found) as [insts | e]; cbn [bind] in H; [ | discriminate H ].
    apply (extract_institutions_of_author_normalized insts acc acc' H Hacc).
Qed.

Lemma extract_authors_normalized :
  forall (authors : list json) (acc acc' : list (option string)),
    for_each extract_author authors acc = Ok acc' ->
    Forall normalized_entry acc -> Forall normalized_entry acc'.
Proof.
  induction authors as [ | a r IH ]; intros acc acc'; cbn [for_each].
  - intros [= <-] H. exact H.
  - destruct (extract_author a acc) as [acc1 | e] eqn:E; cbn [bind];
      [ | discriminate ].
    intros Hr Hacc. apply (IH acc1 acc' Hr).
    apply (extract_author_normalized a acc acc1 E Hacc).
Qed.

Lemma ascii_to_lower : forall c : ascii,
  (code c <? 128)%nat = true -> (code (to_lower c) <? 128)%nat = true.
Proof.
  intros c H. unfold to_lower. destruct (is_upper c) eqn:U; [ | exact H ].
  unfold is_upper in U. cbv zeta in U. apply andb_true_iff in U.
  destruct U as [_ U]. apply Nat.leb_le in U.
  rewrite code_ascii_of_nat by lia. apply Nat.ltb_lt. lia.
Qed.

Lemma ascii_lower : forall s : string,
  ascii_text s = true -> ascii_text (lower s) = true.
Proof.
  unfold ascii_text, lower.
  induction s as [ | c r IH ]; cbn [map_string forall_string]; [ reflexivity | ].
  rewrite !andb_true_iff. intros [Hc Hr].
  split; [ apply ascii_to_lower; exact Hc | apply IH; exact Hr ].
Qed.

Lemma ascii_lstrip : forall s : string,
  ascii_text s = true -> ascii_text (lstrip s) = true.
Proof.
  unfold ascii_text.
  induction s as [ | c r IH ]; cbn [lstrip forall_string]; [ reflexivity | ].
  destruct (is_space c); [ | cbn [forall_string]; auto ].
  rewrite andb_true_iff. intros [_ Hr]. apply IH. exact Hr.
Qed.

Lemma ascii_rstrip : forall s : string,
  ascii_text s = true -> ascii_text (rstrip s) = true.
Proof.
  unfold ascii_text.
  induction s as [ | c r IH ]; cbn [rstrip forall_string]; [ reflexivity | ].
  rewrite andb_true_iff. intros [Hc Hr]. specialize (IH Hr).
  destruct (rstrip r) as [ | x t ].
  - destruct (is_space c); cbn [forall_string]; [ reflexivity | ].
    rewrite Hc. reflexivity.
  - cbn [forall_string] in *. rewrite Hc. exact IH.
Qed.

Lemma ascii_strip_lower : forall s : string,
  ascii_text s = true -> ascii_text (strip (lower s)) = true.
Proof.
  intros s H. unfold strip. apply ascii_rstrip, ascii_lstrip, ascii_lower. exact H.
Qed.

Lemma ascii_lookup : forall (k : string) (d : list (string * json)) (v : json),
  ascii_json (JDict d) = true -> lookup k d = Some v -> ascii_json v = true.
Proof.
  intros k d v. cbn [ascii_json].
  induction d as [ | [k' v'] r IH ]; cbn [forallb lookup fst snd];
    [ discriminate | ].
  rewrite !andb_true_iff. intros [[_ Hv] Hr].
  destruct (k' =? k); [ intros [= <-]; exact Hv | apply IH; exact Hr ].
Qed.

Lemma ascii_py_iter : forall (v : json) (l : list json),
  ascii_json v = true -> py_iter v = Ok l -> Forall (fun x => ascii_json x = true) l.
Proof.
  intros v l Hv. destruct v as [ | | | s | items | d ]; cbn [py_iter];
    try discriminate; intros [= <-].
  - unfold chars. cbn [ascii_json] in Hv. unfold ascii_text in Hv.
    induction s as [ | c r IH ]; cbn [list_ascii_of_string map];
      [ constructor | ].
    cbn [forall_string] in Hv. apply andb_true_iff in Hv. destruct Hv as [Hc Hr].
    constructor; [ | apply IH; exact Hr ].
    cbn [ascii_json]. unfold ascii_text. cbn [forall_string].
    rewrite Hc. reflexivity.
  - cbn [ascii_json] in Hv. apply Forall_forall. intros x Hx.
    apply (proj1 (forallb_forall _ _) Hv x Hx).
  - cbn [ascii_json] in Hv. apply Forall_forall. intros x Hx.
    apply in_map_iff in Hx. destruct Hx as (kv & <- & Hkv).
    apply (proj1 (forallb_forall _ _) Hv) in Hkv.
    apply andb_true_iff in Hkv. cbn [ascii_json]. apply Hkv.
Qed.

Lemma extract_institution_ascii :
  forall (inst : json) (acc acc' : list (option string)),
    ascii_json inst = true ->
    extract_institution inst acc = Ok acc' ->
    Forall ascii_entry acc -> Forall ascii_entry acc'.
Proof.
  intros inst acc acc' Hi H Hacc. unfold extract_institution in H.
  assert (Hadd : forall n, ascii_text n = true ->
                           Forall ascii_entry (acc ++ [Some (strip (lower n))])).
  { intros n Hn. apply Forall_app. split; [ exact Hacc | ].
    constructor; [ apply ascii_strip_lower; exact Hn | constructor ]. }
  assert (Hnone : Forall ascii_entry (acc ++ [None])).
  { apply Forall_app. split; [ exact Hacc | repeat constructor ]. }
  destruct inst as [ | | | s | | d ];
    try (injection H as <-; first [ exact Hnone | apply Hadd; exact Hi ]).
  unfold get in H. cbn [bind] in H.
  destruct (lookup "Institution Name" d) as [found | ] eqn:L;
    [ | cbn [truthy] in H; injection H as <-; exact Hacc ].
  destruct (truthy found); [ | injection H as <-; exact Hacc ].
  assert (Hf := ascii_lookup _ d found Hi L).
  destruct found; try discriminate H.
  injection H as <-. apply Hadd. exact Hf.
Qed.

Lemma extract_institutions_of_author_ascii :
  forall (insts : list json) (acc acc' : list (option string)),
    Forall (fun x => ascii_json x = true) insts ->
    for_each extract_institution insts acc = Ok acc' ->
    Forall ascii_entry acc -> Forall ascii_entry acc'.
Proof.
  induction insts as [ | inst r IH ]; intros acc acc' Hi; cbn [for_each].
  - intros [= <-] H. exact H.
  - inversion Hi as [ | ? ? Hinst Hr ]; subst.
    destruct (extract_institution inst acc) as [acc1 | e] eqn:E; cbn [bind];
      [ | discriminate ].
    intros Hrun Hacc. apply (IH acc1 acc' Hr Hrun).
    apply (extract_institution_ascii inst acc acc1 Hinst E Hacc).
Qed.

Lemma extract_author_ascii :
  forall (author : json) (acc acc' : list (option string)),
    ascii_json author = true ->
    extract_author author acc = Ok acc' ->
    Forall ascii_entry acc -> Forall ascii_entry acc'.
Proof.
  intros author acc acc' Ha H Hacc. unfold extract_author in H.
  destruct author as [ | | | | | d ]; try discriminate H.
  unfold get_default in H. cbn [bind] in H.
  assert (Hf : ascii_json (match lookup "Institutions" d with
                           | Some x => x
                           | None => JList []
                           end) = true).
  { destruct (lookup "Institutions" d) as [found | ] eqn:L; [ | reflexivity ].
    apply (ascii_lookup _ d found Ha L). }
  destruct (negb (truthy _)).
  - injection H as <-. apply Forall_app. split; [ exact Hacc | repeat constructor ].
  - destruct (py_iter _) as [insts | e] eqn:Hit; cbn [bind] in H;
      [ | discriminate H ].
    apply (extract_institutions_of_author_ascii insts acc acc'
             (ascii_py_iter _ insts Hf Hit) H Hacc).
Qed.

Lemma extract_authors_ascii :
  forall (authors : list json) (acc acc' : list (option string)),
    Forall (fun x => ascii_json x = true) authors ->
    for_each extract_author authors acc = Ok acc' ->
    Forall ascii_entry acc -> Forall ascii_entry acc'.
Proof.
  induction authors as [ | a r IH ]; intros acc acc' Ha; cbn [for_each].
  - intros [= <-] H. exact H.
  - inversion Ha as [ | ? ? Hauthor Hr ]; subst.
    destruct (extract_author a acc) as [acc1 | e] eqn:E; cbn [bind];
      [ | discriminate ].
    intros Hrun Hacc. apply (IH acc1 acc' Hr Hrun).
    apply (extract_author_ascii a acc acc1 Hauthor E Hacc).
Qed.

(** X6. When the authors of a paper record hold ASCII text only, every name
    [extract_institutions] returns is lower-cased, has no whitespace at its
    ends, and is ASCII text. A paper record with no authors (the field
    missing, null or empty) gives the one-entry list [[None]]. *)
Theorem extract_institutions_normalizes_names :
  forall (paper : json) (institutions : list (option string)),
    extract_institutions paper = Ok institutions ->
    ((forall authors,
         get_default paper "Authors and Institutions" (JDict []) = Ok authors ->
         ascii_json authors = true) ->
     forall name, In (Some name) institutions ->
                  lower name = name /\ strip name = name /\
                  ascii_text name = true) /\
    (forall d, paper = JDict d ->
               truthy (match lookup "Authors and Institutions" d with
                       | Some authors => authors
                       | None => JDict []
                       end) = false ->
               institutions = [None]).
Proof.
  intros paper institutions H. unfold extract_institutions in H. split.
  - intros Hascii.
    destruct (get_default paper "Authors and Institutions" (JDict []))
      as [found | e]; cbn [bind] in H; [ | discriminate H ].
    specialize (Hascii found eq_refl).
    assert (Hall : Forall normalized_entry institutions /\
                   Forall ascii_entry institutions).
    { destruct (negb (truthy found)).
      - injection H as <-. split; repeat constructor.
      - destruct (py_iter found) as [authors | e] eqn:Hit; cbn [bind] in H;
          [ | discriminate H ].
        split.
        + apply (extract_authors_normalized authors [] institutions H).
          constructor.
        + apply (extract_authors_ascii authors [] institutions
                   (ascii_py_iter found authors Hascii Hit) H).
          constructor. }
    destruct Hall as [Hn Ha]. intros name Hin. rewrite Forall_forall in Hn, Ha.
    destruct (Hn (Some name) Hin) as [Hl Hs].
    split; [ exact Hl | ]. split; [ exact Hs | ]. apply (Ha (Some name) Hin).
  - intros d -> Hfalsy. unfold get_default in H. cbn [bind] in H.
    rewrite Hfalsy in H. cbn [negb] in H. injection H as <-. reflexivity.
Qed.

(** ** The pattern, letter case and surrounding whitespace *)

Lemma match_literal_lower : forall (company s : string),
  match_literal company (lower s) = option_map lower (match_literal company s).
Proof.
  unfold lower. induction company as [ | p c IH ]; intros s; cbn [match_literal].
  - reflexivity.
  - destruct s as [ | a r ]; cbn [map_string]; [ reflexivity | ].
    rewrite to_lower_idempotent.
    destruct (Ascii.eqb (to_lower a) (to_lower p)); [ apply IH | reflexivity ].
Qed.

Lemma not_word_ahead_lower : forall s : string,
  not_word_ahead (lower s) = not_word_ahead s.
Proof.
  intros s. destruct s as [ | a r ]; [ reflexivity | ].
  unfold lower. cbn [map_string not_word_ahead]. rewrite is_word_to_lower.
  reflexivity.
Qed.

Lemma existsb_ext_in : forall (A : Type) (f g : A -> bool) (l : list A),
  (forall x, In x l -> f x = g x) -> existsb f l = existsb g l.
Proof.
  intros A f g l. induction l as [ | x r IH ]; intros H; cbn [existsb];
    [ reflexivity | ].
  rewrite (H x (or_introl eq_refl)), IH; [ reflexivity | ].
  intros y Hy. apply H. right. exact Hy.
Qed.

Lemma match_here_lower : forall (prev : option ascii) (s : string),
  match_here (option_map to_lower prev) (lower s) = match_here prev s.
Proof.
  intros prev s. unfold match_here. f_equal.
  - destruct prev as [c | ]; [ | reflexivity ].
    cbn [option_map not_word_behind]. rewrite is_word_to_lower. reflexivity.
  - apply existsb_ext_in. intros company _. rewrite match_literal_lower.
    destruct (match_literal company s); cbn [option_map];
      [ apply not_word_ahead_lower | reflexivity ].
Qed.

Lemma search_from_lower : forall (s : string) (prev : option ascii),
  search_from (option_map to_lower prev) (lower s) = search_from prev s.
Proof.
  induction s as [ | a r IH ]; intros prev.
  - cbn [search_from]. rewrite <- (match_here_lower prev EmptyString).
    reflexivity.
  - change (lower (String a r)) with (String (to_lower a) (lower r)).
    cbn [search_from].
    rewrite <- (IH (Some a)), <- (match_here_lower prev (String a r)).
    reflexivity.
Qed.

Lemma company_pattern_search_lower : forall s : string,
  company_pattern_search (lower s) = company_pattern_search s.
Proof. intros s. apply (search_from_lower s None). Qed.

Lemma companies_trimmed : forall company : string,
  In company BIG_TECH_COMPANIES -> trimmed company = true.
Proof.
  assert (H : forallb trimmed BIG_TECH_COMPANIES = true) by (vm_compute; reflexivity).
  rewrite forallb_forall in H. exact H.
Qed.

Lemma space_not_word : forall c : ascii, is_space c = true -> is_word c = false.
Proof.
  intros c. unfold is_space, is_word, is_alnum, is_alpha, is_upper, is_lower, is_digit.
  generalize (code c). intros n H.
  leb_cases; simpl in *; try reflexivity; try discriminate; lia.
Qed.

Lemma space_not_upper : forall c : ascii, is_space c = true -> to_lower c = c.
Proof.
  intros c H. unfold to_lower.
  assert (U : is_upper c = false).
  { revert H. unfold is_space, is_upper. generalize (code c). intros n H.
    leb_cases; simpl in *; try reflexivity; try discriminate; lia. }
  rewrite U. reflexivity.
Qed.

(** A space in the text matches no character of a name that is no space. *)
Lemma space_matches_space : forall a p : ascii,
  is_space a = true -> Ascii.eqb (to_lower a) (to_lower p) = true ->
  is_space p = true.
Proof.
  intros a p Ha E. apply Ascii.eqb_eq in E.
  rewrite (space_not_upper a Ha) in E.
  rewrite <- is_space_to_lower, <- E. exact Ha.
Qed.

Lemma ends_well_tail : forall (p : ascii) (c : string),
  ends_well (String p c) -> ends_well c.
Proof.
  intros p c. unfold ends_well. cbn [last_char].
  destruct (last_char c); [ trivial | intros _; exact I ].
Qed.

Lemma rstrip_cons : forall (a : ascii) (r : string),
  (is_space a = true /\ rstrip r = EmptyString /\
   rstrip (String a r) = EmptyString) \/
  rstrip (String a r) = String a (rstrip r).
Proof.
  intros a r. cbn [rstrip]. destruct (rstrip r) eqn:E; [ | right; reflexivity ].
  destruct (is_space a) eqn:Ha; [ left; auto | right; reflexivity ].
Qed.

Lemma alternative_rstrip : forall (s company : string),
  ends_well company -> alternative company (rstrip s) = alternative company s.
Proof.
  unfold alternative.
  induction s as [ | a r IH ]; intros company Hc; [ reflexivity | ].
  destruct company as [ | p c ].
  - cbn [match_literal].
    destruct (rstrip_cons a r) as [(Ha & _ & ->) | ->].
    + cbn [not_word_ahead]. rewrite (space_not_word a Ha). reflexivity.
    + reflexivity.
  - destruct (rstrip_cons a r) as [(Ha & Hr & ->) | ->].
    + cbn [match_literal].
      destruct (Ascii.eqb (to_lower a) (to_lower p)) eqn:E; [ | reflexivity ].
      assert (Hp := space_matches_space a p Ha E).
      destruct c as [ | p' c' ].
      * unfold ends_well in Hc. cbn [last_char] in Hc. congruence.
      * rewrite <- (IH (String p' c') (ends_well_tail p _ Hc)), Hr.
        reflexivity.
    + cbn [match_literal].
      destruct (Ascii.eqb (to_lower a) (to_lower p)); [ | reflexivity ].
      apply IH. apply (ends_well_tail p c Hc).
Qed.

Lemma companies_end_well : forall company : string,
  In company BIG_TECH_COMPANIES -> ends_well company /\ company <> EmptyString.
Proof.
  intros company H. apply companies_trimmed in H. unfold trimmed in H.
  unfold ends_well. destruct company as [ | p c ]; [ discriminate H | ].
  destruct (last_char (String p c)); [ | discriminate H ].
  apply andb_true_iff in H. destruct H as [_ H]. apply negb_true_iff in H.
  split; [ exact H | discriminate ].
Qed.

Lemma match_here_alternatives : forall (prev : option ascii) (s : string),
  match_here prev s =
  not_word_behind prev && existsb (fun company => alternative company s)
                                  BIG_TECH_COMPANIES.
Proof. reflexivity. Qed.

Lemma match_here_rstrip : forall (prev : option ascii) (s : string),
  match_here prev (rstrip s) = match_here prev s.
Proof.
  intros prev s. rewrite !match_here_alternatives. f_equal.
  apply existsb_ext_in. intros company H.
  apply alternative_rstrip. apply (companies_end_well company H).
Qed.

Lemma match_here_empty : forall prev : option ascii,
  match_here prev EmptyString = false.
Proof.
  intros prev. rewrite match_here_alternatives.
  assert (E : existsb (fun company => alternative company EmptyString)
                      BIG_TECH_COMPANIES = false) by (vm_compute; reflexivity).
  rewrite E. apply andb_false_r.
Qed.

Lemma search_from_rstrip : forall (s : string) (prev : option ascii),
  search_from prev (rstrip s) = search_from prev s.
Proof.
  induction s as [ | a r IH ]; intros prev; [ reflexivity | ].
  cbn [search_from]. rewrite <- (IH (Some a)), <- (match_here_rstrip prev (String a r)).
  destruct (rstrip_cons a r) as [(_ & Hr & ->) | ->].
  - rewrite Hr. cbn [search_from]. rewrite !match_here_empty. reflexivity.
  - reflexivity.
Qed.

Lemma match_here_space : forall (prev : option ascii) (a : ascii) (r : string),
  is_space a = true -> match_here prev (String a r) = false.
Proof.
  intros prev a r Ha. rewrite match_here_alternatives.
  assert (E : existsb (fun company => alternative company (String a r))
                      BIG_TECH_COMPANIES = false).
  { apply not_true_iff_false. intros H. apply existsb_exists in H.
    destruct H as (company & Hin & Hm).
    apply companies_trimmed in Hin. unfold trimmed in Hin.
    destruct company as [ | p c ]; [ discriminate Hin | ].
    destruct (last_char (String p c)); [ | discriminate Hin ].
    apply andb_true_iff in Hin. destruct Hin as [Hp _].
    apply negb_true_iff in Hp.
    unfold alternative in Hm. cbn [match_literal] in Hm.
    destruct (Ascii.eqb (to_lower a) (to_lower p)) eqn:E; [ | discriminate Hm ].
    rewrite (space_matches_space a p Ha E) in Hp. discriminate Hp. }
  rewrite E. apply andb_false_r.
Qed.

Lemma search_from_lstrip : forall s : string,
  search_from None (lstrip s) = search_from None s.
Proof.
  induction s as [ | a r IH ]; [ reflexivity | ].
  cbn [lstrip]. destruct (is_space a) eqn:Ha; [ | reflexivity ].
  rewrite IH. cbn [search_from]. rewrite (match_here_space None a r Ha).
  cbn [orb]. destruct r as [ | b t ]; cbn [search_from].
  - rewrite !match_here_empty. reflexivity.
  - f_equal. rewrite !match_here_alternatives. cbn [not_word_behind].
    rewrite (space_not_word a Ha). reflexivity.
Qed.

Lemma company_pattern_search_strip : forall s : string,
  company_pattern_search (strip s) = company_pattern_search s.
Proof.
  intros s. unfold company_pattern_search, strip.
  rewrite search_from_rstrip. apply search_from_lstrip.
Qed.

(** X7. In a name of ASCII text, the pattern is found exactly when it is
    found in the name lower-cased and stripped, so the normalization
    [extract_institutions] applies to such names changes no
    classification. *)
Theorem normalization_keeps_the_classification :
  (forall name : string,
      ascii_text name = true ->
      company_pattern_search (strip (lower name)) = company_pattern_search name) /\
  (forall institutions : list (option string),
      (forall name, In (Some name) institutions -> ascii_text name = true) ->
      classify_paper
        (map (option_map (fun name => strip (lower name))) institutions) =
      classify_paper institutions).
Proof.
  assert (H : forall name : string,
             company_pattern_search (strip (lower name)) =
             company_pattern_search name).
  { intros name. rewrite company_pattern_search_strip.
    apply company_pattern_search_lower. }
  split; [ intros name _; apply H | ].
  intros institutions _. rewrite !classify_paper_flags.
  assert (Hn : forallb is_none
                 (map (option_map (fun name => strip (lower name))) institutions)
               = forallb is_none institutions).
  { induction institutions as [ | [name | ] r IH ]; cbn [map forallb option_map is_none];
      [ reflexivity | reflexivity | exact IH ]. }
  assert (He : existsb names_company
                 (map (option_map (fun name => strip (lower name))) institutions)
               = existsb names_company institutions).
  { clear Hn. induction institutions as [ | [name | ] r IH ];
      cbn [map existsb option_map names_company orb];
      [ reflexivity | | exact IH ].
    rewrite H, IH. reflexivity. }
  rewrite Hn, He. reflexivity.
Qed.

(** ** [classify_paper] and the order of the names *)

Lemma all_none_names_no_company : forall institutions : list (option string),
  forallb is_none institutions = true ->
  existsb names_company institutions = false.
Proof.
  induction institutions as [ | [name | ] r IH ]; cbn [forallb existsb is_none];
    [ reflexivity | discriminate | exact IH ].
Qed.

Lemma forallb_perm : forall (A : Type) (f : A -> bool) (l l' : list A),
  Permutation l l' -> forallb f l = forallb f l'.
Proof.
  intros A f l l' H. induction H; cbn [forallb].
  - reflexivity.
  - rewrite IHPermutation. reflexivity.
  - destruct (f x), (f y); reflexivity.
  - congruence.
Qed.

Lemma existsb_perm : forall (A : Type) (f : A -> bool) (l l' : list A),
  Permutation l l' -> existsb f l = existsb f l'.
Proof.
  intros A f l l' H. induction H; cbn [existsb].
  - reflexivity.
  - rewrite IHPermutation. reflexivity.
  - destruct (f x), (f y); reflexivity.
  - congruence.
Qed.

(** X8. The class [classify_paper] gives does not depend on the order of
    the names, although its loop stops at the first company: a permutation
    of the list has the same class, and the class of a concatenation is the
    combination of the classes of its parts. *)
Theorem classify_paper_ignores_the_order :
  (forall l l' : list (option string),
      Permutation l l' -> classify_paper l = classify_paper l') /\
  (forall l1 l2 : list (option string),
      classify_paper (l1 ++ l2) = combine (classify_paper l1) (classify_paper l2)).
Proof.
  split.
  - intros l l' H. rewrite !classify_paper_flags.
    rewrite (forallb_perm _ is_none l l' H), (existsb_perm _ names_company l l' H).
    reflexivity.
  - intros l1 l2. rewrite !classify_paper_flags, forallb_app, existsb_app.
    assert (H1 := all_none_names_no_company l1).
    assert (H2 := all_none_names_no_company l2).
    destruct (forallb is_none l1); [ rewrite (H1 eq_refl) | ];
      (destruct (forallb is_none l2); [ rewrite (H2 eq_refl) | ]);
      cbn [andb orb combine];
      try reflexivity;
      destruct (existsb names_company l1); destruct (existsb names_company l2);
      reflexivity.
Qed.

Lemma classify_paper_ignores_the_order_witness :
  classify_paper [Some "mit"; None; Some "google"] =
  classify_paper [Some "google"; Some "mit"; None].
Proof.
  apply (proj1 classify_paper_ignores_the_order).
  apply perm_trans with (l' := [Some "mit"; Some "google"; None]).
  - apply perm_skip. apply perm_swap.
  - apply perm_swap.
Defined.

(** ** The counts of [_analyze_year] *)

Lemma count_partition : forall classifications : list classification,
  BigTechAnalyzer.count has_big_company classifications +
  BigTechAnalyzer.count no_big_company classifications +
  BigTechAnalyzer.count all_none classifications = List.length classifications.
Proof.
  unfold BigTechAnalyzer.count.
  induction classifications as [ | c r IH ]; [ reflexivity | ].
  cbn [filter List.length]. destruct c; cbn [classification_eqb List.length]; lia.
Qed.

Lemma classify_all_length :
  forall (l : list json) (acc classifications : list classification),
    for_each classify_next l acc = Ok classifications ->
    List.length classifications = List.length acc + List.length l.
Proof.
  induction l as [ | paper r IH ]; intros acc classifications; cbn [for_each].
  - intros [= <-]. cbn [List.length]. lia.
  - unfold classify_next at 1.
    destruct (extract_institutions paper) as [insts | e]; cbn [bind];
      [ | discriminate ].
    intros H. rewrite (IH _ _ H), length_app. cbn [List.length]. lia.
Qed.

Lemma chars_length : forall s : string,
  List.length (chars s) = String.length s.
Proof.
  intros s. unfold chars. rewrite length_map.
  induction s as [ | c r IH ]; cbn [list_ascii_of_string List.length String.length];
    [ reflexivity | rewrite IH; reflexivity ].
Qed.

Lemma py_len_iter : forall (v : json) (n : nat) (l : list json),
  py_len v = Ok n -> py_iter v = Ok l -> List.length l = n.
Proof.
  intros v n l. destruct v; cbn [py_len py_iter]; try discriminate;
    intros [= <-] [= <-].
  - apply chars_length.
  - reflexivity.
  - apply length_map.
Qed.

(** X9. Whenever [_analyze_year] returns, its three counts add up to the
    number of papers: every paper is in exactly one of the classes. *)
Theorem analyze_year_counts_every_paper_once :
  forall (papers : json) (stats : BigTechStats),
    _analyze_year papers = Ok stats ->
    has_big_tech stats + no_big_tech stats + stats_all_none stats
    = total_papers stats.
Proof.
  intros papers stats. unfold _analyze_year.
  destruct (py_len papers) as [total | e] eqn:Hlen; cbn [bind]; [ | discriminate ].
  destruct (py_iter papers) as [l | e] eqn:Hiter; cbn [bind]; [ | discriminate ].
  destruct (for_each classify_next l []) as [classifications | e] eqn:Hcls;
    cbn [bind]; [ | discriminate ].
  intros [= <-].
  cbn [has_big_tech no_big_tech stats_all_none total_papers].
  rewrite count_partition, (classify_all_length l [] classifications Hcls).
  cbn [List.length]. apply (py_len_iter papers total l Hlen Hiter).
Qed.

(** ** The statistics of a conference, year by year *)

Lemma analyze_items_entries :
  forall (items : list (string * json))
         (acc stats : list (string * BigTechStats)),
    for_each analyze_item items acc = Ok stats ->
    NoDup (map fst items) ->
    (forall k, In k (map fst items) -> ~ In k (map fst acc)) ->
    exists entries,
      stats = acc ++ entries /\
      Forall2 (fun item entry =>
                 fst entry = fst item /\ _analyze_year (snd item) = Ok (snd entry))
              items entries.
Proof.
  induction items as [ | [k v] r IH ]; intros acc stats; cbn [for_each].
  - intros [= <-] _ _. exists []. split; [ symmetry; apply app_nil_r | constructor ].
  - unfold analyze_item at 1. cbn [fst snd].
    destruct (_analyze_year v) as [st | e] eqn:Hy; cbn [bind]; [ | discriminate ].
    intros Hr Hnd Hfresh. cbn [map fst] in Hnd, Hfresh.
    inversion Hnd as [ | ? ? Hk Hnd' ]; subst.
    rewrite (dict_set_new_key _ k st acc) in Hr
      by (apply Hfresh; left; reflexivity).
    destruct (IH _ _ Hr Hnd') as (entries & -> & Hall).
    + intros k' Hk' Hin. rewrite map_app, in_app_iff in Hin. cbn [map fst In] in Hin.
      destruct Hin as [Hin | [<- | []]].
      * apply (Hfresh k'); [ right; exact Hk' | exact Hin ].
      * contradiction.
    + exists ((k, st) :: entries). split.
      * rewrite <- app_assoc. reflexivity.
      * constructor; [ split; [ reflexivity | exact Hy ] | exact Hall ].
Qed.

Lemma analyze_items_ok :
  forall (items : list (string * json)) (acc : list (string * BigTechStats)),
    (forall item, In item items -> exists st, _analyze_year (snd item) = Ok st) ->
    exists stats, for_each analyze_item items acc = Ok stats.
Proof.
  induction items as [ | item r IH ]; intros acc H; cbn [for_each].
  - eexists. reflexivity.
  - unfold analyze_item at 1.
    destruct (H item (or_introl eq_refl)) as [st ->]. cbn [bind].
    apply IH. intros item' Hin. apply H. right. exact Hin.
Qed.

(** X10. [analyze_conference] returns when every year of the data can be
    analysed, and what it returns has one entry for each year, in the order
    of the years in the data, holding the statistics [_analyze_year] gives
    for the papers of that year. *)
Theorem analyze_conference_year_by_year :
  forall (conference : string) (items : list (string * json)),
    NoDup (map fst items) ->
    ((forall item, In item items -> exists st, _analyze_year (snd item) = Ok st) ->
     exists stats, analyze_conference conference (JDict items) = Ok stats) /\
    (forall stats,
        analyze_conference conference (JDict items) = Ok stats ->
        Forall2 (fun item entry =>
                   fst entry = fst item /\
                   _analyze_year (snd item) = Ok (snd entry))
                items stats).
Proof.
  intros conference items Hnd. split.
  - intros H. apply (analyze_items_ok items [] H).
  - intros stats H. unfold analyze_conference in H.
    destruct (analyze_items_entries items [] stats H Hnd (fun _ _ F => F))
      as (entries & -> & Hall).
    exact Hall.
Qed.

(** ** The table, conference by conference *)

Lemma analyze_next_rows : forall (fs : processed_data) (results : list row)
                                 (conference : string),
  analyze_next fs results conference = results ++ conference_rows fs conference.
Proof.
  intros fs results conference. unfold analyze_next, conference_rows.
  destruct (lower conference =? "socc"); [ symmetry; apply app_nil_r | ].
  destruct (bind _ _); [ reflexivity | symmetry; apply app_nil_r ].
Qed.

Lemma analyze_all_rows : forall (fs : processed_data) (cs : list string)
                                (results : list row),
  fold_left (analyze_next fs) cs results =
  results ++ flat_map (conference_rows fs) cs.
Proof.
  intros fs. induction cs as [ | c r IH ]; intros results; cbn [fold_left flat_map].
  - symmetry. apply app_nil_r.
  - rewrite IH, analyze_next_rows, <- app_assoc. reflexivity.
Qed.

(** X11. [analyze_all_conferences] raises only when the directory is
    missing. Otherwise its table is the concatenation, in the order of the
    conferences, of the rows of each conference by itself: a conference
    whose file cannot be loaded or analysed, and SoCC in any letter case,
    adds no row and takes none away from the others. *)
Theorem analyze_all_conferences_conference_by_conference :
  forall fs : processed_data,
    (dir_exists fs = false ->
     analyze_all_conferences fs = Raise FileNotFoundError) /\
    (dir_exists fs = true ->
     analyze_all_conferences fs =
     Ok (flat_map (conference_rows fs) (conferences fs)) /\
     forall conference,
       (lower conference = "socc" -> conference_rows fs conference = []) /\
       (forall e, load_json fs conference = Raise e ->
                  conference_rows fs conference = []) /\
       (forall papers_by_year e,
           load_json fs conference = Ok papers_by_year ->
           analyze_conference conference papers_by_year = Raise e ->
           conference_rows fs conference = [])).
Proof.
  intros fs. unfold analyze_all_conferences. split.
  - intros ->. reflexivity.
  - intros ->. cbn [negb]. split.
    + rewrite analyze_all_rows. reflexivity.
    + intros conference. unfold conference_rows. split; [ | split ].
      * intros ->. reflexivity.
      * intros e ->. destruct (_ =? _); reflexivity.
      * intros papers_by_year e -> H. cbn [bind]. rewrite H.
        destruct (_ =? _); reflexivity.
Qed.

(** ** The table by continent *)

Lemma lookup_in_keys : forall (V : Type) (k : string) (v : V)
                              (d : list (string * V)),
  lookup k d = Some v -> In k (map fst d).
Proof.
  intros V k v d. induction d as [ | [k' v'] r IH ]; cbn [lookup map fst In];
    [ discriminate | ].
  destruct (String.eqb_spec k' k) as [-> | _]; [ left; reflexivity | ].
  intros H. right. apply IH. exact H.
Qed.

Lemma counted_dict_set :
  forall (k : string) (b b' : continent_bucket)
         (d : list (string * continent_bucket)),
    lookup k d = Some b ->
    counted (dict_set k b' d) + total b = counted d + total b'.
Proof.
  intros k b b' d. unfold counted, list_sum.
  induction d as [ | [k0 b0] r IH ]; cbn [lookup dict_set]; [ discriminate | ].
  destruct (String.eqb_spec k0 k) as [-> | _].
  - intros [= ->]. cbn [map fold_right snd]. lia.
  - intros H. cbn [map fold_right snd]. specialize (IH H). lia.
Qed.

Lemma bucket_ok_dict_set :
  forall (k : string) (b' : continent_bucket)
         (d : list (string * continent_bucket)),
    Forall bucket_ok d -> bucket_ok (k, b') -> Forall bucket_ok (dict_set k b' d).
Proof.
  intros k b' d H Hb. induction H as [ | [k0 b0] r H0 Hr IH ]; cbn [dict_set].
  - constructor; [ exact Hb | constructor ].
  - destruct (String.eqb_spec k0 k) as [-> | _]; constructor; assumption.
Qed.

Lemma bucket_ok_lookup :
  forall (k : string) (b : continent_bucket)
         (d : list (string * continent_bucket)),
    Forall bucket_ok d -> lookup k d = Some b -> bucket_ok (k, b).
Proof.
  intros k b d H. induction H as [ | [k0 b0] r H0 Hr IH ]; cbn [lookup];
    [ discriminate | ].
  destruct (String.eqb_spec k0 k) as [-> | _]; [ | exact IH ].
  intros [= <-]. exact H0.
Qed.

Lemma count_paper_step :
  forall (paper : json) (stats stats' : list (string * continent_bucket)),
    count_paper paper stats = Ok stats' ->
    map fst stats' = map fst stats /\
    (Forall bucket_ok stats -> Forall bucket_ok stats') /\
    (counted stats' = counted stats \/ counted stats' = counted stats + 1).
Proof.
  intros paper stats stats' H.
  assert (Hsame : stats' = stats ->
                  map fst stats' = map fst stats /\
                  (Forall bucket_ok stats -> Forall bucket_ok stats') /\
                  (counted stats' = counted stats \/
                   counted stats' = counted stats + 1)).
  { intros ->. auto. }
  unfold count_paper in H.
  destruct (get_default paper "Predominant Continent" (JStr "Unknown"))
    as [found | e]; cbn [bind] in H; [ | discriminate H ].
  destruct (py_eqb found (JStr "Unknown") || negb (truthy found));
    [ injection H as <-; apply Hsame; reflexivity | ].
  cbv zeta in H.
  destruct (match found with
            | JList (first :: _) => first
            | JList [] => JStr "Unknown"
            | _ => found
            end) as [ | | | c | | ];
    try (injection H as <-; apply Hsame; reflexivity).
  destruct (c =? "Unknown"); [ injection H as <-; apply Hsame; reflexivity | ].
  destruct (extract_institutions paper) as [institutions | e]; cbn [bind] in H;
    [ | discriminate H ].
  destruct (lookup _ stats) as [b | ] eqn:L; [ | discriminate H ].
  injection H as <-. split; [ | split ].
  - apply dict_set_same_keys. apply (lookup_in_keys _ _ b stats L).
  - intros Hok. apply bucket_ok_dict_set; [ exact Hok | ].
    apply (bucket_ok_lookup _ b stats Hok) in L. unfold bucket_ok in *.
    cbn [snd count_in_bucket has_big no_big total] in *.
    destruct (classify_paper institutions); lia.
  - right.
    assert (E := counted_dict_set _ b
                   (count_in_bucket (classify_paper institutions) b) stats L).
    cbn [count_in_bucket total] in E. lia.
Qed.

Lemma count_papers_steps :
  forall (papers : list json) (stats stats' : list (string * continent_bucket)),
    for_each count_paper papers stats = Ok stats' ->
    map fst stats' = map fst stats /\
    (Forall bucket_ok stats -> Forall bucket_ok stats') /\
    counted stats' <= counted stats + List.length papers.
Proof.
  induction papers as [ | paper r IH ]; intros stats stats'; cbn [for_each].
  - intros [= <-]. cbn [List.length]. split; [ reflexivity | ]. split; [ auto | lia ].
  - destruct (count_paper paper stats) as [stats1 | e] eqn:E; cbn [bind];
      [ | discriminate ].
    intros Hr.
    destruct (count_paper_step paper stats stats1 E) as (Hk & Hok & Hc).
    destruct (IH stats1 stats' Hr) as (Hk' & Hok' & Hc').
    split; [ congruence | ]. split; [ auto | ].
    cbn [List.length]. lia.
Qed.

Lemma counted_zero : forall d : list (string * continent_bucket),
  counted d = 0 -> filter has_paper d = [].
Proof.
  unfold counted, list_sum. induction d as [ | [k b] r IH ];
    cbn [map fold_right filter snd]; [ reflexivity | ].
  intros H. unfold has_paper at 1. cbn [snd].
  assert (Hb : total b = 0) by lia. rewrite Hb. cbn [Nat.ltb Nat.leb].
  apply IH. lia.
Qed.

Lemma rows_of_year_labels :
  forall (conference year : string) (d : list (string * continent_bucket)),
    map level_2 (rows_of_year conference year d) =
    map bucket_label (filter has_paper d) /\
    Forall (fun r => by_Conference r = conference /\ by_Year r = year)
           (rows_of_year conference year d).
Proof.
  intros conference year d. unfold rows_of_year. fold (counted d). cbv zeta.
  destruct (Nat.ltb_spec 0 (counted d)) as [Hpos | Hzero].
  - generalize (counted d). intros n. clear Hpos.
    induction d as [ | [k b] r [IH1 IH2] ]; cbn [flat_map filter];
      [ split; [ reflexivity | constructor ] | ].
    unfold has_paper at 1. cbn [snd fst].
    destruct (0 <? total b)%nat; cbn [app map level_2].
    + split; [ rewrite IH1; reflexivity | ].
      constructor; [ split; reflexivity | exact IH2 ].
    + split; [ exact IH1 | exact IH2 ].
  - rewrite counted_zero by lia. split; [ reflexivity | constructor ].
Qed.

(** X12. The table by continent, for the papers of one year. Counting keeps
    the four buckets NA, EU, AS, Other in this order; counts each paper at
    most once; and keeps the two class counts of a bucket within its total.
    The year then has a row for each bucket that has a paper and for no
    other, in the order of the buckets and labelled pct_big_ followed by the
    lower-cased bucket. *)
Theorem table_by_continent_has_rows_for_buckets_with_papers :
  forall (papers : list json) (stats : list (string * continent_bucket)),
    for_each count_paper papers initial_continent_stats = Ok stats ->
    map fst stats = ["NA"; "EU"; "AS"; "Other"] /\
    Forall bucket_ok stats /\
    counted stats <= List.length papers /\
    forall conference year : string,
      map level_2 (rows_of_year conference year stats) =
      map bucket_label (filter has_paper stats) /\
      Forall (fun r => by_Conference r = conference /\ by_Year r = year)
             (rows_of_year conference year stats).
Proof.
  intros papers stats H.
  destruct (count_papers_steps papers initial_continent_stats stats H)
    as (Hk & Hok & Hc).
  split; [ exact Hk | ]. split; [ | split; [ exact Hc | ] ].
  - apply Hok. repeat constructor.
  - intros conference year. apply rows_of_year_labels.
Qed.

(** ** Data reduction *)

Section Reduction.

Variable pc : pycountry.
Variable set_order : list json -> list json.

Lemma process_paper_spec :
  forall (paper : json) (year : string) (processed : json)
         (stats : DataReducer.ProcessingStats),
    DataReducer.process_paper pc set_order paper year = Ok (processed, stats) ->
    extract_institutions processed = extract_institutions paper /\
    DataReducer.total_papers stats = 1 /\
    DataReducer.papers_with_continent stats <= 1 /\
    DataReducer.papers_without_sufficient_data stats <= 1.
Proof.
  intros paper year processed stats H. unfold DataReducer.process_paper in H.
  destruct paper; try discriminate H.
  unfold get_default in H. cbn [bind] in H.
  destruct (DataReducer.predominant_of pc set_order _)
    as [[[pred insufficient] unknown] | e] eqn:Hp; cbn [bind] in H;
    [ | discriminate H ].
  injection H as <- <-. split; [ | split; [ reflexivity | split ] ].
  - unfold extract_institutions, get_default. cbn [lookup].
    rewrite (proj2 (String.eqb_neq "Title" "Authors and Institutions"))
      by discriminate.
    rewrite (proj2 (String.eqb_neq "Year" "Authors and Institutions"))
      by discriminate.
    rewrite (proj2 (String.eqb_neq "Predominant Continent"
                                   "Authors and Institutions"))
      by discriminate.
    rewrite String.eqb_refl.
    destruct (lookup "Authors and Institutions" d); reflexivity.
  - cbn [DataReducer.papers_with_continent]. destruct pred; lia.
  - cbn [DataReducer.papers_without_sufficient_data].
    unfold DataReducer.predominant_of in Hp.
    destruct (truthy _); [ | injection Hp as _ <- _; lia ].
    destruct (get_predominant_continent pc set_order _)
      as [[[p n] u] | e]; cbn [bind] in Hp; [ | discriminate Hp ].
    destruct ((0 <? n)%nat || (0 <? u)%nat).
    + destruct (py_len _) as [len | e]; cbn [bind] in Hp; [ | discriminate Hp ].
      injection Hp as _ <- _.
      match goal with |- context [if ?b then _ else _] => destruct b end; lia.
    + cbn [bind] in Hp. injection Hp as _ <- _. lia.
Qed.

(** X13. [process_paper] keeps the institution names: what
    [extract_institutions] reads from the processed paper is what it reads
    from the paper, so data reduction changes no classification. The
    statistics of one paper count one paper, with or without a continent. *)
Theorem process_paper_keeps_the_names :
  forall (paper : json) (year : string) (processed : json)
         (stats : DataReducer.ProcessingStats),
    DataReducer.process_paper pc set_order paper year = Ok (processed, stats) ->
    extract_institutions processed = extract_institutions paper /\
    DataReducer.total_papers stats = 1 /\
    DataReducer.papers_with_continent stats <= 1 /\
    DataReducer.papers_without_sufficient_data stats <= 1.
Proof. exact process_paper_spec. Qed.

Lemma process_papers_spec :
  forall (year : string) (papers acc year_papers : list json)
         (st0 st1 : DataReducer.ProcessingStats),
    for_each (DataReducer.process_next pc set_order year) papers (acc, st0)
    = Ok (year_papers, st1) ->
    exists processed,
      year_papers = acc ++ processed /\
      Forall2 same_names papers processed /\
      DataReducer.total_papers st1
      = DataReducer.total_papers st0 + List.length papers /\
      DataReducer.papers_with_continent st1
      <= DataReducer.papers_with_continent st0 + List.length papers.
Proof.
  intros year. induction papers as [ | paper r IH ];
    intros acc year_papers st0 st1; cbn [for_each].
  - intros [= <- <-]. exists []. rewrite app_nil_r. cbn [List.length].
    repeat split; try constructor; lia.
  - unfold DataReducer.process_next at 1. cbn [fst snd].
    destruct (DataReducer.process_paper pc set_order paper year)
      as [[processed_paper paper_stats] | e] eqn:Hp; cbn [bind];
      [ | discriminate ].
    intros Hr.
    destruct (process_paper_spec paper year processed_paper
                paper_stats Hp) as (Hnames & Htotal & Hwith & _).
    destruct (IH _ _ _ _ Hr) as (processed & -> & Hall & Ht & Hw).
    exists (processed_paper :: processed). rewrite <- app_assoc.
    split; [ reflexivity | ]. split; [ constructor; assumption | ].
    cbn [DataReducer.accumulate DataReducer.total_papers
         DataReducer.papers_with_continent List.length] in *.
    lia.
Qed.

Lemma process_years_spec :
  forall (items : list (string * json)) (acc data : list (string * json))
         (st0 st1 : DataReducer.ProcessingStats),
    for_each (DataReducer.process_year pc set_order) items (acc, st0)
    = Ok (data, st1) ->
    NoDup (map fst items) ->
    (forall k, In k (map fst items) -> ~ In k (map fst acc)) ->
    exists entries,
      data = acc ++ entries /\
      Forall2 year_processed items entries /\
      DataReducer.total_papers st1
      = DataReducer.total_papers st0 + list_sum (map papers_in entries) /\
      DataReducer.papers_with_continent st1
      <= DataReducer.papers_with_continent st0 + list_sum (map papers_in entries).
Proof.
  induction items as [ | [k v] r IH ]; intros acc data st0 st1; cbn [for_each].
  - intros [= <- <-] _ _. exists []. rewrite app_nil_r. cbn.
    repeat split; try constructor; lia.
  - unfold DataReducer.process_year at 1. cbn [fst snd].
    destruct (py_iter v) as [papers | e] eqn:Hi; cbn [bind]; [ | discriminate ].
    destruct (for_each (DataReducer.process_next pc set_order k) papers ([], st0))
      as [[year_papers total_stats] | e] eqn:Hy; cbn [bind]; [ | discriminate ].
    destruct (py_len v) as [year_total | e]; cbn [bind]; [ | discriminate ].
    intros Hr Hnd Hfresh. cbn [map fst] in Hnd, Hfresh.
    inversion Hnd as [ | ? ? Hk Hnd' ]; subst.
    rewrite (dict_set_new_key _ k (JList year_papers) acc) in Hr
      by (apply Hfresh; left; reflexivity).
    destruct (process_papers_spec k papers [] year_papers st0 total_stats Hy)
      as (processed & -> & Hall & Ht & Hw).
    cbn [app] in Hr.
    destruct (IH _ _ _ _ Hr Hnd') as (entries & -> & Hall' & Ht' & Hw').
    + intros k' Hk' Hin. rewrite map_app, in_app_iff in Hin. cbn [map fst In] in Hin.
      destruct Hin as [Hin | [<- | []]].
      * apply (Hfresh k'); [ right; exact Hk' | exact Hin ].
      * contradiction.
    + exists ((k, JList processed) :: entries). rewrite <- app_assoc.
      split; [ reflexivity | ]. split.
      * constructor; [ | exact Hall' ].
        split; [ reflexivity | ]. exists papers, processed. auto.
      * cbn [map list_sum fold_right]. unfold papers_in at 1 3. cbn [snd].
        rewrite <- (Forall2_length Hall). unfold list_sum in *. lia.
Qed.

(** X14. [process_conference] keeps the years and the papers: when it
    returns, the processed data has the years of the data, in their order,
    each with one processed paper for each paper of the year, of the same
    institution names; the total of papers in the statistics is their
    number; and the papers with a continent are at most as many. *)
Theorem process_conference_keeps_years_and_papers :
  forall (conference : string) (items data : list (string * json))
         (stats : DataReducer.ProcessingStats),
    NoDup (map fst items) ->
    DataReducer.process_conference pc set_order conference (JDict items)
    = Ok (data, stats) ->
    Forall2 year_processed items data /\
    DataReducer.total_papers stats = list_sum (map papers_in data) /\
    DataReducer.papers_with_continent stats <= DataReducer.total_papers stats.
Proof.
  intros conference items data stats Hnd H.
  unfold DataReducer.process_conference in H.
  destruct (process_years_spec items [] data DataReducer.no_stats stats H Hnd
              (fun _ _ F => F)) as (entries & -> & Hall & Ht & Hw).
  cbn [app DataReducer.no_stats DataReducer.total_papers
       DataReducer.papers_with_continent] in *.
  split; [ exact Hall | ]. split; lia.
Qed.

End Reduction.

(** ** Statistics of the processed data *)

Lemma py_iter_len : forall (v : json) (l : list json),
  py_iter v = Ok l -> py_len v = Ok (List.length l).
Proof.
  intros v l. destruct v; cbn [py_iter py_len]; try discriminate; intros [= <-].
  - rewrite chars_length. reflexivity.
  - reflexivity.
  - rewrite length_map. reflexivity.
Qed.

Lemma classify_same_names :
  forall (papers processed : list json) (acc : list classification),
    Forall2 same_names papers processed ->
    for_each classify_next processed acc = for_each classify_next papers acc.
Proof.
  intros papers processed acc H. revert acc.
  induction H as [ | p p' r r' Hp _ IH ]; intros acc; cbn [for_each];
    [ reflexivity | ].
  unfold classify_next at 1 3. unfold same_names in Hp. rewrite Hp.
  destruct (extract_institutions p); cbn [bind]; [ apply IH | reflexivity ].
Qed.

Lemma analyze_year_processed : forall item entry : string * json,
  year_processed item entry ->
  _analyze_year (snd entry) = _analyze_year (snd item).
Proof.
  intros item entry (_ & papers & processed & Hi & -> & Hall).
  unfold _analyze_year. rewrite Hi, (py_iter_len _ _ Hi).
  cbn [py_len py_iter bind].
  rewrite <- (Forall2_length Hall), (classify_same_names _ _ [] Hall).
  reflexivity.
Qed.

Lemma analyze_items_processed :
  forall (items data : list (string * json))
         (acc : list (string * BigTechStats)),
    Forall2 year_processed items data ->
    for_each analyze_item data acc = for_each analyze_item items acc.
Proof.
  intros items data acc H. revert acc.
  induction H as [ | item entry r r' Hy _ IH ]; intros acc; cbn [for_each];
    [ reflexivity | ].
  unfold analyze_item at 1 3.
  rewrite (analyze_year_processed item entry Hy).
  destruct Hy as [-> _].
  destruct (_analyze_year (snd item)); cbn [bind]; [ apply IH | reflexivity ].
Qed.

(** X15. The big-tech statistics of the processed data are those of the
    data: when [process_conference] returns, [analyze_conference] gives for
    what it returns the result it gives for the data. *)
Theorem statistics_of_processed_data :
  forall (pc : pycountry) (set_order : list json -> list json)
         (conference : string) (items data : list (string * json))
         (stats : DataReducer.ProcessingStats),
    NoDup (map fst items) ->
    DataReducer.process_conference pc set_order conference (JDict items)
    = Ok (data, stats) ->
    analyze_conference conference (JDict data)
    = analyze_conference conference (JDict items).
Proof.
  intros pc set_order conference items data stats Hnd H.
  unfold DataReducer.process_conference in H.
  destruct (process_years_spec pc set_order items [] data DataReducer.no_stats
              stats H Hnd (fun _ _ F => F)) as (entries & -> & Hall & _).
  unfold analyze_conference. apply analyze_items_processed. exact Hall.
Qed.

(** ** Merging into a JSON file *)

Lemma lookup_absent : forall (V : Type) (k : string) (d : list (string * V)),
  ~ In k (map fst d) -> lookup k d = None.
Proof.
  intros V k d. induction d as [ | [k' v'] r IH ]; cbn [lookup map fst In];
    [ reflexivity | ].
  intros H. destruct (String.eqb_spec k' k) as [-> | _].
  - exfalso. apply H. left. reflexivity.
  - apply IH. intros Hin. apply H. right. exact Hin.
Qed.

Lemma lookup_dict_update :
  forall (V : Type) (d2 d1 : list (string * V)) (k : string),
    NoDup (map fst d2) ->
    lookup k (dict_update d1 d2) =
    match lookup k d2 with
    | Some v => Some v
    | None => lookup k d1
    end.
Proof.
  intros V. unfold dict_update.
  induction d2 as [ | [k2 v2] r IH ]; intros d1 k Hnd; [ reflexivity | ].
  cbn [fold_left fst snd map] in *. inversion Hnd as [ | ? ? Hk Hnd' ]; subst.
  rewrite (IH _ k Hnd'). cbn [lookup].
  destruct (String.eqb_spec k2 k) as [-> | Hne].
  - rewrite (lookup_absent _ k r Hk). apply lookup_dict_set_same.
  - destruct (lookup k r); [ reflexivity | ].
    apply lookup_dict_set_other. intros E. apply Hne. symmetry. exact E.
Qed.

Lemma dict_set_same_value : forall (V : Type) (k : string) (v : V)
                                   (d : list (string * V)),
  lookup k d = Some v -> dict_set k v d = d.
Proof.
  intros V k v d. induction d as [ | [k' v'] r IH ]; cbn [lookup dict_set];
    [ discriminate | ].
  destruct (String.eqb_spec k' k) as [-> | _].
  - intros [= ->]. reflexivity.
  - intros H. rewrite (IH H). reflexivity.
Qed.

Lemma dict_update_nothing_new :
  forall (V : Type) (d2 d : list (string * V)),
    (forall k v, In (k, v) d2 -> lookup k d = Some v) ->
    dict_update d d2 = d.
Proof.
  intros V. unfold dict_update.
  induction d2 as [ | [k2 v2] r IH ]; intros d H; [ reflexivity | ].
  cbn [fold_left fst snd].
  rewrite (dict_set_same_value _ k2 v2 d) by (apply H; left; reflexivity).
  apply IH. intros k v Hin. apply H. right. exact Hin.
Qed.

Lemma lookup_in_nodup : forall (V : Type) (k : string) (v : V)
                               (d : list (string * V)),
  NoDup (map fst d) -> In (k, v) d -> lookup k d = Some v.
Proof.
  intros V k v d. induction d as [ | [k' v'] r IH ]; cbn [map fst lookup In];
    [ intros _ [] | ].
  intros Hnd Hin. inversion Hnd as [ | ? ? Hk Hnd' ]; subst.
  destruct Hin as [[= -> ->] | Hin].
  - rewrite String.eqb_refl. reflexivity.
  - destruct (String.eqb_spec k' k) as [-> | _]; [ | apply IH; assumption ].
    exfalso. apply Hk. apply in_map_iff. exists (k, v). auto.
Qed.

Lemma dict_update_keys_prefix :
  forall (V : Type) (d2 d1 : list (string * V)),
    exists added, map fst (dict_update d1 d2) = map fst d1 ++ added.
Proof.
  intros V. unfold dict_update.
  induction d2 as [ | [k2 v2] r IH ]; intros d1; cbn [fold_left fst snd].
  - exists []. symmetry. apply app_nil_r.
  - destruct (IH (dict_set k2 v2 d1)) as [added ->].
    destruct (in_dec string_dec k2 (map fst d1)) as [Hin | Hout].
    + rewrite (dict_set_same_keys _ k2 v2 d1 Hin). exists added. reflexivity.
    + rewrite (dict_set_new_key _ k2 v2 d1 Hout), map_app, <- app_assoc.
      eexists. reflexivity.
Qed.

(** X16. [merge_json] on a file that holds a dict, with a dict to merge and
    a save that succeeds: afterwards a key of the new data has the new
    value and every other key the value it had; the keys the file had keep
    their places, new keys follow; and merging the same data once more
    changes nothing. When either side is no dict the file is left as it is,
    and when the file is missing it receives the new data. *)
Theorem merge_json_updates_the_keys :
  forall (save : json -> result unit) (d1 d2 : list (string * json)),
    (forall v, save v = Ok tt) ->
    NoDup (map fst d2) ->
    exists merged,
      FileManager.merge_json save (Some (Ok (JDict d1))) (JDict d2)
      = Ok (Some (JDict merged)) /\
      (forall k, lookup k merged =
                 match lookup k d2 with
                 | Some v => Some v
                 | None => lookup k d1
                 end) /\
      (exists added, map fst merged = map fst d1 ++ added) /\
      FileManager.merge_json save (Some (Ok (JDict merged))) (JDict d2)
      = Ok (Some (JDict merged)) /\
      (forall v, is_list v = true \/ is_str v = true \/ v = JNull ->
                 FileManager.merge_json save (Some (Ok v)) (JDict d2) = Ok None /\
                 FileManager.merge_json save (Some (Ok (JDict d1))) v = Ok None) /\
      FileManager.merge_json save None (JDict d2) = Ok (Some (JDict d2)).
Proof.
  intros save d1 d2 Hsave Hnd. exists (dict_update d1 d2).
  unfold FileManager.merge_json. cbn [bind]. cbv zeta. rewrite !Hsave. cbn [bind].
  split; [ reflexivity | ].
  split; [ intros k; apply lookup_dict_update; exact Hnd | ].
  split; [ apply dict_update_keys_prefix | ].
  split; [ | split; [ | reflexivity ] ].
  - rewrite (dict_update_nothing_new _ d2 (dict_update d1 d2)); [ reflexivity | ].
    intros k v Hin. rewrite (lookup_dict_update _ d2 d1 k Hnd).
    rewrite (lookup_in_nodup _ k v d2 Hnd Hin). reflexivity.
  - intros v Hv. destruct v; split; try reflexivity;
      destruct Hv as [H | [H | H]]; discriminate H.
Qed.

(** ** The conferences of a directory *)

Lemma insert_sorted_perm : forall (x : string) (l : list string),
  Permutation (insert_sorted x l) (x :: l).
Proof.
  intros x l. induction l as [ | y r IH ]; cbn [insert_sorted].
  - apply Permutation_refl.
  - destruct (String.leb x y); [ apply Permutation_refl | ].
    apply perm_trans with (l' := y :: x :: r);
      [ apply perm_skip; exact IH | apply perm_swap ].
Qed.

Lemma sorted_perm : forall l : list string, Permutation (sorted l) l.
Proof.
  unfold sorted. induction l as [ | x r IH ]; cbn [fold_right].
  - apply Permutation_refl.
  - apply perm_trans with (l' := x :: fold_right insert_sorted [] r).
    + apply insert_sorted_perm.
    + apply perm_skip. exact IH.
Qed.

Lemma insert_sorted_ascending : forall (x : string) (l : list string),
  ascending l -> ascending (insert_sorted x l).
Proof.
  intros x l. induction l as [ | y r IH ]; intros H; cbn [insert_sorted].
  - exact I.
  - destruct (String.leb x y) eqn:E.
    + split; [ exact E | exact H ].
    + assert (Hyx : String.leb y x = true).
      { destruct (String.leb_total x y) as [T | T]; [ congruence | exact T ]. }
      destruct r as [ | z t ].
      * cbn [insert_sorted]. split; [ exact Hyx | exact I ].
      * destruct H as [Hyz Hr]. specialize (IH Hr).
        cbn [insert_sorted] in *. destruct (String.leb x z).
        -- split; [ exact Hyx | exact IH ].
        -- split; [ exact Hyz | exact IH ].
Qed.

Lemma sorted_ascending : forall l : list string, ascending (sorted l).
Proof.
  unfold sorted. induction l as [ | x r IH ]; cbn [fold_right].
  - exact I.
  - apply insert_sorted_ascending. exact IH.
Qed.

Lemma add_conferences_spec :
  forall (suffix : string) (globbed acc : list string),
    NoDup acc -> ~ In EmptyString acc ->
    let found :=
      fold_left (fun conferences file_name =>
                   FileManager.add_conference suffix file_name conferences)
                globbed acc in
    NoDup found /\ ~ In EmptyString found /\
    forall c, In c found <->
              In c acc \/
              (c <> EmptyString /\
               exists file_name, In file_name globbed /\
                                 conference_of suffix file_name = c).
Proof.
  intros suffix. induction globbed as [ | f r IH ]; intros acc Hnd He;
    cbn [fold_left]; cbv zeta.
  - split; [ exact Hnd | ]. split; [ exact He | ].
    intros c. split; [ auto | ]. intros [H | (_ & f & [] & _)]. exact H.
  - set (acc' := FileManager.add_conference suffix f acc).
    assert (Hacc' : NoDup acc' /\ ~ In EmptyString acc' /\
                    forall c, In c acc' <->
                              In c acc \/
                              (c <> EmptyString /\ conference_of suffix f = c)).
    { subst acc'. unfold FileManager.add_conference. cbv zeta.
      fold (conference_of suffix f).
      destruct (String.eqb_spec (conference_of suffix f) "") as [E | Hne];
        cbn [negb andb].
      - split; [ exact Hnd | ]. split; [ exact He | ].
        intros c. split; [ auto | ]. intros [H | (Hc & Hf)]; [ exact H | ].
        exfalso. apply Hc. rewrite <- Hf. exact E.
      - destruct (existsb (String.eqb (conference_of suffix f)) acc) eqn:Ex;
          cbn [negb].
        + split; [ exact Hnd | ]. split; [ exact He | ].
          intros c. split; [ auto | ]. intros [H | (_ & <-)]; [ exact H | ].
          apply existsb_exists in Ex. destruct Ex as (y & Hy & Ey).
          apply String.eqb_eq in Ey. rewrite Ey. exact Hy.
        + assert (Hout : ~ In (conference_of suffix f) acc).
          { intros Hin. apply not_true_iff_false in Ex. apply Ex.
            apply existsb_exists. exists (conference_of suffix f).
            split; [ exact Hin | apply String.eqb_refl ]. }
          split; [ | split ].
          * apply NoDup_app; [ exact Hnd | repeat constructor; intros [] | ].
            intros y Hy [Ey | []]. subst y. contradiction.
          * rewrite in_app_iff. cbn [In]. intros [H | [H | []]];
              [ contradiction | ]. apply Hne. exact H.
          * intros c. rewrite in_app_iff. cbn [In]. split.
            -- intros [H | [H | []]]; [ left; exact H | right ].
               split; [ rewrite <- H; exact Hne | exact H ].
            -- intros [H | (_ & H)]; [ left; exact H | right; left; exact H ]. }
    destruct Hacc' as (Hnd' & He' & Hin').
    destruct (IH acc' Hnd' He') as (Hnd'' & He'' & Hin'').
    split; [ exact Hnd'' | ]. split; [ exact He'' | ].
    intros c. rewrite Hin'', Hin'. cbn [In]. split.
    + intros [[H | (Hc & Hf)] | (Hc & f' & Hf' & Ef')]; auto.
      * right. split; [ exact Hc | ]. exists f. auto.
      * right. split; [ exact Hc | ]. exists f'. auto.
    + intros [H | (Hc & f' & [<- | Hf'] & Ef')]; auto.
      right. split; [ exact Hc | ]. exists f'. auto.
Qed.

(** X17. [get_conferences_from_directory] returns the conference names of
    the files in ascending order, each once and none empty: a name is
    returned exactly when it is what is left of the stem of some file after
    the suffix and the markers _extended, _base and _citations are removed,
    and is not empty. A directory that does not exist has no conference. *)
Theorem get_conferences_sorted_and_distinct :
  forall (globbed : list string) (suffix : string),
    let conferences :=
      FileManager.get_conferences_from_directory true globbed suffix in
    ascending conferences /\ NoDup conferences /\
    ~ In EmptyString conferences /\
    (forall c, In c conferences <->
               c <> EmptyString /\
               exists file_name, In file_name globbed /\
                                 conference_of suffix file_name = c) /\
    FileManager.get_conferences_from_directory false globbed suffix = [].
Proof.
  intros globbed suffix. cbv zeta.
  unfold FileManager.get_conferences_from_directory. cbn [negb].
  destruct (add_conferences_spec suffix globbed [] (NoDup_nil _) (fun F => F))
    as (Hnd & He & Hin).
  set (found := fold_left _ globbed []) in *.
  assert (Hp := sorted_perm found).
  split; [ apply sorted_ascending | ].
  split; [ apply (Permutation_NoDup (Permutation_sym Hp) Hnd) | ].
  split; [ intros H; apply He; apply (Permutation_in _ Hp H) | ].
  split; [ | reflexivity ].
  intros c. split.
  - intros H. apply (Permutation_in _ Hp) in H. apply Hin in H.
    destruct H as [[] | H]. exact H.
  - intros H. apply (Permutation_in _ (Permutation_sym Hp)).
    apply Hin. right. exact H.
Qed.

(** ** The continents of a citing paper *)

Lemma add_author_spec :
  forall (pc : pycountry) (author : json) (acc : list string),
    NoDup acc ->
    exists acc',
      CSVGenerator.add_author pc author acc = Ok acc' /\ NoDup acc' /\
      forall c, In c acc' <->
                In c acc \/
                (c <> "" /\
                 exists a insts,
                   author = JDict a /\
                   CSVGenerator.institutions_field author = Ok (JList insts) /\
                   gives_continent pc insts c).
Proof.
  intros pc author acc Hnd.
  assert (Hskip : (forall a insts,
                      author = JDict a ->
                      CSVGenerator.institutions_field author = Ok (JList insts) ->
                      False) ->
                  exists acc',
                    Ok acc = Ok acc' /\ NoDup acc' /\
                    forall c, In c acc' <->
                              In c acc \/
                              (c <> "" /\
                               exists a insts,
                                 author = JDict a /\
                                 CSVGenerator.institutions_field author
                                 = Ok (JList insts) /\
                                 gives_continent pc insts c)).
  { intros Hno. exists acc. split; [ reflexivity | ]. split; [ exact Hnd | ].
    intros c. split; [ auto | ].
    intros [H | (_ & a & insts & Ha & Hi & _)]; [ exact H | ].
    exfalso. apply (Hno a insts Ha Hi). }
  destruct author as [ | | | | | a ]; cbn [CSVGenerator.add_author];
    try (apply Hskip; intros a insts Ha; discriminate Ha).
  destruct (CSVGenerator.institutions_field (JDict a)) as [insts | e] eqn:Hi.
  - cbn [bind]. destruct insts as [ | | | | l | ];
      try (apply Hskip; intros a' insts' _ Hi'; discriminate Hi').
    change (CSVGenerator.add_continent pc) with (ContinentMapper.add_continent pc).
    destruct (add_continents_spec pc l acc Hnd) as (acc' & H & Hnd' & Hin).
    exists acc'. split; [ exact H | ]. split; [ exact Hnd' | ].
    intros c. rewrite Hin. split.
    + intros [Hc | (Hc & Hg)]; [ left; exact Hc | right ].
      split; [ exact Hc | ]. exists a, l. auto.
    + intros [Hc | (Hc & a' & insts' & _ & [= <-] & Hg)]; auto.
  - exfalso. unfold CSVGenerator.institutions_field, get in Hi. cbn [bind] in Hi.
    destruct (truthy _); [ discriminate Hi | ].
    destruct (truthy _); discriminate Hi.
Qed.

Lemma add_authors_spec :
  forall (pc : pycountry) (authors : list json) (acc : list string),
    NoDup acc ->
    exists continents,
      for_each (CSVGenerator.add_author pc) authors acc = Ok continents /\
      NoDup continents /\
      forall c, In c continents <->
                In c acc \/
                (c <> "" /\
                 exists a insts,
                   In (JDict a) authors /\
                   CSVGenerator.institutions_field (JDict a) = Ok (JList insts) /\
                   gives_continent pc insts c).
Proof.
  intros pc. induction authors as [ | author r IH ]; intros acc Hnd;
    cbn [for_each].
  - exists acc. split; [ reflexivity | ]. split; [ exact Hnd | ].
    intros c. split; [ auto | ].
    intros [H | (_ & a & insts & [] & _)]. exact H.
  - destruct (add_author_spec pc author acc Hnd) as (acc' & -> & Hnd' & Hin').
    cbn [bind].
    destruct (IH acc' Hnd') as (continents & H & Hnd'' & Hin'').
    exists continents. split; [ exact H | ]. split; [ exact Hnd'' | ].
    intros c. rewrite Hin'', Hin'. cbn [In]. split.
    + intros [[Hc | (Hc & a & insts & -> & Hi & Hg)]
             | (Hc & a & insts & Ha & Hi & Hg)]; auto.
      * right. split; [ exact Hc | ]. exists a, insts. auto.
      * right. split; [ exact Hc | ]. exists a, insts. auto.
    + intros [Hc | (Hc & a & insts & [-> | Ha] & Hi & Hg)]; auto.
      * left. right. split; [ exact Hc | ]. exists a, insts. auto.
      * right. split; [ exact Hc | ]. exists a, insts. auto.
Qed.

Lemma extract_from_citation_spec :
  forall (pc : pycountry) (d : list (string * json)),
    exists continents,
      CSVGenerator._extract_continents_from_citation pc (JDict d)
      = Ok continents /\
      NoDup continents /\
      forall c, In c continents <-> c <> "" /\ citation_gives pc (JDict d) c.
Proof.
  intros pc d. unfold CSVGenerator._extract_continents_from_citation, citation_gives.
  unfold get_default. cbn [bind].
  destruct (match lookup "Authors" d with
            | Some x => x
            | None => JList []
            end) as [ | | | | authors | ];
    try (exists []; split; [ reflexivity | ]; split; [ constructor | ];
         intros c; split; [ intros [] | ];
         intros (_ & authors & a & insts & Hd & _); discriminate Hd).
  destruct (add_authors_spec pc authors [] (NoDup_nil _))
    as (continents & H & Hnd & Hin).
  exists continents. split; [ exact H | ]. split; [ exact Hnd | ].
  intros c. rewrite Hin. cbn [In]. split.
  - intros [[] | (Hc & a & insts & Ha & Hi & Hg)].
    split; [ exact Hc | ]. exists authors, a, insts. auto.
  - intros (Hc & authors' & a & insts & [= <-] & Ha & Hi & Hg).
    right. split; [ exact Hc | ]. exists a, insts. auto.
Qed.

(** X18. On a citation that is a dict [_extract_continents_from_citation]
    never raises, whatever the record holds and whatever [pycountry_convert]
    does. It returns, each once, the non-empty continents that the
    institution records of its author records resolve to, and nothing else;
    the institutions of an author are read from Institutions, or from
    Affiliations when Institutions is missing or empty, and authors or
    institution lists of another type are passed over. *)
Theorem citation_continents_sound_and_complete :
  forall (pc : pycountry) (d : list (string * json)),
    exists continents,
      CSVGenerator._extract_continents_from_citation pc (JDict d)
      = Ok continents /\
      NoDup continents /\
      forall c, In c continents <-> c <> "" /\ citation_gives pc (JDict d) c.
Proof. exact extract_from_citation_spec. Qed.

(** ** The counts of citing papers *)

Lemma count_occ_NoDup : forall (l : list string) (c : string),
  NoDup l ->
  count_occ string_dec l c = if existsb (String.eqb c) l then 1 else 0.
Proof.
  intros l c H. induction H as [ | x r Hx _ IH ]; cbn [count_occ existsb];
    [ reflexivity | ].
  destruct (string_dec x c) as [-> | Hne].
  - rewrite String.eqb_refl. cbn [orb].
    rewrite (proj1 (count_occ_not_In string_dec r c) Hx). reflexivity.
  - rewrite (proj2 (String.eqb_neq c x)) by (intros E; apply Hne; symmetry; exact E).
    cbn [orb]. exact IH.
Qed.

Lemma existsb_perm_eqb : forall (c : string) (l l' : list string),
  Permutation l l' ->
  existsb (String.eqb c) l = existsb (String.eqb c) l'.
Proof.
  intros c l l' H. induction H; cbn [existsb].
  - reflexivity.
  - rewrite IHPermutation. reflexivity.
  - destruct (c =? y), (c =? x); reflexivity.
  - congruence.
Qed.

Section CitationCounts.

Variable pc : pycountry.
Variable continent_order : list string -> list string.
Hypothesis order_permutes : forall l, Permutation (continent_order l) l.

Lemma count_citation_spec :
  forall (citation : json) (votes : list string) (seen : list json),
    (forall c, votes_for votes c = List.length (filter (cites_from pc c) seen)) ->
    exists votes',
      CSVGenerator.count_citation pc continent_order citation
        (map (bucket votes) (distinct votes))
      = Ok (map (bucket votes') (distinct votes')) /\
      forall c, votes_for votes' c
                = List.length (filter (cites_from pc c) (seen ++ [citation])).
Proof.
  intros citation votes seen Hinv.
  assert (Hskip : (forall c, cites_from pc c citation = false) ->
                  exists votes',
                    Ok (map (bucket votes) (distinct votes))
                    = Ok (map (bucket votes') (distinct votes')) /\
                    forall c, votes_for votes' c
                              = List.length (filter (cites_from pc c)
                                                    (seen ++ [citation]))).
  { intros Hno. exists votes. split; [ reflexivity | ].
    intros c. rewrite filter_app, length_app. cbn [filter]. rewrite (Hno c).
    cbn [List.length]. rewrite Hinv. lia. }
  destruct citation as [ | | | | | d ]; cbn [CSVGenerator.count_citation];
    try (apply Hskip; intros c; reflexivity).
  destruct (extract_from_citation_spec pc d) as (continents & He & Hnd & _).
  rewrite He. cbn [bind].
  exists (votes ++ continent_order continents). split.
  - fold (tally_votes (continent_order continents)
                      (map (bucket votes) (distinct votes))).
    rewrite tally_votes_buckets. reflexivity.
  - intros c. rewrite filter_app, length_app. cbn [filter].
    unfold cites_from at 2. rewrite He.
    unfold votes_for in *. rewrite count_occ_app, Hinv.
    rewrite (count_occ_NoDup (continent_order continents) c)
      by (apply (Permutation_NoDup (Permutation_sym (order_permutes continents)));
          exact Hnd).
    rewrite (existsb_perm_eqb c _ _ (order_permutes continents)).
    destruct (existsb (String.eqb c) continents); reflexivity.
Qed.

Lemma count_citations_spec :
  forall (l : list json) (votes : list string) (seen : list json),
    (forall c, votes_for votes c = List.length (filter (cites_from pc c) seen)) ->
    exists votes',
      for_each (CSVGenerator.count_citation pc continent_order) l
        (map (bucket votes) (distinct votes))
      = Ok (map (bucket votes') (distinct votes')) /\
      forall c, votes_for votes' c
                = List.length (filter (cites_from pc c) (seen ++ l)).
Proof.
  induction l as [ | citation r IH ]; intros votes seen Hinv; cbn [for_each].
  - exists votes. rewrite app_nil_r. split; [ reflexivity | exact Hinv ].
  - destruct (count_citation_spec citation votes seen Hinv) as (votes1 & -> & H1).
    cbn [bind]. destruct (IH votes1 (seen ++ [citation]) H1) as (votes2 & H & H2).
    exists votes2. split; [ exact H | ].
    intros c. rewrite H2, <- app_assoc. reflexivity.
Qed.

Lemma count_citing_lists_spec :
  forall (items : list (string * json)) (votes : list string) (seen : list json),
    (forall c, votes_for votes c = List.length (filter (cites_from pc c) seen)) ->
    exists votes',
      for_each (CSVGenerator.count_citing_list pc continent_order) items
        (map (bucket votes) (distinct votes))
      = Ok (map (bucket votes') (distinct votes')) /\
      forall c, votes_for votes' c
                = List.length (filter (cites_from pc c)
                                      (seen ++ citing_papers items)).
Proof.
  induction items as [ | [k v] r IH ]; intros votes seen Hinv;
    cbn [for_each citing_papers flat_map].
  - exists votes. rewrite app_nil_r. split; [ reflexivity | exact Hinv ].
  - fold (citing_papers r). unfold CSVGenerator.count_citing_list at 1.
    cbn [snd].
    destruct v as [ | | | | l | ];
      try (cbn [bind app]; apply IH; exact Hinv).
    destruct (count_citations_spec l votes seen Hinv) as (votes1 & -> & H1).
    cbn [bind]. destruct (IH votes1 (seen ++ l) H1) as (votes2 & H & H2).
    exists votes2. split; [ exact H | ].
    intros c. rewrite H2, <- app_assoc. reflexivity.
Qed.

(** X19. The counts of the citations CSV, for the data of one conference:
    counting never raises, a continent has one count, and its count is the
    number of citing papers from which that continent is extracted: at
    least one, and a citing paper with authors on several continents is
    counted once under each of them. A continent no citing paper gives has
    no count. Members that are no dict and values that are no list are
    passed over. *)
Theorem citation_counts_count_citing_papers :
  forall items : list (string * json),
    exists counts,
      CSVGenerator.count_continents pc continent_order (JDict items) = Ok counts /\
      NoDup (map fst counts) /\
      forall c,
        match lookup c counts with
        | Some n =>
            0 < n /\
            n = List.length (filter (cites_from pc c) (citing_papers items))
        | None =>
            List.length (filter (cites_from pc c) (citing_papers items)) = 0
        end.
Proof.
  intros items. unfold CSVGenerator.count_continents.
  destruct (count_citing_lists_spec items [] [] (fun c => eq_refl))
    as (votes & H & Hv).
  cbn [map distinct app] in H, Hv.
  exists (map (bucket votes) (distinct votes)). split; [ exact H | ]. split.
  - rewrite map_map. cbn [bucket fst]. rewrite map_id. apply distinct_NoDup.
  - intros c. unfold bucket.
    rewrite (lookup_buckets (votes_for votes) (distinct votes) c).
    destruct (in_dec string_dec c (distinct votes)) as [Hin | Hout].
    + split; [ | apply Hv ].
      apply (proj1 (distinct_in votes c)) in Hin.
      apply (proj1 (count_occ_In string_dec votes c)) in Hin. exact Hin.
    + rewrite <- Hv. apply votes_for_absent.
      intros Hin. apply Hout. apply (proj2 (distinct_in votes c)). exact Hin.
Qed.

End CitationCounts.

(** ** The papers CSV *)

Lemma add_files_raise :
  forall (fs : CSVGenerator.papers_files) (stems : list string)
         (file_stem : string) (e : exn) (acc : list CSVGenerator.paper_row),
    In file_stem stems ->
    String.prefix "socc_" file_stem = false ->
    CSVGenerator.load_json fs file_stem = Raise e ->
    exists e', for_each (CSVGenerator.add_file fs) stems acc = Raise e'.
Proof.
  intros fs. induction stems as [ | s r IH ]; intros file_stem e acc Hin Hp Hl;
    [ destruct Hin | ].
  cbn [for_each].
  destruct (CSVGenerator.add_file fs s acc) as [acc' | e'] eqn:Ha; cbn [bind];
    [ | exists e'; reflexivity ].
  destruct Hin as [-> | Hin]; [ | apply (IH file_stem e acc' Hin Hp Hl) ].
  exfalso. unfold CSVGenerator.add_file in Ha. rewrite Hp, Hl in Ha.
  discriminate Ha.
Qed.

(** X20. [generate_papers_csv] fails as a whole. Without the directory it
    fails with a message. One file that cannot be loaded, other than the
    skipped socc_ files, makes the generation fail before the CSV file is
    touched, whatever the other files hold. A failure while the rows are
    written also makes it fail, with no row counted, although the file has
    been emptied by then and may hold a part of the rows. A success counts
    the rows it wrote, and leaves the file as it was when there is no
    row. *)
Theorem generate_papers_csv_fails_as_a_whole :
  forall fs : CSVGenerator.papers_files,
    (CSVGenerator.processed_exists fs = false ->
     CSVGenerator.generate_papers_csv fs =
     (CSVGenerator.Build_CSVGenerationResult 0 false
        (Some (CSVGenerator.Message "ProcessedData directory not found")),
      FileManager.Untouched)) /\
    (CSVGenerator.processed_exists fs = true ->
     (forall file_stem e,
         In file_stem (CSVGenerator.data_stems fs) ->
         String.prefix "socc_" file_stem = false ->
         CSVGenerator.load_json fs file_stem = Raise e ->
         exists e',
           CSVGenerator.generate_papers_csv fs
           = failed_with e' FileManager.Untouched) /\
     (forall all_rows e,
         for_each (CSVGenerator.add_file fs) (CSVGenerator.data_stems fs) []
         = Ok all_rows ->
         all_rows <> [] ->
         FileManager.make_parent (CSVGenerator.papers_csv fs) = Ok tt ->
         FileManager.open_for_writing (CSVGenerator.papers_csv fs) = Ok tt ->
         FileManager.write_rows (CSVGenerator.papers_csv fs) all_rows = Raise e ->
         CSVGenerator.generate_papers_csv fs
         = failed_with e FileManager.Truncated) /\
     (forall r content,
         CSVGenerator.generate_papers_csv fs = (r, content) ->
         (CSVGenerator.success r = true ->
          match content with
          | FileManager.Written rows =>
              rows <> [] /\ CSVGenerator.row_count r = List.length rows
          | FileManager.Untouched => CSVGenerator.row_count r = 0
          | FileManager.Truncated => False
          end) /\
         (CSVGenerator.success r = false ->
          CSVGenerator.row_count r = 0 /\
          (content = FileManager.Untouched \/ content = FileManager.Truncated)))).
Proof.
  intros fs. unfold CSVGenerator.generate_papers_csv. split.
  - intros ->. reflexivity.
  - intros ->. cbn [negb]. split; [ | split ].
    + intros file_stem e Hin Hp Hl.
      destruct (add_files_raise fs _ file_stem e [] Hin Hp Hl) as [e' ->].
      exists e'. reflexivity.
    + intros all_rows e -> Hne Hm Ho Hw.
      destruct all_rows as [ | row rest ]; [ exfalso; apply Hne; reflexivity | ].
      unfold FileManager.save_csv. rewrite Hm, Ho, Hw. reflexivity.
    + intros r content.
      destruct (for_each _ _ _) as [all_rows | e];
        [ | intros [= <- <-]; split; [ intros Hs; discriminate Hs | auto ] ].
      unfold FileManager.save_csv.
      destruct (FileManager.make_parent _) as [[] | e];
        [ | intros [= <- <-]; split; [ intros Hs; discriminate Hs | auto ] ].
      destruct all_rows as [ | row rest ];
        [ intros [= <- <-]; split; [ reflexivity | intros Hs; discriminate Hs ] | ].
      destruct (FileManager.open_for_writing _) as [[] | e];
        [ | intros [= <- <-]; split; [ intros Hs; discriminate Hs | auto ] ].
      destruct (FileManager.write_rows _ _) as [[] | e];
        intros [= <- <-]; split;
          try (intros Hs; discriminate Hs); auto.
      intros _. split; [ discriminate | reflexivity ].
Qed.

(** ** The papers CSV of processed data *)

Section PapersOfProcessedData.

Variable pc : pycountry.
Variable set_order : list json -> list json.

Lemma add_processed_paper :
  forall (paper : json) (year name y : string) (processed : json)
         (stats : DataReducer.ProcessingStats)
         (rows0 : list CSVGenerator.paper_row),
    DataReducer.process_paper pc set_order paper year = Ok (processed, stats) ->
    exists row,
      CSVGenerator.add_paper name y processed rows0 = Ok (rows0 ++ [row]) /\
      CSVGenerator.Conference row = name /\
      CSVGenerator.Year row = y /\
      (if with_continent row then 1 else 0)
      = DataReducer.papers_with_continent stats /\
      DataReducer.total_papers stats = 1.
Proof.
  intros paper year name y processed stats rows0 H.
  unfold DataReducer.process_paper in H.
  destruct paper; try discriminate H.
  unfold get_default in H. cbn [bind] in H.
  destruct (DataReducer.predominant_of pc set_order _)
    as [[[pred insufficient] unknown] | e]; cbn [bind] in H;
    [ | discriminate H ].
  injection H as <- <-.
  unfold CSVGenerator.add_paper, get_default. cbn [lookup].
  rewrite (proj2 (String.eqb_neq "Title" "Predominant Continent"))
    by discriminate.
  rewrite (proj2 (String.eqb_neq "Year" "Predominant Continent"))
    by discriminate.
  rewrite !String.eqb_refl. cbn [bind].
  destruct pred as [ | c rest ]; cbn [map first_or truthy negb bind];
    eexists; (split; [ reflexivity | ]); repeat split.
Qed.

Lemma add_processed_papers :
  forall (year name y : string) (papers acc year_papers : list json)
         (st0 st1 : DataReducer.ProcessingStats),
    for_each (DataReducer.process_next pc set_order year) papers (acc, st0)
    = Ok (year_papers, st1) ->
    exists processed,
      year_papers = acc ++ processed /\
      forall rows0,
      exists rows,
        for_each (CSVGenerator.add_paper name y) processed rows0
        = Ok (rows0 ++ rows) /\
        Forall (fun r => CSVGenerator.Conference r = name /\
                         CSVGenerator.Year r = y) rows /\
        DataReducer.total_papers st1
        = DataReducer.total_papers st0 + List.length rows /\
        DataReducer.papers_with_continent st1
        = DataReducer.papers_with_continent st0
          + List.length (filter with_continent rows).
Proof.
  intros year name y. induction papers as [ | paper r IH ];
    intros acc year_papers st0 st1; cbn [for_each].
  - intros [= <- <-]. exists []. rewrite app_nil_r. split; [ reflexivity | ].
    intros rows0. exists []. rewrite app_nil_r. cbn [for_each filter List.length].
    repeat split; try constructor; lia.
  - unfold DataReducer.process_next at 1. cbn [fst snd].
    destruct (DataReducer.process_paper pc set_order paper year)
      as [[processed_paper paper_stats] | e] eqn:Hp; cbn [bind];
      [ | discriminate ].
    intros Hr.
    destruct (IH _ _ _ _ Hr) as (processed & -> & Hrows).
    exists (processed_paper :: processed). rewrite <- app_assoc.
    split; [ reflexivity | ].
    intros rows0.
    destruct (add_processed_paper paper year name y processed_paper paper_stats
                rows0 Hp) as (row & Ha & Hc & Hy & Hw & Ht).
    destruct (Hrows (rows0 ++ [row])) as (rows & Hf & Hall & Ht' & Hw').
    exists (row :: rows). cbn [for_each]. rewrite Ha. cbn [bind].
    rewrite Hf, <- app_assoc. split; [ reflexivity | ].
    split; [ constructor; [ split; assumption | exact Hall ] | ].
    cbn [DataReducer.accumulate DataReducer.total_papers
         DataReducer.papers_with_continent List.length filter] in *.
    destruct (with_continent row); cbn [List.length]; lia.
Qed.

Lemma add_processed_years :
  forall (name : string) (items : list (string * json))
         (acc data : list (string * json))
         (st0 st1 : DataReducer.ProcessingStats),
    for_each (DataReducer.process_year pc set_order) items (acc, st0)
    = Ok (data, st1) ->
    NoDup (map fst items) ->
    (forall k, In k (map fst items) -> ~ In k (map fst acc)) ->
    exists entries,
      data = acc ++ entries /\
      forall rows0,
      exists rows,
        for_each (CSVGenerator.add_year name) entries rows0
        = Ok (rows0 ++ rows) /\
        Forall (fun r => CSVGenerator.Conference r = name /\
                         In (CSVGenerator.Year r) (map fst items)) rows /\
        DataReducer.total_papers st1
        = DataReducer.total_papers st0 + List.length rows /\
        DataReducer.papers_with_continent st1
        = DataReducer.papers_with_continent st0
          + List.length (filter with_continent rows).
Proof.
  intros name. induction items as [ | [k v] r IH ]; intros acc data st0 st1;
    cbn [for_each].
  - intros [= <- <-] _ _. exists []. rewrite app_nil_r. split; [ reflexivity | ].
    intros rows0. exists []. rewrite app_nil_r. cbn [for_each filter List.length].
    repeat split; try constructor; lia.
  - unfold DataReducer.process_year at 1. cbn [fst snd].
    destruct (py_iter v) as [papers | e]; cbn [bind]; [ | discriminate ].
    destruct (for_each (DataReducer.process_next pc set_order k) papers ([], st0))
      as [[year_papers total_stats] | e] eqn:Hy; cbn [bind]; [ | discriminate ].
    destruct (py_len v) as [year_total | e]; cbn [bind]; [ | discriminate ].
    intros Hr Hnd Hfresh. cbn [map fst] in Hnd, Hfresh.
    inversion Hnd as [ | ? ? Hk Hnd' ]; subst.
    rewrite (dict_set_new_key _ k (JList year_papers) acc) in Hr
      by (apply Hfresh; left; reflexivity).
    destruct (add_processed_papers k name k papers [] year_papers st0
                total_stats Hy) as (processed & -> & Hrows).
    cbn [app] in Hr.
    destruct (IH _ _ _ _ Hr Hnd') as (entries & -> & Hrows').
    + intros k' Hk' Hin. rewrite map_app, in_app_iff in Hin. cbn [map fst In] in Hin.
      destruct Hin as [Hin | [<- | []]].
      * apply (Hfresh k'); [ right; exact Hk' | exact Hin ].
      * contradiction.
    + exists ((k, JList processed) :: entries). rewrite <- app_assoc.
      split; [ reflexivity | ].
      intros rows0.
      destruct (Hrows rows0) as (rows1 & Hf1 & Hall1 & Ht1 & Hw1).
      destruct (Hrows' (rows0 ++ rows1)) as (rows2 & Hf2 & Hall2 & Ht2 & Hw2).
      exists (rows1 ++ rows2). cbn [for_each].
      unfold CSVGenerator.add_year at 1. cbn [fst snd py_iter bind].
      rewrite Hf1. cbn [bind]. rewrite Hf2, <- app_assoc.
      split; [ reflexivity | ]. split.
      * apply Forall_app. split.
        -- apply (Forall_impl _ (P := fun r => CSVGenerator.Conference r = name /\
                                              CSVGenerator.Year r = k));
             [ | exact Hall1 ].
           intros row [Hc Hy']. split; [ exact Hc | ]. cbn [map fst In].
           left. symmetry. exact Hy'.
        -- apply (Forall_impl _ (P := fun row =>
                                        CSVGenerator.Conference row = name /\
                                        In (CSVGenerator.Year row) (map fst r)));
             [ | exact Hall2 ].
           intros row [Hc Hy']. split; [ exact Hc | ]. cbn [map fst In].
           right. exact Hy'.
      * rewrite filter_app, !length_app. lia.
Qed.

(** X21. The papers CSV of processed data. For the data [process_conference]
    returns, the rows of [generate_papers_csv] are added without an
    exception: one row for each paper counted in the statistics, under the
    given conference and a year of the data, and the rows that have a
    continent are as many as the papers with a continent of the
    statistics. *)
Theorem papers_csv_of_processed_data :
  forall (conference name : string) (items data : list (string * json))
         (stats : DataReducer.ProcessingStats)
         (all_rows : list CSVGenerator.paper_row),
    NoDup (map fst items) ->
    DataReducer.process_conference pc set_order conference (JDict items)
    = Ok (data, stats) ->
    exists rows,
      CSVGenerator.add_data name (JDict data) all_rows = Ok (all_rows ++ rows) /\
      List.length rows = DataReducer.total_papers stats /\
      List.length (filter with_continent rows)
      = DataReducer.papers_with_continent stats /\
      Forall (fun r => CSVGenerator.Conference r = name /\
                       In (CSVGenerator.Year r) (map fst items)) rows.
Proof.
  intros conference name items data stats all_rows Hnd H.
  unfold DataReducer.process_conference in H.
  destruct (add_processed_years name items [] data DataReducer.no_stats stats H
              Hnd (fun _ _ F => F)) as (entries & -> & Hrows).
  destruct (Hrows all_rows) as (rows & Hf & Hall & Ht & Hw).
  cbn [app DataReducer.no_stats DataReducer.total_papers
       DataReducer.papers_with_continent] in *.
  exists rows. cbn [CSVGenerator.add_data].
  split; [ exact Hf | ]. split; [ lia | ]. split; [ lia | exact Hall ].
Qed.

End PapersOfProcessedData.

(** ** The table by continent of processed data *)

Lemma lookup_of_key : forall (V : Type) (k : string) (d : list (string * V)),
  In k (map fst d) -> exists v, lookup k d = Some v.
Proof.
  intros V k d. induction d as [ | [k' v'] r IH ]; cbn [map fst In lookup];
    [ intros [] | ].
  intros [-> | H].
  - rewrite String.eqb_refl. eexists. reflexivity.
  - destruct (k' =? k); [ eexists; reflexivity | apply IH; exact H ].
Qed.

(** X22. The table by continent counts a paper of the processed data
    without an exception whenever the names of the paper can be read: a
    paper that [process_paper] gave no continent is passed over, the buckets
    unchanged, and a paper with a continent is counted at most once, in one
    of the four buckets, whose order it keeps. *)
Theorem by_continent_counts_papers_with_a_continent :
  forall (pc : pycountry) (set_order : list json -> list json)
         (paper : json) (year : string) (processed : json)
         (stats : DataReducer.ProcessingStats)
         (names : list (option string))
         (continent_stats : list (string * continent_bucket)),
    DataReducer.process_paper pc set_order paper year = Ok (processed, stats) ->
    extract_institutions paper = Ok names ->
    map fst continent_stats = ["NA"; "EU"; "AS"; "Other"] ->
    exists counted_stats,
      count_paper processed continent_stats = Ok counted_stats /\
      map fst counted_stats = map fst continent_stats /\
      counted counted_stats
      <= counted continent_stats + DataReducer.papers_with_continent stats /\
      (DataReducer.papers_with_continent stats = 0 ->
       counted_stats = continent_stats).
Proof.
  intros pc set_order paper year processed stats names continent_stats H Hn Hk.
  assert (Hnames := proj1 (process_paper_spec pc set_order paper year processed
                             stats H)).
  assert (Hrun : exists counted_stats,
             count_paper processed continent_stats = Ok counted_stats /\
             (DataReducer.papers_with_continent stats = 0 ->
              counted_stats = continent_stats) /\
             (counted_stats = continent_stats \/
              DataReducer.papers_with_continent stats = 1)).
  { unfold count_paper. rewrite Hnames, Hn. clear Hnames Hn.
    unfold DataReducer.process_paper in H.
    destruct paper; try discriminate H.
    unfold get_default in H. cbn [bind] in H.
    destruct (DataReducer.predominant_of pc set_order _)
      as [[[pred insufficient] unknown] | e]; cbn [bind] in H;
      [ | discriminate H ].
    injection H as <- <-.
    unfold get_default. cbn [lookup].
    rewrite (proj2 (String.eqb_neq "Title" "Predominant Continent"))
      by discriminate.
    rewrite (proj2 (String.eqb_neq "Year" "Predominant Continent"))
      by discriminate.
    rewrite String.eqb_refl. cbn [bind DataReducer.papers_with_continent].
    destruct pred as [ | c rest ]; cbn [map py_eqb truthy negb orb];
      [ exists continent_stats; auto | ].
    cbv zeta.
    destruct (c =? "Unknown"); [ exists continent_stats; auto | ].
    assert (Hin : In (if existsb (String.eqb (upper c)) (map fst continent_stats)
                      then upper c else "Other") (map fst continent_stats)).
    { destruct (existsb _ _) eqn:E.
      - apply existsb_exists in E. destruct E as (k & Hin & Ek).
        apply String.eqb_eq in Ek. rewrite Ek. exact Hin.
      - rewrite Hk. cbn [In]. auto. }
    destruct (lookup_of_key _ _ continent_stats Hin) as [b ->].
    eexists. split; [ reflexivity | ]. split; [ intros F; discriminate F | ].
    right. reflexivity. }
  destruct Hrun as (counted_stats & Hc & Hzero & Hone).
  exists counted_stats. split; [ exact Hc | ].
  destruct (count_paper_step processed continent_stats counted_stats Hc)
    as (Hkeys & _ & Hcount).
  split; [ exact Hkeys | ]. split; [ | exact Hzero ].
  destruct Hone as [-> | ->]; lia.
Qed.

(** ** Data reduction, conference by conference *)

Lemma conferences_NoDup :
  forall (is_dir : bool) (globbed : list string) (suffix : string),
    NoDup (FileManager.get_conferences_from_directory is_dir globbed suffix).
Proof.
  intros is_dir globbed suffix.
  unfold FileManager.get_conferences_from_directory.
  destruct is_dir; cbn [negb]; [ | constructor ].
  destruct (add_conferences_spec suffix globbed [] (NoDup_nil _) (fun F => F))
    as (Hnd & _).
  apply (Permutation_NoDup (Permutation_sym (sorted_perm _)) Hnd).
Qed.

Section AllConferences.

Variable pc : pycountry.
Variable set_order : list json -> list json.
Variable fs : DataReducer.extended_files.

Lemma conference_stats_keys : forall (cs : list string) (c : string),
  In c (map fst (flat_map (conference_stats pc set_order fs) cs)) -> In c cs.
Proof.
  induction cs as [ | c0 r IH ]; intros c; cbn [flat_map]; [ intros [] | ].
  rewrite map_app, in_app_iff. intros [H | H]; [ left | right; apply IH; exact H ].
  unfold conference_stats in H.
  destruct (DataReducer.process_and_save pc set_order fs c0) as [[d s] | e];
    cbn [map fst In] in H; [ | destruct H ].
  destruct H as [H | []]. exact H.
Qed.

Lemma conference_stats_NoDup : forall cs : list string,
  NoDup cs -> NoDup (map fst (flat_map (conference_stats pc set_order fs) cs)).
Proof.
  induction cs as [ | c r IH ]; intros Hnd; cbn [flat_map]; [ constructor | ].
  inversion Hnd as [ | ? ? Hc Hr ]; subst. rewrite map_app.
  unfold conference_stats at 1.
  destruct (DataReducer.process_and_save pc set_order fs c) as [[d s] | e];
    cbn [map fst app]; [ | apply IH; exact Hr ].
  constructor; [ | apply IH; exact Hr ].
  intros Hin. apply Hc. apply conference_stats_keys. exact Hin.
Qed.

Lemma process_each_conference :
  forall (cs : list string) (all_stats : list (string * DataReducer.ProcessingStats))
         (saved : list (string * json)),
    NoDup cs ->
    (forall c, In c cs -> ~ In c (map fst all_stats)) ->
    fold_left (DataReducer.process_one pc set_order fs) cs (all_stats, saved) =
    (all_stats ++ flat_map (conference_stats pc set_order fs) cs,
     saved ++ flat_map (conference_file pc set_order fs) cs).
Proof.
  induction cs as [ | c r IH ]; intros all_stats saved Hnd Hfresh;
    cbn [fold_left flat_map].
  - rewrite !app_nil_r. reflexivity.
  - inversion Hnd as [ | ? ? Hc Hr ]; subst.
    unfold DataReducer.process_one at 2, conference_stats at 1, conference_file at 1.
    destruct (DataReducer.process_and_save pc set_order fs c) as [[d s] | e];
      cbn [fst snd app].
    + rewrite (dict_set_new_key _ c s all_stats)
        by (apply Hfresh; left; reflexivity).
      rewrite IH; [ rewrite <- !app_assoc; reflexivity | exact Hr | ].
      intros c' Hc' Hin. rewrite map_app, in_app_iff in Hin. cbn [map fst In] in Hin.
      destruct Hin as [Hin | [<- | []]].
      * apply (Hfresh c'); [ right; exact Hc' | exact Hin ].
      * contradiction.
    + apply IH; [ exact Hr | ].
      intros c' Hc'. apply Hfresh. right. exact Hc'.
Qed.

(** X23. [process_all_conferences] raises FileNotFoundError when the
    directory is missing, and the exception of making the output directory
    when that fails, which happens outside the [try]. With the directory
    present and the output directory made, it returns whatever the files
    hold: its statistics and the files it saves are, in the order of the
    conferences of the directory, those of each conference by itself. A
    conference whose file cannot be loaded, processed or saved has no entry
    and takes none away from the others. Every conference has at most one
    entry, and an entry means that its file was loaded, processed into
    these statistics, and saved. *)
Theorem process_all_conferences_conference_by_conference :
  (DataReducer.extended_exists fs = false ->
   DataReducer.process_all_conferences pc set_order fs = Raise FileNotFoundError) /\
  (DataReducer.extended_exists fs = true ->
   forall e, DataReducer.make_output_dir fs = Raise e ->
             DataReducer.process_all_conferences pc set_order fs = Raise e) /\
  (DataReducer.extended_exists fs = true ->
   DataReducer.make_output_dir fs = Ok tt ->
   let conferences :=
     FileManager.get_conferences_from_directory
       (DataReducer.extended_is_dir fs) (DataReducer.globbed fs)
       "_extended_data.json" in
   let all_stats := flat_map (conference_stats pc set_order fs) conferences in
   DataReducer.process_all_conferences pc set_order fs =
   Ok (all_stats, flat_map (conference_file pc set_order fs) conferences) /\
   NoDup (map fst all_stats) /\
   forall conference stats,
     In (conference, stats) all_stats ->
     In conference conferences /\
     exists extended_data processed_data,
       DataReducer.load_json fs conference = Ok extended_data /\
       DataReducer.process_conference pc set_order conference extended_data
       = Ok (processed_data, stats) /\
       DataReducer.save_json fs conference (JDict processed_data) = Ok tt).
Proof.
  unfold DataReducer.process_all_conferences. split; [ | split ].
  - intros ->. reflexivity.
  - intros -> e ->. reflexivity.
  - intros -> ->. cbn [negb bind]. cbv zeta.
    set (conferences := FileManager.get_conferences_from_directory _ _ _).
    assert (Hnd : NoDup conferences) by apply conferences_NoDup.
    split; [ | split ].
    + destruct conferences as [ | c r ] eqn:E; [ reflexivity | ].
      rewrite (process_each_conference (c :: r) [] [] Hnd (fun _ _ F => F)).
      reflexivity.
    + apply conference_stats_NoDup. exact Hnd.
    + intros conference stats Hin. apply in_flat_map in Hin.
      destruct Hin as (c & Hc & Hin). unfold conference_stats in Hin.
      destruct (DataReducer.process_and_save pc set_order fs c)
        as [[d s] | e] eqn:Hp; [ | destruct Hin ].
      destruct Hin as [[= <- <-] | []]. split; [ exact Hc | ].
      unfold DataReducer.process_and_save in Hp.
      destruct (DataReducer.load_json fs c) as [extended_data | e];
        cbn [bind] in Hp; [ | discriminate Hp ].
      destruct (DataReducer.process_conference pc set_order c extended_data)
        as [[processed_data stats] | e] eqn:Hpc; cbn [bind] in Hp;
        [ | discriminate Hp ].
      destruct (DataReducer.save_json fs c (JDict processed_data)) as [[] | e]
        eqn:Hsave; cbn [bind] in Hp; [ | discriminate Hp ].
      injection Hp as Hd Hs. subst. exists extended_data, d.
      split; [ reflexivity | split; assumption ].
Qed.

End AllConferences.

(** ** The citations CSV *)

Section CitationsCSV.

Variable pc : pycountry.
Variable continent_order : list string -> list string.
Hypothesis order_permutes : forall l, Permutation (continent_order l) l.

Lemma count_continents_ok : forall data : json,
  exists counts,
    CSVGenerator.count_continents pc continent_order data = Ok counts /\
    Forall (fun kv => 0 < snd kv) counts.
Proof.
  intros data. destruct data as [ | | | | | items ];
    try (exists []; split; [ reflexivity | constructor ]).
  unfold CSVGenerator.count_continents.
  destruct (count_citing_lists_spec pc continent_order order_permutes items [] []
              (fun c => eq_refl)) as (votes & H & _).
  cbn [map distinct] in H. rewrite H.
  exists (map (bucket votes) (distinct votes)). split; [ reflexivity | ].
  apply Forall_forall. intros kv Hin. apply in_map_iff in Hin.
  destruct Hin as (c & <- & Hc). cbn [bucket snd].
  apply (proj1 (distinct_in votes c)) in Hc.
  apply (proj1 (count_occ_In string_dec votes c)) in Hc. exact Hc.
Qed.

Lemma add_conference_rows_appends :
  forall (fs : CSVGenerator.citations_files) (conference : string)
         (all_rows : list CSVGenerator.citation_row),
    CSVGenerator.add_conference_rows pc continent_order fs conference all_rows
    = Ok (all_rows ++ conference_citation_rows pc continent_order fs conference).
Proof.
  intros fs conference all_rows.
  unfold conference_citation_rows, CSVGenerator.add_conference_rows. cbv zeta.
  destruct (negb _); [ rewrite app_nil_r; reflexivity | ].
  destruct (if CSVGenerator.primary_exists fs conference
            then CSVGenerator.load_primary fs conference
            else CSVGenerator.load_fallback fs conference) as [data | e];
    [ | rewrite app_nil_r; reflexivity ].
  destruct (negb (truthy data)); [ rewrite app_nil_r; reflexivity | ].
  destruct (count_continents_ok data) as (counts & -> & _). reflexivity.
Qed.

Lemma conference_citation_rows_spec :
  forall (fs : CSVGenerator.citations_files) (conference : string),
    match citation_file fs conference with
    | None => conference_citation_rows pc continent_order fs conference = []
    | Some (Raise _) =>
        conference_citation_rows pc continent_order fs conference = []
    | Some (Ok data) =>
        if truthy data then
          exists counts,
            CSVGenerator.count_continents pc continent_order data = Ok counts /\
            Forall (fun kv => 0 < snd kv) counts /\
            conference_citation_rows pc continent_order fs conference
            = CSVGenerator.citation_rows conference counts
        else conference_citation_rows pc continent_order fs conference = []
    end.
Proof.
  intros fs conference.
  unfold citation_file, conference_citation_rows,
    CSVGenerator.add_conference_rows. cbv zeta.
  destruct (CSVGenerator.primary_exists fs conference); cbn [negb].
  - destruct (CSVGenerator.load_primary fs conference) as [data | e];
      [ | reflexivity ].
    destruct (truthy data); cbn [negb]; [ | reflexivity ].
    destruct (count_continents_ok data) as (counts & E & Hpos). rewrite E.
    exists counts. auto.
  - destruct (CSVGenerator.fallback_exists fs conference); cbn [negb];
      [ | reflexivity ].
    destruct (CSVGenerator.load_fallback fs conference) as [data | e];
      [ | reflexivity ].
    destruct (truthy data); cbn [negb]; [ | reflexivity ].
    destruct (count_continents_ok data) as (counts & E & Hpos). rewrite E.
    exists counts. auto.
Qed.

Lemma conference_citation_rows_ok :
  forall (fs : CSVGenerator.citations_files) (conference : string),
    Forall (fun r => 0 < CSVGenerator.Num_Papers r /\
                     CSVGenerator.cited_Conference r = conference /\
                     (CSVGenerator.primary_exists fs conference
                      || CSVGenerator.fallback_exists fs conference) = true)
           (conference_citation_rows pc continent_order fs conference).
Proof.
  intros fs conference.
  assert (H := conference_citation_rows_spec fs conference).
  unfold citation_file in H.
  assert (Hrows : forall data,
             (if truthy data then
                exists counts,
                  CSVGenerator.count_continents pc continent_order data
                  = Ok counts /\
                  Forall (fun kv => 0 < snd kv) counts /\
                  conference_citation_rows pc continent_order fs conference
                  = CSVGenerator.citation_rows conference counts
              else conference_citation_rows pc continent_order fs conference = []) ->
             (CSVGenerator.primary_exists fs conference
              || CSVGenerator.fallback_exists fs conference) = true ->
             Forall (fun r => 0 < CSVGenerator.Num_Papers r /\
                              CSVGenerator.cited_Conference r = conference /\
                              (CSVGenerator.primary_exists fs conference
                               || CSVGenerator.fallback_exists fs conference) = true)
                    (conference_citation_rows pc continent_order fs conference)).
  { intros data Hd Hor. destruct (truthy data); [ | rewrite Hd; constructor ].
    destruct Hd as (counts & _ & Hpos & ->).
    unfold CSVGenerator.citation_rows. apply Forall_forall.
    intros r Hin. apply in_map_iff in Hin. destruct Hin as (kv & <- & Hkv).
    cbn [CSVGenerator.Num_Papers CSVGenerator.cited_Conference].
    split; [ | split; [ reflexivity | exact Hor ] ].
    apply (proj1 (Forall_forall _ counts) Hpos kv Hkv). }
  destruct (CSVGenerator.primary_exists fs conference) eqn:Hp.
  - destruct (CSVGenerator.load_primary fs conference) as [data | e];
      [ apply (Hrows data H eq_refl) | rewrite H; constructor ].
  - destruct (CSVGenerator.fallback_exists fs conference) eqn:Hf;
      [ | rewrite H; constructor ].
    destruct (CSVGenerator.load_fallback fs conference) as [data | e];
      [ apply (Hrows data H eq_refl) | rewrite H; constructor ].
Qed.

Lemma add_conferences_rows_append :
  forall (fs : CSVGenerator.citations_files) (cs : list string)
         (all_rows : list CSVGenerator.citation_row),
    for_each (CSVGenerator.add_conference_rows pc continent_order fs) cs all_rows
    = Ok (all_rows
          ++ flat_map (conference_citation_rows pc continent_order fs) cs).
Proof.
  intros fs. induction cs as [ | c r IH ]; intros all_rows;
    cbn [for_each flat_map].
  - rewrite app_nil_r. reflexivity.
  - rewrite add_conference_rows_appends. cbn [bind].
    rewrite IH, <- app_assoc. reflexivity.
Qed.

(** X24. [generate_citations_csv] does not fail on what the files hold:
    when the directory exists and the CSV can be written it succeeds,
    whatever the citation files contain. Its rows are, conference after
    conference in ascending order, the rows of each conference by itself: a
    conference without a file, with a file that cannot be loaded, or with
    empty data adds no row and stops nothing, and any other adds one row
    for each continent counted in its data. Every row counts at least one
    citing paper, for a conference found in the directory whose primary or
    fallback file exists. The result counts the rows, and the file is left
    as it was when there is none. *)
Theorem generate_citations_csv_skips_bad_files :
  forall fs : CSVGenerator.citations_files,
    CSVGenerator.citations_exists fs = true ->
    writable (CSVGenerator.citations_csv fs) ->
    let rows :=
      flat_map (conference_citation_rows pc continent_order fs)
               (sorted (CSVGenerator.citation_conferences fs)) in
    CSVGenerator.generate_citations_csv pc continent_order fs =
    (CSVGenerator.Build_CSVGenerationResult (List.length rows) true None,
     saved rows) /\
    Forall (citation_row_ok fs) rows /\
    forall conference,
      match citation_file fs conference with
      | None => conference_citation_rows pc continent_order fs conference = []
      | Some (Raise _) =>
          conference_citation_rows pc continent_order fs conference = []
      | Some (Ok data) =>
          if truthy data then
            exists counts,
              CSVGenerator.count_continents pc continent_order data
              = Ok counts /\
              Forall (fun kv => 0 < snd kv) counts /\
              conference_citation_rows pc continent_order fs conference
              = CSVGenerator.citation_rows conference counts
          else conference_citation_rows pc continent_order fs conference = []
      end.
Proof.
  intros fs Hex (Hm & Ho & Hw). cbv zeta. split; [ | split ].
  - unfold CSVGenerator.generate_citations_csv. rewrite Hex. cbn [negb].
    rewrite add_conferences_rows_append. cbn [app].
    unfold FileManager.save_csv, saved. rewrite Hm.
    destruct (flat_map _ _) as [ | row rest ]; [ reflexivity | ].
    rewrite Ho, Hw. reflexivity.
  - apply Forall_forall. intros row Hin. apply in_flat_map in Hin.
    destruct Hin as (c & Hc & Hin).
    assert (Hok := proj1 (Forall_forall _ _)
                     (conference_citation_rows_ok fs c) row Hin).
    destruct Hok as (Hp & Hconf & He). unfold citation_row_ok.
    rewrite Hconf. split; [ exact Hp | ]. split; [ | exact He ].
    apply (Permutation_in _ (sorted_perm _) Hc).
  - apply conference_citation_rows_spec.
Qed.

End CitationsCSV.

(** ** The rows of the committee CSV *)

Lemma py_eqb_str : forall (s : string) (v : json),
  py_eqb (JStr s) v = true -> v = JStr s.
Proof.
  intros s v. destruct v; cbn [py_eqb]; try discriminate.
  intros H. apply String.eqb_eq in H. rewrite H. reflexivity.
Qed.

Lemma set_add_str : forall (s : string) (x : json) (acc : list json),
  In (JStr s) acc \/ x = JStr s -> In (JStr s) (set_add x acc).
Proof.
  intros s x acc H. unfold set_add.
  destruct (existsb (py_eqb x) acc) eqn:E.
  - destruct H as [H | ->]; [ exact H | ].
    apply existsb_exists in E. destruct E as (y & Hy & Ey).
    apply py_eqb_str in Ey. rewrite <- Ey. exact Hy.
  - rewrite in_app_iff. cbn [In]. destruct H as [H | ->]; auto.
Qed.

Lemma set_add_from : forall (t x : json) (acc : list json),
  In t (set_add x acc) -> In t acc \/ t = x.
Proof.
  intros t x acc. unfold set_add. destruct (existsb (py_eqb x) acc); [ auto | ].
  rewrite in_app_iff. cbn [In]. intros [H | [H | []]]; auto.
Qed.

Lemma add_institutions_spec :
  forall (items : list (string * json)) (names : list string)
         (countries : list json),
    (forall item, In item items -> truthy (snd item) = true ->
                  hashable (snd item) = true) ->
    exists countries',
      for_each CSVGenerator.add_institution items (names, countries)
      = Ok (names ++ map fst items, countries') /\
      (forall t, In t countries' ->
                 In t countries \/
                 (truthy t = true /\ exists inst, In (inst, t) items)) /\
      (forall s, In (JStr s) countries \/
                 (s <> "" /\ exists inst, In (inst, JStr s) items) ->
                 In (JStr s) countries').
Proof.
  induction items as [ | [inst v] r IH ]; intros names countries Hh;
    cbn [for_each map fst].
  - exists countries. rewrite app_nil_r. split; [ reflexivity | ].
    split; [ auto | ]. intros s [H | (_ & i & [])]. exact H.
  - unfold CSVGenerator.add_institution at 1. cbn [fst snd].
    assert (Hr : forall item, In item r -> truthy (snd item) = true ->
                              hashable (snd item) = true).
    { intros item Hin. apply Hh. right. exact Hin. }
    destruct (truthy v) eqn:Ht.
    + assert (Hv := Hh (inst, v) (or_introl eq_refl) Ht). cbn [snd] in Hv.
      rewrite Hv. cbn [bind].
      destruct (IH (names ++ [inst]) (set_add v countries) Hr)
        as (countries' & -> & Hfrom & Hto).
      exists countries'. rewrite <- app_assoc. split; [ reflexivity | ]. split.
      * intros t Hin. destruct (Hfrom t Hin) as [H | (Htt & i & Hi)].
        -- apply set_add_from in H. destruct H as [H | ->]; [ left; exact H | ].
           right. split; [ exact Ht | ]. exists inst. left. reflexivity.
        -- right. split; [ exact Htt | ]. exists i. right. exact Hi.
      * intros s [H | (Hs & i & [[= -> ->] | Hi])]; apply Hto.
        -- left. apply set_add_str. left. exact H.
        -- left. apply set_add_str. right. reflexivity.
        -- right. split; [ exact Hs | ]. exists i. exact Hi.
    + cbn [bind].
      destruct (IH (names ++ [inst]) countries Hr) as (countries' & -> & Hfrom & Hto).
      exists countries'. rewrite <- app_assoc. split; [ reflexivity | ]. split.
      * intros t Hin. destruct (Hfrom t Hin) as [H | (Htt & i & Hi)];
          [ left; exact H | ].
        right. split; [ exact Htt | ]. exists i. right. exact Hi.
      * intros s [H | (Hs & i & [[= -> ->] | Hi])]; apply Hto.
        -- left. exact H.
        -- exfalso. cbn [truthy] in Ht.
           apply (proj2 (String.eqb_neq s "")) in Hs. rewrite Hs in Ht.
           discriminate Ht.
        -- right. split; [ exact Hs | ]. exists i. exact Hi.
Qed.

Lemma add_institutions_raise :
  forall (items : list (string * json)) (st : list string * list json),
    (exists item, In item items /\ truthy (snd item) = true /\
                  hashable (snd item) = false) ->
    for_each CSVGenerator.add_institution items st = Raise TypeError.
Proof.
  induction items as [ | item r IH ]; intros st (bad & Hin & Ht & Hh);
    [ destruct Hin | ].
  cbn [for_each]. unfold CSVGenerator.add_institution at 1.
  destruct Hin as [-> | Hin].
  - rewrite Ht, Hh. reflexivity.
  - destruct (truthy (snd item)); [ destruct (hashable (snd item)) | ];
      cbn [bind]; try reflexivity; apply IH; exists bad; auto.
Qed.

Lemma add_country_continents_spec :
  forall (pc : pycountry) (l : list json) (acc : list string),
    NoDup acc ->
    exists continents,
      for_each (CSVGenerator.add_country_continent pc) l acc = Ok continents /\
      NoDup continents /\
      forall c, In c continents <->
                In c acc \/
                (c <> "" /\
                 exists country,
                   In country l /\
                   ContinentMapper.country_to_continent pc country = Ok (Some c)).
Proof.
  intros pc. induction l as [ | country r IH ]; intros acc Hnd; cbn [for_each].
  - exists acc. split; [ reflexivity | ]. split; [ exact Hnd | ].
    intros c. split; [ auto | ]. intros [H | (_ & x & [] & _)]. exact H.
  - assert (Hstep : exists acc',
               CSVGenerator.add_country_continent pc country acc = Ok acc' /\
               NoDup acc' /\
               forall c, In c acc' <->
                         In c acc \/
                         (c <> "" /\
                          ContinentMapper.country_to_continent pc country
                          = Ok (Some c))).
    { unfold CSVGenerator.add_country_continent.
      destruct (country_to_continent_ok pc country) as [continent ->].
      cbn [bind].
      assert (Hskip : (forall c, continent = Some c -> c = "") ->
                      exists acc',
                        Ok acc = Ok acc' /\ NoDup acc' /\
                        forall c, In c acc' <->
                                  In c acc \/
                                  (c <> "" /\ Ok continent = Ok (Some c))).
      { intros Hno. exists acc. split; [ reflexivity | ]. split; [ exact Hnd | ].
        intros c. split; [ auto | ]. intros [H | (Hc & [= E])]; [ exact H | ].
        exfalso. apply Hc. apply Hno. exact E. }
      destruct continent as [k | ]; cbn [ContinentMapper.nonempty];
        [ | apply Hskip; intros c E; discriminate E ].
      destruct (String.eqb_spec k "") as [-> | Hne]; cbn [negb];
        [ apply Hskip; intros c [= <-]; reflexivity | ].
      exists (str_set_add k acc). split; [ reflexivity | ].
      split; [ apply str_set_add_NoDup; exact Hnd | ].
      intros c. rewrite str_set_add_in. split.
      - intros [-> | H]; [ right; split; [ exact Hne | reflexivity ] | left; exact H ].
      - intros [H | (_ & [= <-])]; [ right; exact H | left; reflexivity ]. }
    destruct Hstep as (acc' & -> & Hnd' & Hin'). cbn [bind].
    destruct (IH acc' Hnd') as (continents & H & Hnd'' & Hin'').
    exists continents. split; [ exact H | ]. split; [ exact Hnd'' | ].
    intros c. rewrite Hin'', Hin'. cbn [In]. split.
    + intros [[Hc | (Hc & Hk)] | (Hc & x & Hx & Hk)]; auto.
      * right. split; [ exact Hc | ]. exists country. auto.
      * right. split; [ exact Hc | ]. exists x. auto.
    + intros [Hc | (Hc & x & [<- | Hx] & Hk)]; auto.
      right. split; [ exact Hc | ]. exists x. auto.
Qed.

Lemma resolved_country_is_str :
  forall (pc : pycountry) (country : json) (c : string),
    ContinentMapper.country_to_continent pc country = Ok (Some c) ->
    exists s, country = JStr s.
Proof.
  intros pc country c H.
  destruct country as [ | | | s | | ]; try discriminate H.
  exists s. reflexivity.
Qed.

Section CommitteeRows.

Variable pc : pycountry.
Variable set_order : list json -> list json.
Variable continent_order : list string -> list string.
Hypothesis set_order_permutes : forall l, Permutation (set_order l) l.
Hypothesis continent_order_permutes : forall l, Permutation (continent_order l) l.

(** X25. A row of the committee CSV. For a member whose countries can be
    members of a set, [add_member] adds one row without an exception, with
    the conference, the year and the name of the member. Its Continent cell
    lists, joined by semicolons, in ascending order and each once, the
    non-empty continents the countries of the member resolve to, and is
    empty when there is none, whatever the order in which the sets are
    iterated. A member with a non-empty list or dict for a country raises
    TypeError instead. *)
Theorem committee_row_of_a_member :
  forall (conference year member_name : string) (institutions : json)
         (all_rows : list CSVGenerator.committee_row),
    (countries_hashable institutions ->
     exists row continents,
       CSVGenerator.add_member pc set_order continent_order conference year
         (member_name, institutions) all_rows = Ok (all_rows ++ [row]) /\
       CSVGenerator.committee_Conference row = conference /\
       CSVGenerator.committee_Year row = year /\
       CSVGenerator.Name row = member_name /\
       CSVGenerator.committee_Continent row = cell continents /\
       ascending continents /\ NoDup continents /\
       forall c, In c continents <->
                 c <> "" /\
                 exists country,
                   member_country institutions country /\
                   ContinentMapper.country_to_continent pc (JStr country)
                   = Ok (Some c)) /\
    (forall items,
        institutions = JDict items ->
        (exists item, In item items /\ truthy (snd item) = true /\
                      hashable (snd item) = false) ->
        CSVGenerator.add_member pc set_order continent_order conference year
          (member_name, institutions) all_rows = Raise TypeError).
Proof.
  intros conference year member_name institutions all_rows. split.
  - intros Hh. unfold CSVGenerator.add_member. cbn [fst snd].
    assert (Hc : exists names countries,
               match institutions with
               | JDict items =>
                   for_each CSVGenerator.add_institution items ([], [])
               | JStr _ => Ok ([], [institutions])
               | _ => Ok ([], [])
               end = Ok (names, countries) /\
               (forall t, In t countries ->
                          forall s, t = JStr s -> member_country institutions s) /\
               (forall s, member_country institutions s -> In (JStr s) countries)).
    { destruct institutions as [ | | | s | | items ];
        try (exists [], []; split; [ reflexivity | ];
             split; [ intros t [] | intros s [] ]).
      - exists [], [JStr s]. split; [ reflexivity | ]. cbn [member_country In].
        split.
        + intros t [<- | []] s' [= <-]. reflexivity.
        + intros s' ->. left. reflexivity.
      - destruct (add_institutions_spec items [] [] Hh)
          as (countries & H & Hfrom & Hto).
        exists (map fst items), countries. split; [ exact H | ].
        cbn [member_country]. split.
        + intros t Hin s ->. destruct (Hfrom _ Hin) as [[] | (Ht & i & Hi)].
          split; [ | exists i; exact Hi ].
          cbn [truthy] in Ht. intros ->. discriminate Ht.
        + intros s Hs. apply Hto. right. exact Hs. }
    destruct Hc as (names & countries & -> & Hfrom & Hto). cbn [bind].
    destruct (add_country_continents_spec pc (set_order countries) []
                (NoDup_nil _)) as (continents & -> & Hnd & Hin).
    cbn [bind]. cbv zeta.
    assert (Hp : Permutation (sorted (continent_order continents)) continents).
    { apply perm_trans with (l' := continent_order continents);
        [ apply sorted_perm | apply continent_order_permutes ]. }
    eexists. exists (sorted (continent_order continents)).
    split; [ reflexivity | ].
    cbn [CSVGenerator.committee_Conference CSVGenerator.committee_Year
         CSVGenerator.Name CSVGenerator.committee_Continent].
    split; [ reflexivity | ]. split; [ reflexivity | ]. split; [ reflexivity | ].
    split.
    { destruct continents as [ | c0 rest ].
      - apply Permutation_sym, Permutation_nil in Hp. rewrite Hp. reflexivity.
      - destruct (sorted (continent_order (c0 :: rest))) eqn:E; [ | reflexivity ].
        apply Permutation_nil in Hp. discriminate Hp. }
    split; [ apply sorted_ascending | ].
    split; [ apply (Permutation_NoDup (Permutation_sym Hp) Hnd) | ].
    intros c. split.
    + intros Hc. apply (Permutation_in _ Hp) in Hc. apply Hin in Hc.
      destruct Hc as [[] | (Hne & country & Hcountry & Hk)].
      split; [ exact Hne | ].
      destruct (resolved_country_is_str pc country c Hk) as [s ->].
      exists s. split; [ | exact Hk ].
      apply (Hfrom (JStr s)); [ | reflexivity ].
      apply (Permutation_in _ (set_order_permutes countries) Hcountry).
    + intros (Hne & s & Hs & Hk).
      apply (Permutation_in _ (Permutation_sym Hp)). apply Hin. right.
      split; [ exact Hne | ]. exists (JStr s). split; [ | exact Hk ].
      apply (Permutation_in _ (Permutation_sym (set_order_permutes countries))).
      apply Hto. exact Hs.
  - intros items -> Hbad. unfold CSVGenerator.add_member. cbn [fst snd].
    rewrite (add_institutions_raise items ([], []) Hbad). reflexivity.
Qed.

End CommitteeRows.

(** ** The properties on the sample data *)

Lemma predominant_continent_accounting_witness :
  get_predominant_continent Sample.pc Sample.insertion_order
    (JList Sample.mixed_authors) = Ok (["NA"; "Unknown"], 1, 1) /\
  1 = List.length (filter without_institutions Sample.mixed_authors) /\
  exists votes,
    votes_cast Sample.pc Sample.insertion_order (JList Sample.mixed_authors)
    = Ok votes /\
    (["NA"; "Unknown"] = [] <-> votes = []) /\
    1 <= votes_for votes "Unknown".
Proof.
  split; [ reflexivity | ].
  apply (predominant_continent_accounting Sample.pc Sample.insertion_order
           Sample.mixed_authors ["NA"; "Unknown"] 1 1).
  reflexivity.
Defined.

Lemma predominant_continent_without_institutions_witness :
  forallb without_institutions [Sample.author []; Sample.author []] = true /\
  get_predominant_continent Sample.pc Sample.insertion_order
    (JList [Sample.author []; Sample.author []]) = Ok ([], 2, 0).
Proof.
  split; [ reflexivity | ].
  apply (predominant_continent_without_institutions Sample.pc
           Sample.insertion_order [Sample.author []; Sample.author []]).
  reflexivity.
Defined.

Lemma normalize_alpha2_gives_two_upper_case_letters_witness :
  ascii_text " us " = true /\
  normalize_alpha2 (JStr " us ") = Some "US" /\
  String.length "US" = 2 /\ forall_string is_upper "US" = true.
Proof.
  split; [ reflexivity | ]. split; [ reflexivity | ].
  apply (normalize_alpha2_gives_two_upper_case_letters (JStr " us ") "US").
  - intros s [= <-]. reflexivity.
  - reflexivity.
Defined.

Lemma normalization_keeps_the_classification_witness :
  ascii_text "  IBM Research " = true /\
  company_pattern_search (strip (lower "  IBM Research "))
  = company_pattern_search "  IBM Research " /\
  classify_paper
    (map (option_map (fun name => strip (lower name)))
         [None; Some "  IBM Research "])
  = classify_paper [None; Some "  IBM Research "].
Proof.
  destruct normalization_keeps_the_classification as [Hname Hlist].
  split; [ reflexivity | ]. split.
  - apply Hname. reflexivity.
  - apply Hlist. intros name [H | [[= <-] | []]]; [ discriminate H | reflexivity ].
Defined.

Lemma extract_institutions_normalizes_names_witness :
  extract_institutions Sample.google_paper = Ok [Some "google"; Some "google"] /\
  ascii_json Sample.google_paper = true /\
  lower "google" = "google" /\ strip "google" = "google" /\
  ascii_text "google" = true.
Proof.
  split; [ reflexivity | ]. split; [ reflexivity | ].
  apply (proj1 (extract_institutions_normalizes_names Sample.google_paper
                  [Some "google"; Some "google"] eq_refl)).
  - intros authors [= <-]. reflexivity.
  - left. reflexivity.
Defined.

Lemma analyze_year_counts_every_paper_once_witness :
  exists stats,
    _analyze_year (JList Sample.reduced_year) = Ok stats /\
    has_big_tech stats + no_big_tech stats + stats_all_none stats
    = total_papers stats.
Proof.
  eexists. split; [ vm_compute; reflexivity | ].
  apply (analyze_year_counts_every_paper_once (JList Sample.reduced_year)).
  vm_compute. reflexivity.
Defined.

Lemma analyze_conference_year_by_year_witness :
  NoDup (map fst Sample.raw_conference) /\
  exists stats,
    analyze_conference "nsdi" (JDict Sample.raw_conference) = Ok stats /\
    Forall2 (fun item entry =>
               fst entry = fst item /\ _analyze_year (snd item) = Ok (snd entry))
            Sample.raw_conference stats.
Proof.
  assert (Hnd : NoDup (map fst Sample.raw_conference)).
  { repeat constructor; cbn [map fst In]; intuition discriminate. }
  split; [ exact Hnd | ].
  eexists. split; [ vm_compute; reflexivity | ].
  apply (proj2 (analyze_conference_year_by_year "nsdi" Sample.raw_conference Hnd)).
  vm_compute. reflexivity.
Defined.

Lemma analyze_all_conferences_conference_by_conference_witness :
  dir_exists Sample.scenario = true /\
  analyze_all_conferences Sample.scenario =
  Ok (flat_map (conference_rows Sample.scenario) (conferences Sample.scenario)).
Proof.
  split; [ reflexivity | ].
  apply (proj2 (analyze_all_conferences_conference_by_conference Sample.scenario)).
  reflexivity.
Defined.

Lemma table_by_continent_has_rows_for_buckets_with_papers_witness :
  exists stats,
    for_each count_paper Sample.reduced_year initial_continent_stats = Ok stats /\
    map fst stats = ["NA"; "EU"; "AS"; "Other"] /\
    Forall bucket_ok stats /\
    counted stats <= List.length Sample.reduced_year /\
    map level_2 (rows_of_year "nsdi" "2020" stats) =
    map bucket_label (filter has_paper stats).
Proof.
  eexists. split; [ vm_compute; reflexivity | ].
  match goal with
  | |- map fst ?s = _ /\ _ =>
      destruct (table_by_continent_has_rows_for_buckets_with_papers
                  Sample.reduced_year s) as (Hk & Hok & Hc & Hrows);
        [ vm_compute; reflexivity | ]
  end.
  split; [ exact Hk | ]. split; [ exact Hok | ]. split; [ exact Hc | ].
  apply (proj1 (Hrows "nsdi" "2020")).
Defined.

Lemma process_paper_keeps_the_names_witness :
  exists processed stats,
    DataReducer.process_paper Sample.pc Sample.insertion_order
      Sample.tied_paper "2020" = Ok (processed, stats) /\
    extract_institutions processed = extract_institutions Sample.tied_paper /\
    DataReducer.total_papers stats = 1 /\
    DataReducer.papers_with_continent stats <= 1 /\
    DataReducer.papers_without_sufficient_data stats <= 1.
Proof.
  eexists. eexists. split; [ vm_compute; reflexivity | ].
  apply (process_paper_keeps_the_names Sample.pc Sample.insertion_order
           Sample.tied_paper "2020").
  vm_compute. reflexivity.
Defined.

Lemma process_conference_keeps_years_and_papers_witness :
  NoDup (map fst Sample.raw_conference) /\
  exists data stats,
    DataReducer.process_conference Sample.pc Sample.insertion_order "nsdi"
      (JDict Sample.raw_conference) = Ok (data, stats) /\
    Forall2 year_processed Sample.raw_conference data /\
    DataReducer.total_papers stats = list_sum (map papers_in data) /\
    DataReducer.papers_with_continent stats <= DataReducer.total_papers stats.
Proof.
  assert (Hnd : NoDup (map fst Sample.raw_conference)).
  { repeat constructor; cbn [map fst In]; intuition discriminate. }
  split; [ exact Hnd | ].
  eexists. eexists. split; [ vm_compute; reflexivity | ].
  eapply (process_conference_keeps_years_and_papers Sample.pc
           Sample.insertion_order "nsdi" Sample.raw_conference _ _ Hnd).
  vm_compute. reflexivity.
Defined.

Lemma statistics_of_processed_data_witness :
  NoDup (map fst Sample.raw_conference) /\
  exists data stats,
    DataReducer.process_conference Sample.pc Sample.insertion_order "nsdi"
      (JDict Sample.raw_conference) = Ok (data, stats) /\
    analyze_conference "nsdi" (JDict data)
    = analyze_conference "nsdi" (JDict Sample.raw_conference).
Proof.
  assert (Hnd : NoDup (map fst Sample.raw_conference)).
  { repeat constructor; cbn [map fst In]; intuition discriminate. }
  split; [ exact Hnd | ].
  eexists. eexists. split; [ vm_compute; reflexivity | ].
  eapply (statistics_of_processed_data Sample.pc Sample.insertion_order "nsdi"
           Sample.raw_conference _ _ Hnd).
  vm_compute. reflexivity.
Defined.

Lemma merge_json_updates_the_keys_witness :
  NoDup (map fst Sample.new_entries) /\
  exists merged,
    FileManager.merge_json Sample.save_ok
      (Some (Ok (JDict Sample.old_entries))) (JDict Sample.new_entries)
    = Ok (Some (JDict merged)) /\
    (forall k, lookup k merged =
               match lookup k Sample.new_entries with
               | Some v => Some v
               | None => lookup k Sample.old_entries
               end) /\
    (exists added, map fst merged = map fst Sample.old_entries ++ added) /\
    FileManager.merge_json Sample.save_ok
      (Some (Ok (JDict merged))) (JDict Sample.new_entries)
    = Ok (Some (JDict merged)).
Proof.
  assert (Hnd : NoDup (map fst Sample.new_entries)).
  { repeat constructor; cbn [map fst In]; intuition discriminate. }
  split; [ exact Hnd | ].
  destruct (merge_json_updates_the_keys Sample.save_ok Sample.old_entries
              Sample.new_entries (fun _ => eq_refl) Hnd)
    as (merged & Hm & Hl & Hk & Hi & _).
  exists merged. auto.
Defined.

Lemma citation_counts_count_citing_papers_witness :
  exists counts,
    CSVGenerator.count_continents Sample.pc Sample.continent_insertion_order
      (JDict Sample.citing_data) = Ok counts /\
    NoDup (map fst counts) /\
    forall c,
      match lookup c counts with
      | Some n =>
          0 < n /\
          n = List.length (filter (cites_from Sample.pc c)
                                  (citing_papers Sample.citing_data))
      | None =>
          List.length (filter (cites_from Sample.pc c)
                              (citing_papers Sample.citing_data)) = 0
      end.
Proof.
  apply (citation_counts_count_citing_papers Sample.pc
           Sample.continent_insertion_order
           (fun l => Permutation_refl l) Sample.citing_data).
Defined.

Lemma generate_papers_csv_fails_as_a_whole_witness :
  CSVGenerator.processed_exists Sample.broken_directory = true /\
  In "osdi_data" (CSVGenerator.data_stems Sample.broken_directory) /\
  CSVGenerator.load_json Sample.broken_directory "osdi_data"
  = Raise JSONDecodeError /\
  exists e,
    CSVGenerator.generate_papers_csv Sample.broken_directory
    = failed_with e FileManager.Untouched.
Proof.
  split; [ reflexivity | ].
  split; [ right; left; reflexivity | ].
  split; [ reflexivity | ].
  apply (proj1 (proj2 (generate_papers_csv_fails_as_a_whole Sample.broken_directory)
                      eq_refl)
               "osdi_data" JSONDecodeError).
  - right. left. reflexivity.
  - reflexivity.
  - reflexivity.
Defined.

Lemma papers_csv_of_processed_data_witness :
  NoDup (map fst Sample.raw_conference) /\
  exists data stats rows,
    DataReducer.process_conference Sample.pc Sample.insertion_order "nsdi"
      (JDict Sample.raw_conference) = Ok (data, stats) /\
    CSVGenerator.add_data "nsdi" (JDict data) [] = Ok ([] ++ rows) /\
    List.length rows = DataReducer.total_papers stats /\
    List.length (filter with_continent rows)
    = DataReducer.papers_with_continent stats /\
    Forall (fun r => CSVGenerator.Conference r = "nsdi" /\
                     In (CSVGenerator.Year r) (map fst Sample.raw_conference))
           rows.
Proof.
  assert (Hnd : NoDup (map fst Sample.raw_conference)).
  { repeat constructor; cbn [map fst In]; intuition discriminate. }
  split; [ exact Hnd | ].
  destruct (DataReducer.process_conference Sample.pc Sample.insertion_order
              "nsdi" (JDict Sample.raw_conference))
    as [[data stats] | e] eqn:H; [ | vm_compute in H; discriminate H ].
  destruct (papers_csv_of_processed_data Sample.pc Sample.insertion_order
              "nsdi" "nsdi" Sample.raw_conference data stats [] Hnd H)
    as (rows & Hrows).
  exists data, stats, rows. split; [ reflexivity | exact Hrows ].
Defined.

Lemma by_continent_counts_papers_with_a_continent_witness :
  exists processed stats counted_stats,
    DataReducer.process_paper Sample.pc Sample.insertion_order
      Sample.google_paper "2020" = Ok (processed, stats) /\
    count_paper processed initial_continent_stats = Ok counted_stats /\
    map fst counted_stats = map fst initial_continent_stats /\
    counted counted_stats
    <= counted initial_continent_stats + DataReducer.papers_with_continent stats.
Proof.
  destruct (DataReducer.process_paper Sample.pc Sample.insertion_order
              Sample.google_paper "2020")
    as [[processed stats] | e] eqn:H; [ | vm_compute in H; discriminate H ].
  destruct (by_continent_counts_papers_with_a_continent Sample.pc
              Sample.insertion_order Sample.google_paper "2020" processed stats
              [Some "google"; Some "google"] initial_continent_stats
              H eq_refl eq_refl)
    as (counted_stats & Hc & Hk & Hle & _).
  exists processed, stats, counted_stats. auto.
Defined.

Lemma process_all_conferences_conference_by_conference_witness :
  DataReducer.extended_exists Sample.extended_directory = true /\
  DataReducer.make_output_dir Sample.extended_directory = Ok tt /\
  NoDup (map fst (flat_map (conference_stats Sample.pc Sample.insertion_order
                              Sample.extended_directory)
                           (FileManager.get_conferences_from_directory
                              true
                              (DataReducer.globbed Sample.extended_directory)
                              "_extended_data.json"))).
Proof.
  split; [ reflexivity | ]. split; [ reflexivity | ].
  apply (proj1 (proj2 (proj2 (proj2 (process_all_conferences_conference_by_conference
                                       Sample.pc Sample.insertion_order
                                       Sample.extended_directory))
                             eq_refl eq_refl))).
Defined.

Lemma generate_citations_csv_skips_bad_files_witness :
  CSVGenerator.citations_exists Sample.citations_directory = true /\
  writable (CSVGenerator.citations_csv Sample.citations_directory) /\
  CSVGenerator.load_primary Sample.citations_directory "osdi"
  = Raise JSONDecodeError /\
  conference_citation_rows Sample.pc Sample.continent_insertion_order
    Sample.citations_directory "osdi" = [] /\
  CSVGenerator.generate_citations_csv Sample.pc Sample.continent_insertion_order
    Sample.citations_directory =
  (CSVGenerator.Build_CSVGenerationResult 2 true None,
   FileManager.Written
     [ CSVGenerator.Build_citation_row "nsdi" "NA" 2;
       CSVGenerator.Build_citation_row "nsdi" "EU" 1 ]).
Proof.
  assert (Hw : writable (CSVGenerator.citations_csv Sample.citations_directory)).
  { split; [ reflexivity | ]. split; [ reflexivity | ]. intros rows. reflexivity. }
  destruct (generate_citations_csv_skips_bad_files Sample.pc
              Sample.continent_insertion_order (fun l => Permutation_refl l)
              Sample.citations_directory eq_refl Hw) as (Hrun & _ & Hspec).
  split; [ reflexivity | ]. split; [ exact Hw | ]. split; [ reflexivity | ].
  split.
  - apply (Hspec "osdi").
  - rewrite Hrun. vm_compute. reflexivity.
Defined.

Lemma committee_row_of_a_member_witness :
  countries_hashable Sample.member_institutions /\
  exists row continents,
    CSVGenerator.add_member Sample.pc Sample.insertion_order
      Sample.continent_insertion_order "nsdi" "2020"
      ("Ada", Sample.member_institutions) [] = Ok ([] ++ [row]) /\
    CSVGenerator.committee_Conference row = "nsdi" /\
    CSVGenerator.committee_Year row = "2020" /\
    CSVGenerator.Name row = "Ada" /\
    CSVGenerator.committee_Continent row = cell continents /\
    ascending continents /\ NoDup continents /\
    forall c, In c continents <->
              c <> "" /\
              exists country,
                member_country Sample.member_institutions country /\
                country_to_continent Sample.pc (JStr country) = Ok (Some c).
Proof.
  assert (Hh : countries_hashable Sample.member_institutions).
  { intros item [<- | [<- | [<- | []]]] Ht; reflexivity. }
  split; [ exact Hh | ].
  apply (proj1 (committee_row_of_a_member Sample.pc Sample.insertion_order
                  Sample.continent_insertion_order
                  (fun l => Permutation_refl l) (fun l => Permutation_refl l)
                  "nsdi" "2020" "Ada" Sample.member_institutions [])).
  exact Hh.
Defined.
